(** * Telegram image-edit bot: image operations, fallbacks and menu routers

    A shallow embedding of the Python sources

    - [ai_apis.py]          ([AIImageProcessor]),
    - [image_processor.py]  ([SimpleImageProcessor]),
    - [bot_simple.py]       ([SimpleTelegramBot]),
    - [webhook_server.py]   (module-level handlers),
    - [deepseek_python_20251015_f33cc7.py] ([TelegramBot]),

    followed by the properties the specification states about them.

    Modelling conventions.

    - Python [int] is [Z]; [//] is [Z.div]; [int(x)] truncates.
    - Python [float] quotients are modelled by exact rationals ([Q]); the
      concrete inputs used below only involve quotients that binary64
      represents exactly or that lie far away from a rounding boundary.
    - [str] is [string] (bytes); [lower()] is ASCII lower-casing.
    - The local disk is a finite map from paths to files; an image file
      records the encoder, the pixel mode and the (positive) size.  Pixel
      values are not modelled.
    - The Pillow primitives used by the sources ([Image.open], [convert],
      [resize], [crop], [save]) are modelled with the failure modes that the
      sources can run into: a missing or undecodable file, an empty target
      size, a pixel mode the chosen encoder does not write, and an unknown
      file extension.  Disk writes themselves are assumed to succeed.
    - [datetime.now()] / [uuid.uuid4()] and the remote HTTP services are
      oracles of the environment.
    - Exceptions are values of [exn]; effects before a [raise] persist.
    - A [while] loop is unrolled a number of times computed from its bound;
      [LoopBudgetExhausted] marks an unrolling that was too short and is shown
      never to occur. *)

From Stdlib Require Import ZArith QArith Qround Lia String Ascii List Bool.
From Stdlib Require Import DecimalString DecimalZ.
From stdpp Require Import base option gmap strings.

Local Open Scope string_scope.
Local Open Scope Z_scope.

(** ** Python numerics *)

(** [a / b] on two [int]s (true division). *)
Definition truediv (a b : Z) : Q := (inject_Z a / inject_Z b)%Q.

(** [int(x)]: truncation towards zero. *)
Definition py_int (x : Q) : Z := Z.quot (Qnum x) (Z.pos (Qden x)).

(** [x > y] on floats. *)
Definition Qgtb (x y : Q) : bool := negb (Qle_bool x y).

(** [min(x, y)]: the first argument unless the second is strictly smaller. *)
Definition py_min (x y : Q) : Q := if Qgtb x y then y else x.

(** [max(x, y)]: the first argument unless the second is strictly larger. *)
Definition py_max (x y : Q) : Q := if Qgtb y x then y else x.

(** ** Python strings and paths *)

Definition lower_ascii (c : ascii) : ascii :=
  let n := N_of_ascii c in
  if ((65 <=? n) && (n <=? 90))%N then ascii_of_N (n + 32) else c.

(** [s.lower()] *)
Fixpoint lower (s : string) : string :=
  match s with
  | EmptyString => EmptyString
  | String c s' => String (lower_ascii c) (lower s')
  end.

Definition upper_ascii (c : ascii) : ascii :=
  let n := N_of_ascii c in
  if ((97 <=? n) && (n <=? 122))%N then ascii_of_N (n - 32) else c.

(** [s.upper()] *)
Fixpoint upper (s : string) : string :=
  match s with
  | EmptyString => EmptyString
  | String c s' => String (upper_ascii c) (upper s')
  end.

Definition is_alpha (c : ascii) : bool :=
  let n := N_of_ascii c in
  (((65 <=? n) && (n <=? 90)) || ((97 <=? n) && (n <=? 122)))%N.

Fixpoint title_go (in_word : bool) (s : string) : string :=
  match s with
  | EmptyString => EmptyString
  | String c s' =>
      if is_alpha c
      then String (if in_word then lower_ascii c else upper_ascii c) (title_go true s')
      else String c (title_go false s')
  end.

(** [s.title()] *)
Definition title (s : string) : string := title_go false s.

(** [s.replace(a, b)] for single characters. *)
Fixpoint replace_char (a b : ascii) (s : string) : string :=
  match s with
  | EmptyString => EmptyString
  | String c s' => String (if Ascii.eqb c a then b else c) (replace_char a b s')
  end.

(** [s.startswith(p)] *)
Definition startswith (s p : string) : bool := String.prefix p s.

(** [str(n)] for an [int]. *)
Definition str (n : Z) : string := NilZero.string_of_int (Z.to_int n).

Definition ascii_eqb (a b : ascii) : bool := Ascii.eqb a b.

(** [s.replace(pat, empty)] for a non-empty [pat]: every non-overlapping
    occurrence, scanning from the left, is dropped.  [skip] counts the
    characters of a matched occurrence still to be dropped. *)
Fixpoint remove_all_go (pat : string) (skip : nat) (s : string) : string :=
  match s with
  | EmptyString => EmptyString
  | String c s' =>
      match skip with
      | S k => remove_all_go pat k s'
      | O =>
          if String.prefix pat s
          then remove_all_go pat (Nat.pred (String.length pat)) s'
          else String c (remove_all_go pat O s')
      end
  end.

Definition remove_all (pat s : string) : string := remove_all_go pat O s.

(** The part of [s] after the last occurrence of [d], if [d] occurs. *)
Fixpoint after_last (d : ascii) (s : string) : option string :=
  match s with
  | EmptyString => None
  | String c s' =>
      match after_last d s' with
      | Some r => Some r
      | None => if ascii_eqb c d then Some s' else None
      end
  end.

Definition slash : ascii := "/"%char.
Definition dot : ascii := "."%char.

(** [os.path.basename(p)] *)
Definition basename (p : string) : string :=
  match after_last slash p with
  | Some r => r
  | None => p
  end.

(** [s] cut at its last occurrence of [d]: the part before it and the part
    from it on. *)
Fixpoint split_last (d : ascii) (s : string) : option (string * string) :=
  match s with
  | EmptyString => None
  | String c s' =>
      match split_last d s' with
      | Some (a, b) => Some (String c a, b)
      | None => if ascii_eqb c d then Some (EmptyString, s) else None
      end
  end.

Fixpoint all_dots (s : string) : bool :=
  match s with
  | EmptyString => true
  | String c s' => ascii_eqb c dot && all_dots s'
  end.

Fixpoint has_char (d : ascii) (s : string) : bool :=
  match s with
  | EmptyString => false
  | String c s' => ascii_eqb c d || has_char d s'
  end.

(** [os.path.splitext(p)]: the extension starts at the last dot, provided
    that dot comes after the last slash and is preceded, within the file
    name, by a character that is not a dot. *)
Definition splitext (p : string) : string * string :=
  match split_last dot p with
  | Some (root, ext) =>
      if has_char slash ext then (p, EmptyString)
      else if all_dots (basename root) then (p, EmptyString)
      else (root, ext)
  | None => (p, EmptyString)
  end.

(** [os.path.join(a, b)] *)
Definition os_path_join (a b : string) : string :=
  if startswith b "/" then b
  else match after_last slash a with
       | Some EmptyString => a ++ b
       | _ => if String.eqb a EmptyString then b else a ++ "/" ++ b
       end.

(** ** Images, files and the Pillow primitives *)

(** Pixel modes of Pillow. *)
Inductive pil_mode :=
| M1 | L | LA | P | PA | RGB | RGBA | RGBX | CMYK | YCbCr | I | F.

Definition mode_eqb (a b : pil_mode) : bool :=
  match a, b with
  | M1, M1 | L, L | LA, LA | P, P | PA, PA | RGB, RGB | RGBA, RGBA
  | RGBX, RGBX | CMYK, CMYK | YCbCr, YCbCr | I, I | F, F => true
  | _, _ => false
  end.

(** Modes that carry an alpha band. *)
Definition has_alpha (m : pil_mode) : bool :=
  match m with
  | LA | PA | RGBA => true
  | _ => false
  end.

(** An in-memory image. *)
Record image := { mode : pil_mode; width : Z; height : Z }.

(** Encoders.  [Plugin ext] stands for any further encoder registered for
    the extension [ext]. *)
Inductive format := JPEG | PNG | WEBP | Plugin (ext : string).

(** A file on disk: an encoded image (its size is positive, Pillow does not
    write empty images) or bytes that do not decode. *)
Inductive file :=
| ImageFile (fmt : format) (m : pil_mode) (w h : positive)
| RawFile (bytes : list Z).

(** Exceptions raised by the modelled code. *)
Inductive exn :=
| FileNotFoundError (path : string)
| UnidentifiedImageError (path : string)
| ValueError (msg : string)
| OSError (msg : string)
| KeyError (key : string)
| RequestException
| LoopBudgetExhausted.

Inductive result (A : Type) :=
| Ok (a : A)
| Raise (e : exn).
Arguments Ok {A} a.
Arguments Raise {A} e.

(** Entries of the processor journal: a method entered, a request posted. *)
Inductive journal_entry :=
| Called (method : string) (path : string)
| Posted (url : string) (path : string).

(** The state an image processor works on. *)
Record disk := {
  files : gmap string file;
  drawn : nat;
  journal : list journal_entry
}.

(** Outcome of [requests.post]. *)
Inductive http_outcome :=
| ConnectionError
| Response (status_code : Z) (content : file).

(** The environment of a process. *)
Record env := {
  REMOVEBG_API_KEY : option string;
  PHOTOROOM_API_KEY : option string;
  (** the [n]-th (timestamp, first eight uuid characters) pair *)
  now_uuid : nat -> string * string;
  (** https://api.remove.bg/v1.0/removebg *)
  removebg_post : file -> http_outcome;
  (** https://sdk.photoroom.com/v1/segment *)
  photoroom_post : file -> http_outcome;
  (** encoders registered for extensions other than jpg/jpeg/png/webp,
      with the modes each of them writes *)
  EXTENSION : string -> option (pil_mode -> bool)
}.

(** State passing with exceptions, over a state [S]. *)
Definition St (S A : Type) : Type := S -> S * result A.

Definition ret {S A} (a : A) : St S A := fun s => (s, Ok a).
Definition raise {S A} (e : exn) : St S A := fun s => (s, Raise e).
Definition bind {S A B} (m : St S A) (k : A -> St S B) : St S B :=
  fun s => match m s with
           | (s', Ok a) => k a s'
           | (s', Raise e) => (s', Raise e)
           end.
(** [try: body  except Exception as e: handler(e)] *)
Definition try_except {S A} (body : St S A) (handler : exn -> St S A) : St S A :=
  fun s => match body s with
           | (s', Ok a) => (s', Ok a)
           | (s', Raise e) => handler e s'
           end.

(** The processor monad. *)
Definition M (A : Type) : Type := St disk A.

Declare Scope proc_scope.
Delimit Scope proc_scope with proc.
Notation "'let*' x := c1 'in' c2" := (bind c1 (fun x => c2))
  (at level 10, x name, c1 at level 200, c2 at level 200, only parsing) : proc_scope.
Local Open Scope proc_scope.

Definition note (e : journal_entry) : M unit :=
  fun d => ({| files := files d; drawn := drawn d;
               journal := journal d ++ [e] |}, Ok tt).

Definition write_file (path : string) (f : file) : M unit :=
  fun d => ({| files := <[path := f]> (files d); drawn := drawn d;
               journal := journal d |}, Ok tt).

(** [open(path, 'rb').read()] *)
Definition read_file (path : string) : M file :=
  fun d => match files d !! path with
           | Some f => (d, Ok f)
           | None => (d, Raise (FileNotFoundError path))
           end.

(** [Image.open(path)] *)
Definition Image_open (path : string) : M image :=
  fun d => match files d !! path with
           | Some (ImageFile _ m w h) =>
               (d, Ok {| mode := m; width := Z.pos w; height := Z.pos h |})
           | Some (RawFile _) => (d, Raise (UnidentifiedImageError path))
           | None => (d, Raise (FileNotFoundError path))
           end.

(** [img.convert(m)] *)
Definition convert (img : image) (m : pil_mode) : image :=
  {| mode := m; width := width img; height := height img |}.

(** [Image.new(m, (w, h))] *)
Definition Image_new (m : pil_mode) (w h : Z) : image :=
  {| mode := m; width := w; height := h |}.

(** [img.resize((w, h), LANCZOS)]: a size below one pixel is refused. *)
Definition resize (img : image) (w h : Z) : M image :=
  if (w <? 1) || (h <? 1)
  then raise (ValueError "height and width must be > 0")
  else ret {| mode := mode img; width := w; height := h |}.

(** [img.crop((left, top, right, bottom))] *)
Definition crop (img : image) (left top right bottom : Z) : M image :=
  if right <? left then raise (ValueError "Coordinate 'right' is less than 'left'")
  else if bottom <? top then raise (ValueError "Coordinate 'lower' is less than 'upper'")
  else ret {| mode := mode img; width := right - left; height := bottom - top |}.

(** Modes each encoder writes. *)
Definition writes (ev : env) (fmt : format) (m : pil_mode) : bool :=
  match fmt with
  | JPEG => match m with
            | M1 | L | RGB | RGBX | CMYK | YCbCr => true
            | _ => false
            end
  | PNG => match m with
           | M1 | L | LA | I | P | RGB | RGBA => true
           | _ => false
           end
  | WEBP => true
  | Plugin ext => match EXTENSION ev ext with
                  | Some accepts => accepts m
                  | None => false
                  end
  end.

(** The mode a written file decodes to. *)
Definition stored_mode (fmt : format) (m : pil_mode) : pil_mode :=
  match fmt with
  | JPEG => match m with
            | M1 => L
            | RGBX | YCbCr => RGB
            | _ => m
            end
  | WEBP => match m with
            | RGB | RGBA => m
            | RGBX => RGB
            | _ => if has_alpha m then RGBA else RGB
            end
  | _ => m
  end.

(** A failed [save] removes the file it created and leaves a file that was
    already there truncated. *)
Definition spoil (path : string) (e : exn) : M unit :=
  fun d => match files d !! path with
           | Some _ => ({| files := <[path := RawFile []]> (files d);
                           drawn := drawn d; journal := journal d |}, Raise e)
           | None => (d, Raise e)
           end.

(** [img.save(path, fmt)] with an explicit encoder. *)
Definition save (ev : env) (img : image) (path : string) (fmt : format) : M unit :=
  match width img, height img with
  | Z.pos w, Z.pos h =>
      if writes ev fmt (mode img)
      then write_file path (ImageFile fmt (stored_mode fmt (mode img)) w h)
      else spoil path (OSError "cannot write mode")
  | _, _ => spoil path (ValueError "cannot write empty image")
  end.

(** The encoder Pillow picks from a file name. *)
Definition format_of_path (ev : env) (path : string) : option format :=
  let ext := lower (snd (splitext path)) in
  if String.eqb ext ".jpg" || String.eqb ext ".jpeg" then Some JPEG
  else if String.eqb ext ".png" then Some PNG
  else if String.eqb ext ".webp" then Some WEBP
  else match EXTENSION ev ext with
       | Some _ => Some (Plugin ext)
       | None => None
       end.

(** [img.save(path)]: the encoder is taken from the extension. *)
Definition save_by_ext (ev : env) (img : image) (path : string) : M unit :=
  match format_of_path ev path with
  | Some fmt => save ev img path fmt
  | None => raise (ValueError "unknown file extension")
  end.

(** [img.size] *)
Definition size (img : image) : Z * Z := (width img, height img).

(** [m in ms] for a tuple of mode names. *)
Definition mode_in (m : pil_mode) (ms : list pil_mode) : bool :=
  existsb (mode_eqb m) ms.

(** [requests.post(url, files={'image_file': open(path, 'rb')}, ...)] *)
Definition requests_post (url : string) (api : file -> http_outcome)
    (path : string) (body : file) : M (Z * file) :=
  let* _ := note (Posted url path) in
  match api body with
  | ConnectionError => raise RequestException
  | Response status_code content => ret (status_code, content)
  end.

(** A truthy [os.getenv] value: set and not empty. *)
Definition truthy (v : option string) : bool :=
  match v with
  | Some s => negb (String.eqb s EmptyString)
  | None => false
  end.

(** ** [ai_apis.py]: [AIImageProcessor] *)

Module AIImageProcessor.
Section WithEnv.
Variable ev : env.

Definition processed_dir : string := "processed".

  (** [_generate_filename]: [f"{prefix}_{timestamp}_{unique_id}.{extension}"] *)
Definition _generate_filename (prefix extension : string) : M string :=
    fun d =>
      let '(timestamp, unique_id) := now_uuid ev (drawn d) in
      ({| files := files d; drawn := S (drawn d); journal := journal d |},
       Ok (prefix ++ "_" ++ timestamp ++ "_" ++ unique_id ++ "." ++ extension)).

  (** [remove_background_local] *)
Definition remove_background_local (input_path : string) : M string :=
    let* _ := note (Called "remove_background_local" input_path) in
    try_except
      (let* img := Image_open input_path in
       let img := if negb (mode_eqb (mode img) RGBA) then convert img RGBA else img in
       (* corner colours, threshold matting, [putdata]: pixel values only *)
       let* output_filename := _generate_filename "bg_removed_local" "png" in
       let output_path := os_path_join processed_dir output_filename in
       let* _ := save ev img output_path PNG in
       ret output_path)
      (fun e => raise e).

  (** [remove_background_removebg] *)
Definition remove_background_removebg (input_path : string) : M string :=
    let* _ := note (Called "remove_background_removebg" input_path) in
    if negb (truthy (REMOVEBG_API_KEY ev))
    then remove_background_local input_path
    else
      try_except
        (let* input_file := read_file input_path in
         let* response := requests_post "https://api.remove.bg/v1.0/removebg"
                       (removebg_post ev) input_path input_file in
         let '(status_code, content) := response in
         if status_code =? 200
         then
           let* output_filename := _generate_filename "removebg" "png" in
           let output_path := os_path_join processed_dir output_filename in
           let* _ := write_file output_path content in
           ret output_path
         else remove_background_local input_path)
        (fun e => remove_background_local input_path).

  (** [generate_background_local] *)
Definition generate_background_local (input_path : string) : M string :=
    let* _ := note (Called "generate_background_local" input_path) in
    try_except
      (let* img := Image_open input_path in
       let '(width, height) := size img in
       (* one of three gradients, painted pixel by pixel *)
       let background := Image_new RGB width height in
       let result :=
         if mode_eqb (mode img) RGBA
         then (* Image.alpha_composite *) convert background RGBA
         else (* Image.blend(background, img.convert("RGB"), 0.8) *) background in
       let* output_filename := _generate_filename "bg_generated_local" "jpg" in
       let output_path := os_path_join processed_dir output_filename in
       let* _ := save ev (convert result RGB) output_path JPEG in
       ret output_path)
      (fun e => raise e).

  (** [generate_background_photoroom] *)
Definition generate_background_photoroom (input_path : string)
      (background_prompt : string) : M string :=
    let* _ := note (Called "generate_background_photoroom" input_path) in
    if negb (truthy (PHOTOROOM_API_KEY ev))
    then generate_background_local input_path
    else
      try_except
        (let* no_bg_path := remove_background_removebg input_path in
         let* image_file := read_file no_bg_path in
         let* response := requests_post "https://sdk.photoroom.com/v1/segment"
                       (photoroom_post ev) no_bg_path image_file in
         let '(status_code, content) := response in
         if status_code =? 200
         then
           let* output_filename := _generate_filename "photoroom_bg" "jpg" in
           let output_path := os_path_join processed_dir output_filename in
           let* _ := write_file output_path content in
           ret output_path
         else generate_background_local input_path)
        (fun e => generate_background_local input_path).

  (** The size [resize_image] asks the resampler for. *)
Definition resize_dims (original_width original_height width height : Z) : Z * Z :=
    let aspect_ratio := truediv original_width original_height in
    if Qgtb (truediv width height) aspect_ratio
    then (py_int (inject_Z height * aspect_ratio), height)
    else (width, py_int (inject_Z width / aspect_ratio)).

  (** [resize_image] *)
Definition resize_image (input_path : string) (width height : Z) : M string :=
    let* _ := note (Called "resize_image" input_path) in
    try_except
      (let* img := Image_open input_path in
       let img := if mode_in (mode img) [RGBA; P] then convert img RGB else img in
       let '(original_width, original_height) := size img in
       let '(new_width, new_height) :=
         resize_dims original_width original_height width height in
       let* resized_img := resize img new_width new_height in
       let* output_filename := _generate_filename "resized" "jpg" in
       let output_path := os_path_join processed_dir output_filename in
       let* _ := save ev resized_img output_path JPEG in
       ret output_path)
      (fun e => raise e).

Definition golden_ratio : Q := 1618 # 1000.

  (** The box [(left, upper, right, lower)] that [smart_crop] cuts out. *)
Definition crop_box (crop_type : string) (img_width img_height : Z)
      : Z * Z * Z * Z :=
    if String.eqb crop_type "square" then
      let size := Z.min img_width img_height in
      let x := (img_width - size) / 2 in
      let y := (img_height - size) / 2 in
      (x, y, x + size, y + size)
    else if String.eqb crop_type "portrait" then
      if Qgtb (truediv img_width img_height) (truediv 3 4) then
        let new_width := py_int (truediv (img_height * 3) 4) in
        let x := (img_width - new_width) / 2 in
        (x, 0, x + new_width, img_height)
      else
        let new_height := py_int (truediv (img_width * 4) 3) in
        let y := (img_height - new_height) / 2 in
        (0, y, img_width, y + new_height)
    else if String.eqb crop_type "landscape" then
      if Qgtb (truediv img_width img_height) (truediv 16 9) then
        let new_width := py_int (truediv (img_height * 16) 9) in
        let x := (img_width - new_width) / 2 in
        (x, 0, x + new_width, img_height)
      else
        let new_height := py_int (truediv (img_width * 9) 16) in
        let y := (img_height - new_height) / 2 in
        (0, y, img_width, y + new_height)
    else
      if Qgtb (truediv img_width img_height) golden_ratio then
        let new_width := py_int (inject_Z img_height * golden_ratio) in
        let x := (img_width - new_width) / 2 in
        (x, 0, x + new_width, img_height)
      else
        let new_height := py_int (inject_Z img_width / golden_ratio) in
        let y := (img_height - new_height) / 2 in
        (0, y, img_width, y + new_height).

  (** [smart_crop] *)
Definition smart_crop (input_path crop_type : string) : M string :=
    let* _ := note (Called "smart_crop" input_path) in
    try_except
      (let* img := Image_open input_path in
       let '(img_width, img_height) := size img in
       let '(x0, y0, x1, y1) := crop_box crop_type img_width img_height in
       let* cropped_img := crop img x0 y0 x1 y1 in
       let* output_filename := _generate_filename ("cropped_" ++ crop_type) "jpg" in
       let output_path := os_path_join processed_dir output_filename in
       let* _ := save ev cropped_img output_path JPEG in
       ret output_path)
      (fun e => raise e).

  (** [convert_format] *)
Definition convert_format (input_path target_format : string) : M string :=
    let* _ := note (Called "convert_format" input_path) in
    try_except
      (let* img := Image_open input_path in
       let fmt := lower target_format in
       if String.eqb fmt "jpg" || String.eqb fmt "jpeg" then
         let img := if mode_in (mode img) [RGBA; P] then convert img RGB else img in
         let* output_filename := _generate_filename ("converted_" ++ target_format) "jpg" in
         let output_path := os_path_join processed_dir output_filename in
         let* _ := save ev img output_path JPEG in
         ret output_path
       else if String.eqb fmt "png" then
         let img := if negb (mode_in (mode img) [RGBA; RGB]) then convert img RGBA else img in
         let* output_filename := _generate_filename ("converted_" ++ target_format) "png" in
         let output_path := os_path_join processed_dir output_filename in
         let* _ := save ev img output_path PNG in
         ret output_path
       else if String.eqb fmt "webp" then
         let* output_filename := _generate_filename ("converted_" ++ target_format) "webp" in
         let output_path := os_path_join processed_dir output_filename in
         let* _ := save ev img output_path WEBP in
         ret output_path
       else raise (ValueError ("Unsupported format: " ++ target_format)))
      (fun e => raise e).

  (** [resolution_map.get(target_resolution, (1920, 1080))] *)
Definition resolution_map (target_resolution : string)
      (original_width original_height : Z) : Z * Z :=
    if String.eqb target_resolution "720p" then (1280, 720)
    else if String.eqb target_resolution "1080p" then (1920, 1080)
    else if String.eqb target_resolution "4k" then (3840, 2160)
    else if String.eqb target_resolution "8k" then (7680, 4320)
    else if String.eqb target_resolution "original"
         then (original_width * 2, original_height * 2)
    else (1920, 1080).

  (** The [while current_scale < scale_factor] loop of [enhance_quality_ai]. *)
Fixpoint upscale_loop (budget : nat) (scale_factor current_scale : Q)
      (current_img : image) : M image :=
    if Qgtb scale_factor current_scale then
      match budget with
      | O => raise LoopBudgetExhausted
      | S budget' =>
          let step_scale := py_min (inject_Z 2) (scale_factor / current_scale)%Q in
          let step_width := py_int (inject_Z (width current_img) * step_scale) in
          let step_height := py_int (inject_Z (height current_img) * step_scale) in
          let* current_img := resize current_img step_width step_height in
          (* UnsharpMask: pixel values only *)
          upscale_loop budget' scale_factor (current_scale * step_scale)%Q current_img
      end
    else ret current_img.

  (** Doublings needed to reach [scale_factor] from 1. *)
Definition upscale_budget (scale_factor : Q) : nat :=
    Z.to_nat (Z.log2_up (Qceiling scale_factor)).

  (** [resolutions.get(target_resolution, (1920, 1080))] of
      [enhance_quality] *)
Definition resolutions (target_resolution : string)
      (original_width original_height : Z) : Z * Z :=
    if String.eqb target_resolution "720p" then (1280, 720)
    else if String.eqb target_resolution "1080p" then (1920, 1080)
    else if String.eqb target_resolution "4k" then (3840, 2160)
    else if String.eqb target_resolution "8k" then (7680, 4320)
    else if String.eqb target_resolution "original+"
         then (py_int (inject_Z original_width * (3 # 2)),
               py_int (inject_Z original_height * (3 # 2)))
    else (1920, 1080).

  (** [enhance_quality]: the image the loop ends with is saved as it is. *)
Definition enhance_quality (input_path target_resolution : string) : M string :=
    let* _ := note (Called "enhance_quality" input_path) in
    try_except
      (let* img := Image_open input_path in
       let img := if mode_in (mode img) [RGBA; P] then convert img RGB else img in
       let '(original_width, original_height) := size img in
       let '(target_width, target_height) :=
         resolutions target_resolution original_width original_height in
       let scale_x := truediv target_width original_width in
       let scale_y := truediv target_height original_height in
       let scale_factor := py_min scale_x scale_y in
       let new_width := py_int (inject_Z original_width * scale_factor) in
       let new_height := py_int (inject_Z original_height * scale_factor) in
       let* enhanced_img :=
         if Qgtb scale_factor (inject_Z 2) then
           upscale_loop (upscale_budget scale_factor) scale_factor 1%Q img
         else resize img new_width new_height in
       (* unsharp mask, contrast: pixel values only *)
       let* output_filename :=
         _generate_filename ("enhanced_" ++ target_resolution) "jpg" in
       let output_path := os_path_join processed_dir output_filename in
       let* _ := save ev enhanced_img output_path JPEG in
       ret output_path)
      (fun e => raise e).


  (** [enhance_quality_ai] (the definition in force, the second of the class) *)
Definition enhance_quality_ai (input_path target_resolution : string) : M string :=
    let* _ := note (Called "enhance_quality_ai" input_path) in
    try_except
      (let* img := Image_open input_path in
       let '(original_width, original_height) := size img in
       let '(target_width, target_height) :=
         resolution_map target_resolution original_width original_height in
       let aspect_ratio := truediv original_width original_height in
       let '(new_width, new_height) :=
         if Qgtb (truediv target_width target_height) aspect_ratio
         then (py_int (inject_Z target_height * aspect_ratio), target_height)
         else (target_width, py_int (inject_Z target_width / aspect_ratio)) in
       let img := if mode_in (mode img) [RGBA; P] then convert img RGB else img in
       let scale_factor :=
         py_max (truediv new_width original_width)
                (truediv new_height original_height) in
       let* enhanced_img :=
         if Qgtb scale_factor (inject_Z 2) then
           let* current_img :=
             upscale_loop (upscale_budget scale_factor) scale_factor 1%Q img in
           resize current_img new_width new_height
         else resize img new_width new_height in
       (* contrast, colour, sharpness, blur, unsharp mask, brightness:
          pixel values only *)
       let* output_filename :=
         _generate_filename ("ai_enhanced_" ++ target_resolution) "jpg" in
       let output_path := os_path_join processed_dir output_filename in
       let* _ := save ev enhanced_img output_path JPEG in
       ret output_path)
      (fun e => raise e).

End WithEnv.
End AIImageProcessor.

(** ** [image_processor.py]: [SimpleImageProcessor] *)

Module SimpleImageProcessor.
Section WithEnv.
Variable ev : env.

  (** [_get_output_path] *)
Definition _get_output_path (input_path suffix : string)
      (extension : option string) : string :=
    let base_name := basename input_path in
    let '(name, orig_ext) := splitext base_name in
    let new_ext :=
      match extension with
      | Some e => if String.eqb e EmptyString then orig_ext else "." ++ e
      | None => orig_ext
      end in
    let output_filename := name ++ "_" ++ suffix ++ new_ext in
    os_path_join "processed" output_filename.

  (** The size [resize_image] asks the resampler for. *)
Definition resize_dims (original_width original_height width height : Z) : Z * Z :=
    let ratio := py_min (truediv width original_width)
                        (truediv height original_height) in
    (py_int (inject_Z original_width * ratio),
     py_int (inject_Z original_height * ratio)).

  (** [resize_image] *)
Definition resize_image (image_path : string) (width height : Z) : M string :=
    let* _ := note (Called "resize_image" image_path) in
    try_except
      (let* img := Image_open image_path in
       let '(original_width, original_height) := size img in
       let '(new_width, new_height) :=
         resize_dims original_width original_height width height in
       let* resized := resize img new_width new_height in
       let output_path :=
         _get_output_path image_path
           ("resized_" ++ str new_width ++ "x" ++ str new_height) None in
       let* _ := save_by_ext ev resized output_path in
       ret output_path)
      (fun e => raise e).

  (** The box [(left, upper, right, lower)] that [smart_crop] cuts out. *)
Definition crop_box (mode : string) (width height : Z) : Z * Z * Z * Z :=
    if String.eqb mode "smart" || String.eqb mode "square" then
      let size := Z.min width height in
      let left := (width - size) / 2 in
      let top := (height - size) / 2 in
      (left, top, left + size, top + size)
    else if String.eqb mode "portrait" then
      let new_height := Z.min height (py_int (truediv (width * 16) 9)) in
      let new_width := py_int (truediv (new_height * 9) 16) in
      let left := (width - new_width) / 2 in
      let top := (height - new_height) / 2 in
      (left, top, left + new_width, top + new_height)
    else if String.eqb mode "landscape" then
      let new_width := Z.min width (py_int (truediv (height * 16) 9)) in
      let new_height := py_int (truediv (new_width * 9) 16) in
      let left := (width - new_width) / 2 in
      let top := (height - new_height) / 2 in
      (left, top, left + new_width, top + new_height)
    else
      let size := Z.min width height in
      let left := (width - size) / 2 in
      let top := (height - size) / 2 in
      (left, top, left + size, top + size).

  (** [smart_crop] *)
Definition smart_crop (image_path mode : string) : M string :=
    let* _ := note (Called "smart_crop" image_path) in
    try_except
      (let* img := Image_open image_path in
       let '(width, height) := size img in
       let '(x0, y0, x1, y1) := crop_box mode width height in
       let* cropped := crop img x0 y0 x1 y1 in
       let output_path := _get_output_path image_path ("cropped_" ++ mode) None in
       let* _ := save_by_ext ev cropped output_path in
       ret output_path)
      (fun e => raise e).

  (** [remove_background] (mock) *)
Definition remove_background (image_path : string) : M string :=
    let* _ := note (Called "remove_background" image_path) in
    try_except
      (let* img := Image_open image_path in
       let* output_path :=
         if mode_eqb (mode img) RGBA then
           let output_path := _get_output_path image_path "no_bg" (Some "png") in
           let* _ := save_by_ext ev img output_path in
           ret output_path
         else
           let rgba_img := convert img RGBA in
           let output_path := _get_output_path image_path "no_bg" (Some "png") in
           let* _ := save_by_ext ev rgba_img output_path in
           ret output_path in
       ret output_path)
      (fun e => raise e).

  (** [generate_background] (mock) *)
Definition generate_background (image_path : string) : M string :=
    let* _ := note (Called "generate_background" image_path) in
    try_except
      (let* img := Image_open image_path in
       let '(width, height) := size img in
       let background := Image_new RGB width height in
       let output_path := _get_output_path image_path "new_bg" None in
       let* _ := save_by_ext ev background output_path in
       ret output_path)
      (fun e => raise e).

  (** [enhance_quality] *)
Definition enhance_quality (image_path : string) : M string :=
    let* _ := note (Called "enhance_quality" image_path) in
    try_except
      (let* img := Image_open image_path in
       (* contrast, sharpness, colour: pixel values only *)
       let enhanced := img in
       let output_path := _get_output_path image_path "enhanced" None in
       let* _ := save_by_ext ev enhanced output_path in
       ret output_path)
      (fun e => raise e).

  (** [convert_format] *)
Definition convert_format (image_path format : string) : M string :=
    let* _ := note (Called "convert_format" image_path) in
    try_except
      (let* img := Image_open image_path in
       let output_path := _get_output_path image_path "converted" (Some format) in
       let* _ :=
         if String.eqb (lower format) "jpeg" || String.eqb (lower format) "jpg" then
           let img := if mode_in (mode img) [RGBA; LA; P]
                      then convert img RGB else img in
           save ev img output_path JPEG
         else if String.eqb (lower format) "png" then
           save ev img output_path PNG
         else if String.eqb (lower format) "webp" then
           save ev img output_path WEBP
         else
           save_by_ext ev img output_path in
       ret output_path)
      (fun e => raise e).

End WithEnv.
End SimpleImageProcessor.

(** ** The chat transport *)

(** An inline keyboard: rows of (text, callback_data) buttons. *)
Definition keyboard : Type := list (list (string * string)).

(** Calls made on the Bot API.  They are recorded in the order they are
    made and are assumed to be delivered. *)
Inductive api_call :=
| answerCallbackQuery (callback_query_id : string)
| sendMessage (chat_id : Z) (text : string) (reply_markup : option keyboard)
| editMessageText (chat_id message_id : Z) (text : string)
    (reply_markup : option keyboard)
| sendPhoto (chat_id : Z) (photo : file) (caption : string)
| sendDocument (chat_id : Z) (document : file) (filename caption : string).

(** The fields read from a [callback_query] update. *)
Record callback_query := {
  id : string;
  from_id : Z;
  message_chat_id : Z;
  message_message_id : Z;
  data : string
}.

Definition main_menu : keyboard :=
  [ [ ("📏 Resize", "resize"); ("✂️ Crop", "crop") ];
    [ ("🎭 Remove BG", "remove_bg"); ("🖼️ Generate BG", "generate_bg") ];
    [ ("⬆️ Enhance Quality", "enhance"); ("🔄 Convert Format", "convert") ] ].

Definition resize_menu (back : string) : keyboard :=
  [ [ ("8K (7680x4320)", "resize_8k"); ("4K (3840x2160)", "resize_4k") ];
    [ ("1080p (1920x1080)", "resize_1080p"); ("720p (1280x720)", "resize_720p") ];
    [ ("📱 Mobile (720x1280)", "resize_mobile"); ("🔙 Back", back) ] ].

Definition crop_menu (back : string) : keyboard :=
  [ [ ("⭐ Smart Crop", "crop_smart"); ("⬜ Square (1:1)", "crop_square") ];
    [ ("📱 Portrait (9:16)", "crop_portrait");
      ("🖥️ Landscape (16:9)", "crop_landscape") ];
    [ ("🔙 Back", back) ] ].

Definition convert_menu (back : string) : keyboard :=
  [ [ ("📄 JPEG", "convert_jpeg"); ("🖼️ PNG", "convert_png") ];
    [ ("🌐 WebP", "convert_webp"); ("🔙 Back", back) ] ].

Definition enhance_menu : keyboard :=
  [ [ ("8K Enhancement", "enhance_8k"); ("4K Enhancement", "enhance_4k") ];
    [ ("1080p Enhancement", "enhance_1080p");
      ("720p Enhancement", "enhance_720p") ];
    [ ("Original+ (2x)", "enhance_original"); ("🔙 Back", "back") ] ].

(** [size_map] of the resize handlers, with all five entries. *)
Definition size_map (action : string) : option (Z * Z) :=
  if String.eqb action "resize_8k" then Some (7680, 4320)
  else if String.eqb action "resize_4k" then Some (3840, 2160)
  else if String.eqb action "resize_1080p" then Some (1920, 1080)
  else if String.eqb action "resize_720p" then Some (1280, 720)
  else if String.eqb action "resize_mobile" then Some (720, 1280)
  else None.

(** One entry of [message["photo"]]: a resolution variant of an upload. *)
Record photo_size := {
  file_id : string;
  photo_width : Z;
  photo_height : Z
}.

(** The fields read from a [message] update that carries a photo. *)
Record photo_message := {
  message_chat : Z;
  message_from : Z;
  message_photo : list photo_size
}.

(** Telegram's file service: [getFile] answers with the [file_path] of a
    [file_id] ([None] when the request raises or the answer carries no
    path), and the file URL of a [file_path] answers like any HTTP
    request. *)
Record file_service := {
  getFile : string -> option string;
  file_url : string -> http_outcome
}.

(** [p["width"] * p["height"]] *)
Definition area (p : photo_size) : Z := photo_width p * photo_height p.

(** [max(photos, key=lambda p: p["width"] * p["height"])]: the first entry
    of largest area; [ValueError] on an empty list. *)
Definition largest_photo (photos : list photo_size) : option photo_size :=
  match photos with
  | [] => None
  | first :: rest =>
      Some (fold_left (fun best p => if area best <? area p then p else best)
              rest first)
  end.


(** ** [bot_simple.py]: [SimpleTelegramBot] *)

Module SimpleTelegramBot.

  (** The methods the bot calls on its [image_processor]. *)
Record processor := {
    resize_image : string -> Z -> Z -> M string;
    smart_crop : string -> string -> M string;
    remove_background_removebg : string -> M string;
    generate_background_photoroom : string -> M string;
    enhance_quality_ai : string -> string -> M string;
    convert_format : string -> string -> M string
  }.

  (** The bot object: [user_photos] does not exist before the first
      upload. *)
Record bot := {
    store : disk;
    user_photos : option (gmap Z string);
    outbox : list api_call
  }.

Definition B (A : Type) : Type := St bot A.

  (** Run a processor method on the bot's disk. *)
Definition lift {A} (m : M A) : B A :=
    fun b => let '(d, r) := m (store b) in
             ({| store := d; user_photos := user_photos b; outbox := outbox b |}, r).

Definition api_request (c : api_call) : B unit :=
    fun b => ({| store := store b; user_photos := user_photos b;
                 outbox := outbox b ++ [c] |}, Ok tt).

Definition send_message (chat_id : Z) (text : string)
      (reply_markup : option keyboard) : B unit :=
    api_request (sendMessage chat_id text reply_markup).

Definition send_photo (chat_id : Z) (photo_path caption : string) : B unit :=
    try_except
      (let* photo := lift (read_file photo_path) in
       api_request (sendPhoto chat_id photo caption))
      (fun e => raise e).

Definition edit_message_text (chat_id message_id : Z) (text : string)
      (reply_markup : option keyboard) : B unit :=
    api_request (editMessageText chat_id message_id text reply_markup).

Section WithProcessor.
Variable image_processor : processor.

Definition process_resize (chat_id message_id : Z) (photo_path action : string)
      : B unit :=
    try_except
      (let* _ := edit_message_text chat_id message_id
                   "🔄 Resizing image... Please wait." None in
       let* wh := match size_map action with
                  | Some wh => ret wh
                  | None => raise (KeyError action)
                  end in
       let '(width, height) := wh in
       let* result_path :=
         lift (resize_image image_processor photo_path width height) in
       let* _ := send_photo chat_id result_path
                   ("✅ *Image resized to " ++ str width ++ "x" ++ str height ++ "*") in
       edit_message_text chat_id message_id "✅ Image resized successfully!" None)
      (fun e => edit_message_text chat_id message_id
                  "❌ Failed to resize image. Please try again." None).

Definition process_crop (chat_id message_id : Z) (photo_path action : string)
      : B unit :=
    try_except
      (let* _ := edit_message_text chat_id message_id
                   "✂️ Cropping image... Please wait." None in
       let* result_path :=
         lift (smart_crop image_processor photo_path (remove_all "crop_" action)) in
       let* _ := send_photo chat_id result_path
                   ("✅ *Image cropped (" ++ title (remove_all "crop_" action) ++ ")*") in
       edit_message_text chat_id message_id "✅ Image cropped successfully!" None)
      (fun e => edit_message_text chat_id message_id
                  "❌ Failed to crop image. Please try again." None).

Definition process_remove_background (chat_id message_id : Z)
      (photo_path : string) : B unit :=
    try_except
      (let* _ := edit_message_text chat_id message_id
                   "🎭 Removing background with AI... Please wait." None in
       let* result_path :=
         lift (remove_background_removebg image_processor photo_path) in
       let* _ := send_photo chat_id result_path
                   "✅ *Background removed with AI-powered Remove.bg!*" in
       edit_message_text chat_id message_id "✅ Background removed using AI!" None)
      (fun e => edit_message_text chat_id message_id
                  "❌ Failed to remove background. Please try again." None).

Definition process_generate_background (chat_id message_id : Z)
      (photo_path : string) : B unit :=
    try_except
      (let* _ := edit_message_text chat_id message_id
                   "🖼️ Generating new background with AI... Please wait." None in
       let* result_path :=
         lift (generate_background_photoroom image_processor photo_path) in
       let* _ := send_photo chat_id result_path
                   "✅ *New background generated with PhotoRoom AI!*" in
       edit_message_text chat_id message_id "✅ Background generated using AI!" None)
      (fun e => edit_message_text chat_id message_id
                  "❌ Failed to generate background. Please try again." None).

  (** [process_enhance_quality] only shows the resolution menu. *)
Definition process_enhance_quality (chat_id message_id : Z)
      (photo_path : string) : B unit :=
    try_except
      (edit_message_text chat_id message_id "⬆️ *Choose enhancement quality:*"
         (Some enhance_menu))
      (fun e => edit_message_text chat_id message_id
                  "❌ Failed to show enhancement options. Please try again." None).

Definition format_map (action : string) : option string :=
    if String.eqb action "convert_jpeg" then Some "JPEG"
    else if String.eqb action "convert_png" then Some "PNG"
    else if String.eqb action "convert_webp" then Some "WebP"
    else None.

Definition process_convert_format (chat_id message_id : Z)
      (photo_path action : string) : B unit :=
    try_except
      (let* _ := edit_message_text chat_id message_id
                   "🔄 Converting format... Please wait." None in
       let* output_format := match format_map action with
                             | Some f => ret f
                             | None => raise (KeyError action)
                             end in
       let* result_path :=
         lift (convert_format image_processor photo_path output_format) in
       let* _ := send_photo chat_id result_path
                   ("✅ *Image converted to " ++ output_format ++ "*") in
       edit_message_text chat_id message_id "✅ Format converted successfully!" None)
      (fun e => edit_message_text chat_id message_id
                  "❌ Failed to convert format. Please try again." None).

Definition resolution_map (action : string) : option string :=
    if String.eqb action "enhance_8k" then Some "8k"
    else if String.eqb action "enhance_4k" then Some "4k"
    else if String.eqb action "enhance_1080p" then Some "1080p"
    else if String.eqb action "enhance_720p" then Some "720p"
    else if String.eqb action "enhance_original" then Some "original"
    else None.

Definition process_enhance_resolution (chat_id message_id : Z)
      (photo_path action : string) : B unit :=
    try_except
      (let* _ := edit_message_text chat_id message_id
                   "⬆️ Enhancing image quality... Please wait." None in
       let* target_resolution := match resolution_map action with
                                 | Some r => ret r
                                 | None => raise (KeyError action)
                                 end in
       let* result_path :=
         lift (enhance_quality_ai image_processor photo_path target_resolution) in
       let* _ := send_photo chat_id result_path
                   ("✅ *Image enhanced to " ++ upper target_resolution
                      ++ " quality with AI!*") in
       edit_message_text chat_id message_id
         ("✅ Quality enhanced to " ++ upper target_resolution ++ "!") None)
      (fun e => edit_message_text chat_id message_id
                  "❌ Failed to enhance quality. Please try again." None).

  (** [user_id in self.user_photos], guarded by [hasattr]. *)
Definition stored_photo (user_id : Z) : B (option string) :=
    fun b => (b, Ok (match user_photos b with
                     | Some photos => photos !! user_id
                     | None => None
                     end)).

  (** [handle_callback_query] *)
Definition handle_callback_query (cq : callback_query) : B unit :=
    let query_id := id cq in
    let user_id := from_id cq in
    let chat_id := message_chat_id cq in
    let message_id := message_message_id cq in
    let action := data cq in
    try_except
      (let* _ := api_request (answerCallbackQuery query_id) in
       let* stored := stored_photo user_id in
       match stored with
       | None =>
           edit_message_text chat_id message_id "❌ Please send a photo first!" None
       | Some photo_path =>
           if String.eqb action "resize" then
             edit_message_text chat_id message_id "📏 *Choose resize option:*"
               (Some (resize_menu "back"))
           else if startswith action "resize_" then
             process_resize chat_id message_id photo_path action
           else if String.eqb action "crop" then
             edit_message_text chat_id message_id "✂️ *Choose crop option:*"
               (Some (crop_menu "back"))
           else if startswith action "crop_" then
             process_crop chat_id message_id photo_path action
           else if String.eqb action "remove_bg" then
             process_remove_background chat_id message_id photo_path
           else if String.eqb action "generate_bg" then
             process_generate_background chat_id message_id photo_path
           else if String.eqb action "enhance" then
             process_enhance_quality chat_id message_id photo_path
           else if String.eqb action "convert" then
             edit_message_text chat_id message_id "🔄 *Choose format:*"
               (Some (convert_menu "back"))
           else if startswith action "convert_" then
             process_convert_format chat_id message_id photo_path action
           else if startswith action "enhance_" then
             process_enhance_resolution chat_id message_id photo_path action
           else if String.eqb action "back" then
             edit_message_text chat_id message_id
               "📸 *What would you like to do with your photo?*" (Some main_menu)
           else ret tt
       end)
      (fun e =>
         if negb (chat_id =? 0) && negb (message_id =? 0)
         then edit_message_text chat_id message_id
                "❌ An error occurred. Please try again." None
         else ret tt).

End WithProcessor.

  (** [self.user_photos[user_id] = temp_path], creating the dictionary when
      the bot has none yet. *)
Definition set_user_photo (user_id : Z) (temp_path : string) : B unit :=
    fun b => ({| store := store b;
                 user_photos := Some (<[user_id := temp_path]>
                                        (match user_photos b with
                                         | Some photos => photos
                                         | None => ∅
                                         end));
                 outbox := outbox b |}, Ok tt).

  (** [requests.get(file_url)] followed by [raise_for_status()] *)
Definition download (tg : file_service) (file_path : string) : B file :=
    match file_url tg file_path with
    | ConnectionError => raise RequestException
    | Response status_code content =>
        if (400 <=? status_code) && (status_code <? 600)
        then raise RequestException
        else ret content
    end.

  (** [handle_photo] *)
Definition handle_photo (tg : file_service) (message : photo_message) : B unit :=
    let chat_id := message_chat message in
    let user_id := message_from message in
    try_except
      (let* largest :=
         match largest_photo (message_photo message) with
         | Some p => ret p
         | None => raise (ValueError "max() arg is an empty sequence")
         end in
       let file_id := file_id largest in
       let* file_path :=
         match getFile tg file_id with
         | Some file_path => ret file_path
         | None => raise RequestException
         end in
       let* content := download tg file_path in
       let temp_filename := "temp_" ++ str user_id ++ "_" ++ file_id ++ ".jpg" in
       let temp_path := os_path_join "uploads" temp_filename in
       let* _ := lift (write_file temp_path content) in
       let* _ := set_user_photo user_id temp_path in
       send_message chat_id "📸 *Photo received!* What would you like to do?"
         (Some main_menu))
      (fun e =>
         if negb (chat_id =? 0)
         then send_message chat_id
                "❌ Sorry, there was an error processing your photo. Please try again."
                None
         else ret tt).


  (** The processor [app.py] hands to the bot. *)
Definition ai_processor (ev : env) : processor :=
    {| resize_image := AIImageProcessor.resize_image ev;
       smart_crop := AIImageProcessor.smart_crop ev;
       remove_background_removebg := AIImageProcessor.remove_background_removebg ev;
       generate_background_photoroom := fun input_path =>
         AIImageProcessor.generate_background_photoroom ev input_path
           "professional gradient";
       enhance_quality_ai := AIImageProcessor.enhance_quality_ai ev;
       convert_format := AIImageProcessor.convert_format ev |}.

End SimpleTelegramBot.

(** ** [webhook_server.py] *)

Module WebhookServer.

  (** The module-level state: the processor's disk, the [user_photos]
      dictionary and the calls sent to the Bot API. *)
Record server := {
    store : disk;
    user_photos : gmap Z string;
    outbox : list api_call
  }.

Definition B (A : Type) : Type := St server A.

Definition lift {A} (m : M A) : B A :=
    fun b => let '(d, r) := m (store b) in
             ({| store := d; user_photos := user_photos b; outbox := outbox b |}, r).

Definition api_request (c : api_call) : B unit :=
    fun b => ({| store := store b; user_photos := user_photos b;
                 outbox := outbox b ++ [c] |}, Ok tt).

  (** [os.remove(path)] inside [try: ... except: pass] *)
Definition os_remove_quietly (path : string) : B unit :=
    fun b => ({| store := {| files := delete path (files (store b));
                             drawn := drawn (store b);
                             journal := journal (store b) |};
                 user_photos := user_photos b; outbox := outbox b |}, Ok tt).

  (** [os.path.exists(path)] *)
Definition os_path_exists (path : string) : B bool :=
    fun b => (b, Ok (match files (store b) !! path with
                     | Some _ => true
                     | None => false
                     end)).

  (** [send_photo]: the sent file is removed; any error is swallowed. *)
Definition send_photo (chat_id : Z) (photo_path caption : string) : B unit :=
    try_except
      (let* photo := lift (read_file photo_path) in
       let* _ := api_request (sendPhoto chat_id photo caption) in
       os_remove_quietly photo_path)
      (fun e => ret tt).

Definition edit_message_text (chat_id message_id : Z) (text : string)
      (reply_markup : option keyboard) : B unit :=
    try_except
      (api_request (editMessageText chat_id message_id text reply_markup))
      (fun e => ret tt).

  (** [size_map] of this module: four entries. *)
Definition size_map (action : string) : option (Z * Z) :=
    if String.eqb action "resize_8k" then Some (7680, 4320)
    else if String.eqb action "resize_4k" then Some (3840, 2160)
    else if String.eqb action "resize_1080p" then Some (1920, 1080)
    else if String.eqb action "resize_720p" then Some (1280, 720)
    else None.

Section WithEnv.
Variable ev : env.

  (** [user_photos.get(user_id)] *)
Definition get_photo (user_id : Z) : B (option string) :=
    fun b => (b, Ok (user_photos b !! user_id)).

  (** [handle_callback_query] *)
Definition handle_callback_query (cq : callback_query) : B unit :=
    try_except
      (let chat_id := message_chat_id cq in
       let message_id := message_message_id cq in
       let user_id := from_id cq in
       let action := data cq in
       let* _ := api_request (answerCallbackQuery (id cq)) in
       let* photo_path := get_photo user_id in
       let* present :=
         match photo_path with
         | Some p => if String.eqb p EmptyString then ret false else os_path_exists p
         | None => ret false
         end in
       match photo_path, present with
       | Some photo_path, true =>
           if String.eqb action "remove_bg" then
             let* _ := edit_message_text chat_id message_id
                         "🎭 Removing background... Please wait." None in
             try_except
               (let* result_path :=
                  lift (AIImageProcessor.remove_background_removebg ev photo_path) in
                let* _ := send_photo chat_id result_path
                            "✅ *Background removed with AI!*" in
                edit_message_text chat_id message_id
                  "✅ Background removed successfully!" None)
               (fun e => edit_message_text chat_id message_id
                           "❌ Failed to remove background." None)
           else if startswith action "resize_" then
             match size_map action with
             | Some (width, height) =>
                 let* _ := edit_message_text chat_id message_id
                             "📏 Resizing... Please wait." None in
                 try_except
                   (let* result_path :=
                      lift (AIImageProcessor.resize_image ev photo_path width height) in
                    let* _ := send_photo chat_id result_path
                                ("✅ *Resized to " ++ str width ++ "x" ++ str height ++ "*") in
                    edit_message_text chat_id message_id "✅ Resize completed!" None)
                   (fun e => edit_message_text chat_id message_id
                               "❌ Failed to resize image." None)
             | None => ret tt
             end
           else ret tt
       | _, _ =>
           edit_message_text chat_id message_id
             "❌ Photo expired. Please send a new photo." None
       end)
      (fun e => ret tt).

  (** [send_message]: any error is swallowed. *)
Definition send_message (chat_id : Z) (text : string)
      (reply_markup : option keyboard) : B unit :=
    try_except
      (api_request (sendMessage chat_id text reply_markup))
      (fun e => ret tt).

  (** [uuid.uuid4()]: the next value is drawn. *)
Definition draw : B nat :=
    fun b => ({| store := {| files := files (store b);
                             drawn := S (drawn (store b));
                             journal := journal (store b) |};
                 user_photos := user_photos b; outbox := outbox b |},
              Ok (drawn (store b))).

  (** [download_photo]: [None] unless both requests are answered with
      status 200; the file is saved as [uploads/temp_<uuid hex>.jpg]. *)
Definition download_photo (tg : file_service) (uuid_hex : nat -> string)
      (file_id : string) : B (option string) :=
    try_except
      (match getFile tg file_id with
       | None => ret None
       | Some file_path =>
           match file_url tg file_path with
           | ConnectionError => raise RequestException
           | Response status_code content =>
               if negb (status_code =? 200) then ret None
               else
                 let* n := draw in
                 let temp_filename := "temp_" ++ uuid_hex n ++ ".jpg" in
                 let temp_path := os_path_join "uploads" temp_filename in
                 let* _ := lift (write_file temp_path content) in
                 ret (Some temp_path)
           end
       end)
      (fun e => ret None).

  (** [user_photos[user_id] = photo_path] *)
Definition set_user_photo (user_id : Z) (photo_path : string) : B unit :=
    fun b => ({| store := store b;
                 user_photos := <[user_id := photo_path]> (user_photos b);
                 outbox := outbox b |}, Ok tt).

  (** [handle_photo_message] (the statistics it counts are not modelled) *)
Definition handle_photo_message (tg : file_service) (uuid_hex : nat -> string)
      (message : photo_message) : B unit :=
    let chat_id := message_chat message in
    let user_id := message_from message in
    try_except
      (let* largest :=
         match largest_photo (message_photo message) with
         | Some p => ret p
         | None => raise (ValueError "max() arg is an empty sequence")
         end in
       let file_id := file_id largest in
       let* photo_path := download_photo tg uuid_hex file_id in
       match photo_path with
       | Some photo_path =>
           if String.eqb photo_path EmptyString
           then send_message chat_id "❌ Failed to download photo. Please try again."
                  None
           else
             let* _ := set_user_photo user_id photo_path in
             send_message chat_id "📸 *Photo received! What would you like to do?*"
               (Some main_menu)
       | None =>
           send_message chat_id "❌ Failed to download photo. Please try again." None
       end)
      (fun e => send_message chat_id "❌ Error processing photo. Please try again."
                  None).


End WithEnv.
End WebhookServer.

(** ** [deepseek_python_20251015_f33cc7.py]: [TelegramBot] *)

Module TelegramBot.

  (** The methods the bot calls on its [image_processor]. *)
Record processor := {
    resize_image : string -> Z -> Z -> M string;
    smart_crop : string -> string -> M string;
    remove_background : string -> M string;
    generate_background : string -> M string;
    enhance_quality : string -> M string;
    convert_format : string -> string -> M string
  }.

  (** [user_states] maps a user to a dictionary with the key
      ["photo_path"]. *)
Record bot := {
    store : disk;
    user_states : gmap Z (gmap string string);
    outbox : list api_call
  }.

Definition B (A : Type) : Type := St bot A.

Definition lift {A} (m : M A) : B A :=
    fun b => let '(d, r) := m (store b) in
             ({| store := d; user_states := user_states b; outbox := outbox b |}, r).

Definition api_request (c : api_call) : B unit :=
    fun b => ({| store := store b; user_states := user_states b;
                 outbox := outbox b ++ [c] |}, Ok tt).

Definition os_path_exists (path : string) : B bool :=
    fun b => (b, Ok (match files (store b) !! path with
                     | Some _ => true
                     | None => false
                     end)).

  (** [del self.user_states[user_id]] *)
Definition del_user_state (user_id : Z) : B unit :=
    fun b => ({| store := store b; user_states := delete user_id (user_states b);
                 outbox := outbox b |}, Ok tt).

Definition get_user_state (user_id : Z) : B (option (gmap string string)) :=
    fun b => (b, Ok (user_states b !! user_id)).

Section WithProcessor.
Variable image_processor : processor.
  (** The query the handlers answer to. *)
Variable query : callback_query.

  (** [query.edit_message_text(text, reply_markup=...)] *)
Definition edit_message_text (text : string) (reply_markup : option keyboard)
      : B unit :=
    api_request (editMessageText (message_chat_id query) (message_message_id query)
                   text reply_markup).

  (** [with open(path, 'rb') as photo: query.message.reply_photo(photo, caption)] *)
Definition reply_photo (result_path caption : string) : B unit :=
    let* photo := lift (read_file result_path) in
    api_request (sendPhoto (message_chat_id query) photo caption).

Definition reply_document (result_path filename caption : string) : B unit :=
    let* document := lift (read_file result_path) in
    api_request (sendDocument (message_chat_id query) document filename caption).

Definition process_resize (photo_path action : string) : B unit :=
    try_except
      (let* _ := edit_message_text "🔄 Resizing image... Please wait." None in
       match size_map action with
       | None => edit_message_text "❌ Invalid resize option." None
       | Some (width, height) =>
           let* result_path :=
             lift (resize_image image_processor photo_path width height) in
           let* _ := reply_photo result_path
                       ("✅ *Image resized to " ++ str width ++ "x" ++ str height ++ "*") in
           edit_message_text "✅ Image resized successfully!" None
       end)
      (fun e => edit_message_text "❌ Failed to resize image. Please try again." None).

Definition process_crop (photo_path action : string) : B unit :=
    try_except
      (let* _ := edit_message_text "✂️ Cropping image... Please wait." None in
       let crop_mode := remove_all "crop_" action in
       let* result_path := lift (smart_crop image_processor photo_path crop_mode) in
       let* _ := reply_photo result_path
                   ("✅ *Image cropped ("
                      ++ title (replace_char "_"%char " "%char crop_mode) ++ ")*") in
       edit_message_text "✅ Image cropped successfully!" None)
      (fun e => edit_message_text "❌ Failed to crop image. Please try again." None).

Definition process_remove_background (photo_path : string) : B unit :=
    try_except
      (let* _ := edit_message_text "🎭 Removing background... Please wait." None in
       let* result_path := lift (remove_background image_processor photo_path) in
       let* _ := reply_photo result_path "✅ *Background removed successfully!*" in
       edit_message_text "✅ Background removed!" None)
      (fun e => edit_message_text
                  "❌ Failed to remove background. Please try again." None).

Definition process_generate_background (photo_path : string) : B unit :=
    try_except
      (let* _ := edit_message_text "🖼️ Generating new background... Please wait." None in
       let* result_path := lift (generate_background image_processor photo_path) in
       let* _ := reply_photo result_path "✅ *New background generated!*" in
       edit_message_text "✅ Background generated successfully!" None)
      (fun e => edit_message_text
                  "❌ Failed to generate background. Please try again." None).

Definition process_enhance_quality (photo_path : string) : B unit :=
    try_except
      (let* _ := edit_message_text "⬆️ Enhancing image quality... Please wait." None in
       let* result_path := lift (enhance_quality image_processor photo_path) in
       let* _ := reply_photo result_path "✅ *Image quality enhanced!*" in
       edit_message_text "✅ Quality enhanced successfully!" None)
      (fun e => edit_message_text
                  "❌ Failed to enhance quality. Please try again." None).

Definition process_convert_format (photo_path action : string) : B unit :=
    try_except
      (let format_name := upper (remove_all "convert_" action) in
       let* _ := edit_message_text
                   ("🔄 Converting to " ++ format_name ++ "... Please wait.") None in
       let* result_path :=
         lift (convert_format image_processor photo_path (lower format_name)) in
       let* _ :=
         if String.eqb (lower format_name) "png"
         then reply_document result_path
                ("converted_image." ++ lower format_name)
                ("✅ *Image converted to " ++ format_name ++ "*")
         else reply_photo result_path
                ("✅ *Image converted to " ++ format_name ++ "*") in
       edit_message_text ("✅ Converted to " ++ format_name ++ " successfully!") None)
      (fun e => edit_message_text
                  "❌ Failed to convert format. Please try again." None).

  (** [handle_callback] *)
Definition handle_callback : B unit :=
    let* _ := api_request (answerCallbackQuery (id query)) in
    let user_id := from_id query in
    let action := data query in
    try_except
      (let* state := get_user_state user_id in
       match state with
       | None => edit_message_text "❌ Please send a photo first!" None
       | Some state =>
           let photo_path := state !! "photo_path" in
           let* present :=
             match photo_path with
             | Some p => if String.eqb p EmptyString then ret false else os_path_exists p
             | None => ret false
             end in
           match photo_path, present with
           | Some photo_path, true =>
               if String.eqb action "resize" then
                 edit_message_text "📏 *Choose resize option:*"
                   (Some (resize_menu "back_main"))
               else if startswith action "resize_" then
                 process_resize photo_path action
               else if String.eqb action "crop" then
                 edit_message_text "✂️ *Choose crop option:*"
                   (Some (crop_menu "back_main"))
               else if startswith action "crop_" then
                 process_crop photo_path action
               else if String.eqb action "remove_bg" then
                 process_remove_background photo_path
               else if String.eqb action "generate_bg" then
                 process_generate_background photo_path
               else if String.eqb action "enhance" then
                 process_enhance_quality photo_path
               else if String.eqb action "convert" then
                 edit_message_text "🔄 *Choose format:*"
                   (Some (convert_menu "back_main"))
               else if startswith action "convert_" then
                 process_convert_format photo_path action
               else if String.eqb action "back_main" then
                 edit_message_text
                   "📸 *What would you like to do with your photo?*" (Some main_menu)
               else ret tt
           | _, _ =>
               let* _ := edit_message_text
                           "❌ Photo file expired. Please send a new photo!" None in
               del_user_state user_id
           end
       end)
      (fun e => edit_message_text "❌ An error occurred. Please try again." None).

End WithProcessor.

  (** [SimpleImageProcessor] offers exactly these methods. *)
Definition simple_processor (ev : env) : processor :=
    {| resize_image := SimpleImageProcessor.resize_image ev;
       smart_crop := SimpleImageProcessor.smart_crop ev;
       remove_background := SimpleImageProcessor.remove_background ev;
       generate_background := SimpleImageProcessor.generate_background ev;
       enhance_quality := SimpleImageProcessor.enhance_quality ev;
       convert_format := SimpleImageProcessor.convert_format ev |}.

End TelegramBot.

(** * The specification's vocabulary *)

(** The five target boxes of the resize menu. *)
Definition target_boxes : list (Z * Z) :=
  [ (7680, 4320); (3840, 2160); (1920, 1080); (1280, 720); (720, 1280) ].

(** The four crop styles of the crop menu. *)
Definition crop_styles : list string := [ "smart"; "square"; "portrait"; "landscape" ].

(** The three formats of the convert menu. *)
Definition convert_formats : list string := [ "jpeg"; "png"; "webp" ].

(** [min(targetW/origW, targetH/origH)] *)
Definition spec_scale (target_w target_h orig_w orig_h : Z) : Q :=
  py_min (truediv target_w orig_w) (truediv target_h orig_h).

(** The source size scaled by [spec_scale], each side rounded down. *)
Definition spec_resized_size (target_w target_h orig_w orig_h : Z) : Z * Z :=
  let s := spec_scale target_w target_h orig_w orig_h in
  (Qfloor (inject_Z orig_w * s), Qfloor (inject_Z orig_h * s)).

(** A box lies inside a [w] x [h] image. *)
Definition box_inside (w h : Z) (box : Z * Z * Z * Z) : Prop :=
  let '(x0, y0, x1, y1) := box in
  0 <= x0 /\ x0 <= x1 /\ x1 <= w /\ 0 <= y0 /\ y0 <= y1 /\ y1 <= h.

(** A box is centred in a [w] x [h] image (Python's [//] rounds down). *)
Definition box_centred (w h : Z) (box : Z * Z * Z * Z) : Prop :=
  let '(x0, y0, x1, y1) := box in
  x0 = (w - (x1 - x0)) / 2 /\ y0 = (h - (y1 - y0)) / 2.

(** A [bw] x [bh] box has aspect [rw]:[rh], one side being the other one
    scaled and rounded down. *)
Definition has_ratio (rw rh bw bh : Z) : Prop :=
  bw = bh * rw / rh \/ bh = bw * rh / rw.

Definition box_size (box : Z * Z * Z * Z) : Z * Z :=
  let '(x0, y0, x1, y1) := box in (x1 - x0, y1 - y0).

(** The path built from the [n]-th (timestamp, uuid) pair. *)
Definition generated (ev : env) (n : nat) (prefix extension : string) : string :=
  os_path_join "processed"
    (prefix ++ "_" ++ fst (now_uuid ev n) ++ "_" ++ snd (now_uuid ev n)
       ++ "." ++ extension).

(** No name that will be generated from now on is the name of a file that
    is already there: [uuid4] does not repeat. *)
Definition fresh_names (ev : env) (d : disk) : Prop :=
  forall (n : nat) (prefix extension : string),
    (drawn d <= n)%nat ->
    startswith prefix "/" = false ->
    files d !! generated ev n prefix extension = None.

(** The remote removal is unavailable: no credential, a failed request, or a
    status other than 200. *)
Definition removebg_unavailable (ev : env) (f : file) : Prop :=
  truthy (REMOVEBG_API_KEY ev) = false
  \/ removebg_post ev f = ConnectionError
  \/ exists status_code content,
       removebg_post ev f = Response status_code content /\ status_code <> 200.

(** The remote generation is unavailable: every request fails or is
    answered with a status other than 200. *)
Definition photoroom_unavailable (ev : env) : Prop :=
  forall f : file,
    photoroom_post ev f = ConnectionError
    \/ exists status_code content,
         photoroom_post ev f = Response status_code content /\ status_code <> 200.

(** The mode [AIImageProcessor] hands to the JPEG encoder: RGBA and P are
    converted to RGB, every other mode is kept. *)
Definition ai_jpeg_mode (m : pil_mode) : pil_mode :=
  if mode_in m [RGBA; P] then RGB else m.

(** * Leaf actions of [SimpleTelegramBot] *)

(** The leaf actions and, for each of them, the handler the router runs,
    the processor method that handler invokes and the notices it edits into
    the status message. *)
Inductive leaf :=
| ResizeLeaf (action : string)
| CropLeaf (action : string)
| RemoveBackgroundLeaf
| GenerateBackgroundLeaf
| ConvertLeaf (action : string)
| EnhanceLeaf (action : string).

Definition leaf_handler (image_processor : SimpleTelegramBot.processor)
    (chat_id message_id : Z) (photo_path : string) (l : leaf)
    : SimpleTelegramBot.B unit :=
  match l with
  | ResizeLeaf action =>
      SimpleTelegramBot.process_resize image_processor chat_id message_id
        photo_path action
  | CropLeaf action =>
      SimpleTelegramBot.process_crop image_processor chat_id message_id
        photo_path action
  | RemoveBackgroundLeaf =>
      SimpleTelegramBot.process_remove_background image_processor chat_id
        message_id photo_path
  | GenerateBackgroundLeaf =>
      SimpleTelegramBot.process_generate_background image_processor chat_id
        message_id photo_path
  | ConvertLeaf action =>
      SimpleTelegramBot.process_convert_format image_processor chat_id message_id
        photo_path action
  | EnhanceLeaf action =>
      SimpleTelegramBot.process_enhance_resolution image_processor chat_id
        message_id photo_path action
  end.

Definition leaf_operation (image_processor : SimpleTelegramBot.processor)
    (photo_path : string) (l : leaf) : option (M string) :=
  match l with
  | ResizeLeaf action =>
      match size_map action with
      | Some (width, height) =>
          Some (SimpleTelegramBot.resize_image image_processor photo_path width height)
      | None => None
      end
  | CropLeaf action =>
      Some (SimpleTelegramBot.smart_crop image_processor photo_path
              (remove_all "crop_" action))
  | RemoveBackgroundLeaf =>
      Some (SimpleTelegramBot.remove_background_removebg image_processor photo_path)
  | GenerateBackgroundLeaf =>
      Some (SimpleTelegramBot.generate_background_photoroom image_processor photo_path)
  | ConvertLeaf action =>
      match SimpleTelegramBot.format_map action with
      | Some output_format =>
          Some (SimpleTelegramBot.convert_format image_processor photo_path
                  output_format)
      | None => None
      end
  | EnhanceLeaf action =>
      match SimpleTelegramBot.resolution_map action with
      | Some target_resolution =>
          Some (SimpleTelegramBot.enhance_quality_ai image_processor photo_path
                  target_resolution)
      | None => None
      end
  end.

Definition progress_notice (l : leaf) : string :=
  match l with
  | ResizeLeaf _ => "🔄 Resizing image... Please wait."
  | CropLeaf _ => "✂️ Cropping image... Please wait."
  | RemoveBackgroundLeaf => "🎭 Removing background with AI... Please wait."
  | GenerateBackgroundLeaf => "🖼️ Generating new background with AI... Please wait."
  | ConvertLeaf _ => "🔄 Converting format... Please wait."
  | EnhanceLeaf _ => "⬆️ Enhancing image quality... Please wait."
  end.

Definition failure_notice (l : leaf) : string :=
  match l with
  | ResizeLeaf _ => "❌ Failed to resize image. Please try again."
  | CropLeaf _ => "❌ Failed to crop image. Please try again."
  | RemoveBackgroundLeaf => "❌ Failed to remove background. Please try again."
  | GenerateBackgroundLeaf => "❌ Failed to generate background. Please try again."
  | ConvertLeaf _ => "❌ Failed to convert format. Please try again."
  | EnhanceLeaf _ => "❌ Failed to enhance quality. Please try again."
  end.

(** * The image operations *)

(** The operations the routers offer, with their parameters. *)
Inductive operation :=
| Resize (width height : Z)
| Crop (style : string)
| Convert (target_format : string)
| Enhance (target_resolution : string)
| RemoveBackground
| GenerateBackground.

(** The [AIImageProcessor] method [SimpleTelegramBot] calls for an
    operation. *)
Definition ai_operation (ev : env) (o : operation) (input_path : string) : M string :=
  match o with
  | Resize width height => AIImageProcessor.resize_image ev input_path width height
  | Crop style => AIImageProcessor.smart_crop ev input_path style
  | Convert target_format => AIImageProcessor.convert_format ev input_path target_format
  | Enhance target_resolution =>
      AIImageProcessor.enhance_quality_ai ev input_path target_resolution
  | RemoveBackground => AIImageProcessor.remove_background_removebg ev input_path
  | GenerateBackground =>
      AIImageProcessor.generate_background_photoroom ev input_path
        "professional gradient"
  end.

(** The [SimpleImageProcessor] method [TelegramBot] calls for an
    operation. *)
Definition simple_operation (ev : env) (o : operation) (input_path : string)
    : M string :=
  match o with
  | Resize width height => SimpleImageProcessor.resize_image ev input_path width height
  | Crop style => SimpleImageProcessor.smart_crop ev input_path style
  | Convert target_format => SimpleImageProcessor.convert_format ev input_path target_format
  | Enhance _ => SimpleImageProcessor.enhance_quality ev input_path
  | RemoveBackground => SimpleImageProcessor.remove_background ev input_path
  | GenerateBackground => SimpleImageProcessor.generate_background ev input_path
  end.

(** The crop style and the format name contain no path separator. *)
Definition plain_parameters (o : operation) : Prop :=
  match o with
  | Crop style => has_char slash style = false
  | Convert target_format => has_char slash target_format = false
  | _ => True
  end.

(** The parameters sent by the menus. *)
Definition menu_operation (o : operation) : Prop :=
  match o with
  | Resize width height => In (width, height) target_boxes
  | Crop style => In style crop_styles
  | Convert target_format => In (lower target_format) convert_formats
  | Enhance target_resolution =>
      In target_resolution ["8k"; "4k"; "1080p"; "720p"; "original"]
  | RemoveBackground | GenerateBackground => True
  end.

(** Run from [d], the computation leaves the file at [input] as it was and,
    when it returns, returns a path inside [processed/], other than
    [input], with a file behind it. *)
Definition writes_elsewhere (input : string) (m : M string) (d : disk) : Prop :=
  files (fst (m d)) !! input = files d !! input
  /\ forall out,
       snd (m d) = Ok out ->
       startswith out "processed/" = true
       /\ out <> input
       /\ is_Some (files (fst (m d)) !! out).

(** Paths generated from index [lo] on. *)
Definition generated_from (ev : env) (lo : nat) (p : string) : Prop :=
  exists n prefix extension,
    (lo <= n)%nat /\ startswith prefix "/" = false
    /\ p = generated ev n prefix extension.

(** Paths [_get_output_path] derives from [input]. *)
Definition derived_from (input : string) (p : string) : Prop :=
  exists suffix extension,
    has_char slash suffix = false
    /\ match extension with Some e => has_char slash e = false | None => True end
    /\ p = SimpleImageProcessor._get_output_path input suffix extension.

(** A computation that draws names from index [lo] on is framed by
    [allowed] when it leaves every path that is not [allowed] as it was. *)
Definition framed (lo : nat) (allowed : string -> Prop) {A} (m : M A) : Prop :=
  forall d : disk, (lo <= drawn d)%nat ->
    (lo <= drawn (fst (m d)))%nat /\
    forall p, ~ allowed p -> files (fst (m d)) !! p = files d !! p.

(** It is confined to [allowed] when, in addition, a path it returns is
    [allowed] and has a file behind it. *)
Definition confined (lo : nat) (allowed : string -> Prop) (m : M string) : Prop :=
  forall d : disk, (lo <= drawn d)%nat ->
    (lo <= drawn (fst (m d)))%nat /\
    (forall p, ~ allowed p -> files (fst (m d)) !! p = files d !! p) /\
    (forall out, snd (m d) = Ok out ->
                 allowed out /\ is_Some (files (fst (m d)) !! out)).

(** * Sample environments and disks *)

(** No credentials, an unreachable network, no further encoders. *)
Definition offline_env : env :=
  {| REMOVEBG_API_KEY := None;
     PHOTOROOM_API_KEY := None;
     now_uuid := fun n => ("20251015_120000", "a1b2c3d" ++ str (Z.of_nat n));
     removebg_post := fun _ => ConnectionError;
     photoroom_post := fun _ => ConnectionError;
     EXTENSION := fun _ => None |}.

(** Both credentials set; Remove.bg answers 200 with a cut-out, PhotoRoom
    answers 503. *)
Definition online_env : env :=
  {| REMOVEBG_API_KEY := Some "rk";
     PHOTOROOM_API_KEY := Some "pk";
     now_uuid := fun n => ("20251015_120000", "a1b2c3d" ++ str (Z.of_nat n));
     removebg_post := fun f =>
       match f with
       | ImageFile _ _ w h => Response 200 (ImageFile PNG RGBA w h)
       | RawFile _ => Response 400 (RawFile [])
       end;
     photoroom_post := fun _ => Response 503 (RawFile []);
     EXTENSION := fun _ => None |}.

Definition upload : string := "uploads/temp_42_AgACAgIAAxkBAAM.jpg".

(** A disk holding one uploaded file. *)
Definition disk_with (f : file) : disk :=
  {| files := {[ upload := f ]}; drawn := 0; journal := [] |}.

(** A disk from which the upload is gone. *)
Definition empty_disk : disk :=
  {| files := ∅; drawn := 0; journal := [] |}.

(** A button press by user 42 in chat 7 on message 99. *)
Definition press (action : string) : callback_query :=
  {| id := "cbq-1"; from_id := 42; message_chat_id := 7;
     message_message_id := 99; data := action |}.

(** A [SimpleTelegramBot] that remembers an upload of user 42 whose file is
    gone from the disk. *)
Definition stale_simple_bot : SimpleTelegramBot.bot :=
  {| SimpleTelegramBot.store := empty_disk;
     SimpleTelegramBot.user_photos := Some {[ 42 := upload ]};
     SimpleTelegramBot.outbox := [] |}.

(** The same situation for [webhook_server.py] and for [TelegramBot]. *)
Definition stale_server : WebhookServer.server :=
  {| WebhookServer.store := empty_disk;
     WebhookServer.user_photos := {[ 42 := upload ]};
     WebhookServer.outbox := [] |}.

Definition stale_telegram_bot : TelegramBot.bot :=
  {| TelegramBot.store := empty_disk;
     TelegramBot.user_states := {[ 42 := {[ "photo_path" := upload ]} ]};
     TelegramBot.outbox := [] |}.

(** Both credentials set; Remove.bg answers 200 with a cut-out and PhotoRoom
    answers 200, with a JPEG of the size it was sent when that was an
    image. *)
Definition studio_env : env :=
  {| REMOVEBG_API_KEY := Some "rk";
     PHOTOROOM_API_KEY := Some "pk";
     now_uuid := fun n => ("20251015_120000", "a1b2c3d" ++ str (Z.of_nat n));
     removebg_post := fun f =>
       match f with
       | ImageFile _ _ w h => Response 200 (ImageFile PNG RGBA w h)
       | RawFile _ => Response 400 (RawFile [])
       end;
     photoroom_post := fun f =>
       Response 200 (match f with
                     | ImageFile _ _ w h => ImageFile JPEG RGB w h
                     | RawFile bytes => RawFile bytes
                     end);
     EXTENSION := fun _ => None |}.

(** * Leaf actions: the success side *)

(** The caption a leaf handler sends with the result. *)
Definition photo_caption (l : leaf) : string :=
  match l with
  | ResizeLeaf action =>
      match size_map action with
      | Some (width, height) =>
          "✅ *Image resized to " ++ str width ++ "x" ++ str height ++ "*"
      | None => EmptyString
      end
  | CropLeaf action =>
      "✅ *Image cropped (" ++ title (remove_all "crop_" action) ++ ")*"
  | RemoveBackgroundLeaf => "✅ *Background removed with AI-powered Remove.bg!*"
  | GenerateBackgroundLeaf => "✅ *New background generated with PhotoRoom AI!*"
  | ConvertLeaf action =>
      match SimpleTelegramBot.format_map action with
      | Some output_format => "✅ *Image converted to " ++ output_format ++ "*"
      | None => EmptyString
      end
  | EnhanceLeaf action =>
      match SimpleTelegramBot.resolution_map action with
      | Some target_resolution =>
          "✅ *Image enhanced to " ++ upper target_resolution ++ " quality with AI!*"
      | None => EmptyString
      end
  end.

(** The notice a leaf handler edits into the status message at the end. *)
Definition success_notice (l : leaf) : string :=
  match l with
  | ResizeLeaf _ => "✅ Image resized successfully!"
  | CropLeaf _ => "✅ Image cropped successfully!"
  | RemoveBackgroundLeaf => "✅ Background removed using AI!"
  | GenerateBackgroundLeaf => "✅ Background generated using AI!"
  | ConvertLeaf _ => "✅ Format converted successfully!"
  | EnhanceLeaf action =>
      match SimpleTelegramBot.resolution_map action with
      | Some target_resolution =>
          "✅ Quality enhanced to " ++ upper target_resolution ++ "!"
      | None => EmptyString
      end
  end.

(** * Bot computations *)

(** A [SimpleTelegramBot] computation keeps the sessions when it leaves
    [user_photos] as it was and only appends to the outbox. *)
Definition keeps_sessions {A} (m : SimpleTelegramBot.B A) : Prop :=
  forall b,
    SimpleTelegramBot.user_photos (fst (m b)) = SimpleTelegramBot.user_photos b
    /\ exists sent,
         SimpleTelegramBot.outbox (fst (m b))
         = (SimpleTelegramBot.outbox b ++ sent)%list.

(** It is framed by [allowed] when its disk is (see [framed]). *)
Definition bot_framed (lo : nat) (allowed : string -> Prop) {A}
    (m : SimpleTelegramBot.B A) : Prop :=
  forall b, (lo <= drawn (SimpleTelegramBot.store b))%nat ->
    (lo <= drawn (SimpleTelegramBot.store (fst (m b))))%nat
    /\ forall p, ~ allowed p ->
         files (SimpleTelegramBot.store (fst (m b))) !! p
         = files (SimpleTelegramBot.store b) !! p.

(** A [SimpleTelegramBot] that remembers an upload of user 42 whose file
    [f] is on the disk. *)
Definition simple_bot_with (f : file) : SimpleTelegramBot.bot :=
  {| SimpleTelegramBot.store := disk_with f;
     SimpleTelegramBot.user_photos := Some {[ 42 := upload ]};
     SimpleTelegramBot.outbox := [] |}.

(** The same situation for [webhook_server.py]. *)
Definition server_with (f : file) : WebhookServer.server :=
  {| WebhookServer.store := disk_with f;
     WebhookServer.user_photos := {[ 42 := upload ]};
     WebhookServer.outbox := [] |}.

(** A file service that knows one file. *)
Definition sample_files : file_service :=
  {| getFile := fun file_id =>
       if String.eqb file_id "AgACAgIAAxkBAAM" then Some "photos/file_7.jpg"
       else if String.eqb file_id "AgACAgIAAxkBAAQ" then Some "photos/file_8.jpg"
       else None;
     file_url := fun file_path =>
       if String.eqb file_path "photos/file_7.jpg"
       then Response 200 (ImageFile JPEG RGB 1280 960)
       else Response 404 (RawFile []) |}.

(** A photo message of user 42 in chat 7 with three resolution variants. *)
Definition sample_upload : photo_message :=
  {| message_chat := 7;
     message_from := 42;
     message_photo :=
       [ {| file_id := "AgACAgIAAxkBAAI"; photo_width := 90; photo_height := 67 |};
         {| file_id := "AgACAgIAAxkBAAM"; photo_width := 1280; photo_height := 960 |};
         {| file_id := "AgACAgIAAxkBAAL"; photo_width := 320; photo_height := 240 |} ] |}.

(** A bot before any upload. *)
Definition new_simple_bot : SimpleTelegramBot.bot :=
  {| SimpleTelegramBot.store := empty_disk;
     SimpleTelegramBot.user_photos := None;
     SimpleTelegramBot.outbox := [] |}.

(** A [TelegramBot] computation keeps the sessions when it leaves
    [user_states] as it was. *)
Definition keeps_states {A} (m : TelegramBot.B A) : Prop :=
  forall b, TelegramBot.user_states (fst (m b)) = TelegramBot.user_states b.

(** * Properties *)

(** ** Arithmetic of the rational model *)

Lemma truediv_pos (a : Z) (p : positive) : truediv a (Z.pos p) = (a # p)%Q.
Proof. unfold truediv, Qdiv, Qmult, Qinv, inject_Z; simpl. now rewrite Z.mul_1_r. Qed.

Lemma scale_make (a b : Z) (q : positive) : (inject_Z a * (b # q))%Q = (a * b # q)%Q.
Proof. reflexivity. Qed.

Lemma over_make (a : Z) (b q : positive) :
  (inject_Z a / (Z.pos b # q))%Q = (a * Z.pos q # b)%Q.
Proof. unfold Qdiv, Qmult, Qinv, inject_Z; simpl. reflexivity. Qed.

Lemma Qgtb_make (a c : Z) (p q : positive) :
  Qgtb (a # p) (c # q) = (c * Z.pos p <? a * Z.pos q).
Proof. unfold Qgtb, Qle_bool; simpl. rewrite Z.ltb_antisym. reflexivity. Qed.

Lemma py_int_pos (a : Z) (p : positive) : 0 <= a -> py_int (a # p) = a / Z.pos p.
Proof. intros. unfold py_int; simpl. apply Z.quot_div_nonneg; lia. Qed.

Lemma Qfloor_make (a : Z) (p : positive) : Qfloor (a # p) = a / Z.pos p.
Proof. reflexivity. Qed.

(** ** Resize geometry *)

(** [AIImageProcessor] compares the two aspect ratios; this selects the
    smaller of the two scale factors. *)
Lemma ai_resize_dims_spec (ow oh W H : positive) :
  AIImageProcessor.resize_dims (Z.pos ow) (Z.pos oh) (Z.pos W) (Z.pos H)
  = spec_resized_size (Z.pos W) (Z.pos H) (Z.pos ow) (Z.pos oh).
Proof.
  unfold AIImageProcessor.resize_dims, spec_resized_size, spec_scale, py_min.
  rewrite !truediv_pos, !Qgtb_make.
  replace (Z.pos H * Z.pos ow <? Z.pos W * Z.pos oh)
    with (Z.pos ow * Z.pos H <? Z.pos W * Z.pos oh) by (f_equal; lia).
  destruct (Z.pos ow * Z.pos H <? Z.pos W * Z.pos oh) eqn:E.
  - rewrite !scale_make, py_int_pos, !Qfloor_make by lia.
    f_equal.
    + f_equal; lia.
    + symmetry. rewrite Z.mul_comm. apply Z.div_mul. lia.
  - rewrite over_make, !scale_make, py_int_pos, !Qfloor_make by lia.
    f_equal.
    + symmetry. rewrite Z.mul_comm. apply Z.div_mul. lia.
    + f_equal; lia.
Qed.

Lemma simple_resize_dims_spec (ow oh W H : positive) :
  SimpleImageProcessor.resize_dims (Z.pos ow) (Z.pos oh) (Z.pos W) (Z.pos H)
  = spec_resized_size (Z.pos W) (Z.pos H) (Z.pos ow) (Z.pos oh).
Proof.
  unfold SimpleImageProcessor.resize_dims, spec_resized_size, spec_scale, py_min.
  rewrite !truediv_pos, !Qgtb_make.
  destruct (_ <? _); rewrite !scale_make, !py_int_pos, !Qfloor_make by lia; reflexivity.
Qed.

Lemma spec_resized_size_fits (ow oh W H : positive) :
  0 <= fst (spec_resized_size (Z.pos W) (Z.pos H) (Z.pos ow) (Z.pos oh)) <= Z.pos W
  /\ 0 <= snd (spec_resized_size (Z.pos W) (Z.pos H) (Z.pos ow) (Z.pos oh)) <= Z.pos H.
Proof.
  unfold spec_resized_size, spec_scale, py_min.
  rewrite !truediv_pos, !Qgtb_make.
  destruct (_ <? _) eqn:E; rewrite !scale_make, !Qfloor_make; cbn [fst snd].
  - apply Z.ltb_lt in E. repeat split.
    + apply Z.div_pos; lia.
    + apply Z.div_le_upper_bound; lia.
    + apply Z.div_pos; lia.
    + rewrite Z.mul_comm, Z.div_mul; lia.
  - apply Z.ltb_ge in E. repeat split.
    + apply Z.div_pos; lia.
    + rewrite Z.mul_comm, Z.div_mul; lia.
    + apply Z.div_pos; lia.
    + apply Z.div_le_upper_bound; lia.
Qed.

(** ** Crop geometry *)

Ltac same_halves :=
  match goal with
  | |- ?a / 2 = ?b / 2 => replace b with a by lia; reflexivity
  end.

Lemma ai_crop_box_inside (crop_type : string) (w h : positive) :
  box_inside (Z.pos w) (Z.pos h)
    (AIImageProcessor.crop_box crop_type (Z.pos w) (Z.pos h)).
Proof.
  unfold AIImageProcessor.crop_box, box_inside.
  repeat match goal with
         | |- context [String.eqb ?a ?b] => destruct (String.eqb a b)
         end.
  - cbv zeta. Z.div_mod_to_equations. lia.
  - rewrite !truediv_pos, Qgtb_make.
    destruct (_ <? _) eqn:E; [apply Z.ltb_lt in E | apply Z.ltb_ge in E];
      rewrite py_int_pos by lia; cbv zeta; Z.div_mod_to_equations; lia.
  - rewrite !truediv_pos, Qgtb_make.
    destruct (_ <? _) eqn:E; [apply Z.ltb_lt in E | apply Z.ltb_ge in E];
      rewrite py_int_pos by lia; cbv zeta; Z.div_mod_to_equations; lia.
  - unfold AIImageProcessor.golden_ratio. rewrite !truediv_pos, Qgtb_make.
    destruct (_ <? _) eqn:E; [apply Z.ltb_lt in E | apply Z.ltb_ge in E];
      rewrite ?scale_make, ?over_make, py_int_pos by lia;
      cbv zeta; Z.div_mod_to_equations; lia.
Qed.

Lemma simple_crop_box_inside (mode : string) (w h : positive) :
  box_inside (Z.pos w) (Z.pos h)
    (SimpleImageProcessor.crop_box mode (Z.pos w) (Z.pos h)).
Proof.
  unfold SimpleImageProcessor.crop_box, box_inside.
  repeat match goal with
         | |- context [String.eqb ?a ?b] => destruct (String.eqb a b)
         end;
    cbn [orb]; rewrite ?truediv_pos; cbv zeta;
    try (rewrite (py_int_pos (Z.pos w * 16)) by lia);
    try (rewrite (py_int_pos (Z.pos h * 16)) by lia).
  all: try (Z.div_mod_to_equations; lia).
  all: rewrite py_int_pos
    by (apply Z.mul_nonneg_nonneg;
        [apply Z.min_glb; [lia | apply Z.div_pos; lia] | lia]).
  all: Z.div_mod_to_equations; lia.
Qed.

Lemma ai_crop_square (w h : positive) :
  box_size (AIImageProcessor.crop_box "square" (Z.pos w) (Z.pos h))
  = (Z.min (Z.pos w) (Z.pos h), Z.min (Z.pos w) (Z.pos h))
  /\ box_centred (Z.pos w) (Z.pos h)
       (AIImageProcessor.crop_box "square" (Z.pos w) (Z.pos h)).
Proof.
  unfold AIImageProcessor.crop_box, box_size, box_centred;
    cbn [String.eqb Ascii.eqb Bool.eqb].
  cbv zeta. repeat split; try f_equal; try lia; same_halves.
Qed.

Lemma simple_crop_square (w h : positive) :
  box_size (SimpleImageProcessor.crop_box "square" (Z.pos w) (Z.pos h))
  = (Z.min (Z.pos w) (Z.pos h), Z.min (Z.pos w) (Z.pos h))
  /\ box_centred (Z.pos w) (Z.pos h)
       (SimpleImageProcessor.crop_box "square" (Z.pos w) (Z.pos h)).
Proof.
  unfold SimpleImageProcessor.crop_box, box_size, box_centred;
    cbn [String.eqb Ascii.eqb Bool.eqb orb].
  cbv zeta. repeat split; try f_equal; try lia; same_halves.
Qed.

(** The two branches of an [AIImageProcessor] aspect crop: full height with
    a scaled width, or full width with a scaled height. *)
Ltac ai_aspect_crop w h :=
  rewrite !truediv_pos, Qgtb_make;
  destruct (_ <? _); rewrite py_int_pos by lia; cbv zeta; cbn [fst snd];
  [ split; [left | split]; try lia;
    [ replace (Z.pos h - 0) with (Z.pos h) by lia;
      match goal with
      | |- ?x + ?n - ?x = _ => replace (x + n - x) with n by lia
      end; reflexivity
    | same_halves
    | replace (Z.pos h - (Z.pos h - 0)) with 0 by lia; reflexivity ]
  | split; [right | split]; try lia;
    [ replace (Z.pos w - 0) with (Z.pos w) by lia;
      match goal with
      | |- ?x + ?n - ?x = _ => replace (x + n - x) with n by lia
      end; reflexivity
    | replace (Z.pos w - (Z.pos w - 0)) with 0 by lia; reflexivity
    | same_halves ] ].

Lemma ai_crop_landscape (w h : positive) :
  has_ratio 16 9
    (fst (box_size (AIImageProcessor.crop_box "landscape" (Z.pos w) (Z.pos h))))
    (snd (box_size (AIImageProcessor.crop_box "landscape" (Z.pos w) (Z.pos h))))
  /\ box_centred (Z.pos w) (Z.pos h)
       (AIImageProcessor.crop_box "landscape" (Z.pos w) (Z.pos h)).
Proof.
  unfold AIImageProcessor.crop_box, box_size, box_centred, has_ratio;
    cbn [String.eqb Ascii.eqb Bool.eqb].
  ai_aspect_crop w h.
Qed.

(** The portrait crop of [AIImageProcessor] has aspect 3:4. *)
Lemma ai_crop_portrait_is_3_4 (w h : positive) :
  has_ratio 3 4
    (fst (box_size (AIImageProcessor.crop_box "portrait" (Z.pos w) (Z.pos h))))
    (snd (box_size (AIImageProcessor.crop_box "portrait" (Z.pos w) (Z.pos h))))
  /\ box_centred (Z.pos w) (Z.pos h)
       (AIImageProcessor.crop_box "portrait" (Z.pos w) (Z.pos h)).
Proof.
  unfold AIImageProcessor.crop_box, box_size, box_centred, has_ratio;
    cbn [String.eqb Ascii.eqb Bool.eqb].
  ai_aspect_crop w h.
Qed.

Lemma simple_crop_portrait (w h : positive) :
  has_ratio 9 16
    (fst (box_size (SimpleImageProcessor.crop_box "portrait" (Z.pos w) (Z.pos h))))
    (snd (box_size (SimpleImageProcessor.crop_box "portrait" (Z.pos w) (Z.pos h))))
  /\ box_centred (Z.pos w) (Z.pos h)
       (SimpleImageProcessor.crop_box "portrait" (Z.pos w) (Z.pos h)).
Proof.
  unfold SimpleImageProcessor.crop_box, box_size, box_centred, has_ratio;
    cbn [String.eqb Ascii.eqb Bool.eqb orb].
  rewrite !truediv_pos. rewrite (py_int_pos (Z.pos w * 16)) by lia.
  rewrite py_int_pos
    by (apply Z.mul_nonneg_nonneg;
        [apply Z.min_glb; [lia | apply Z.div_pos; lia] | lia]).
  cbv zeta; cbn [fst snd].
  set (nh := Z.min (Z.pos h) (Z.pos w * 16 / 9)).
  set (nw := nh * 9 / 16).
  split; [left | split]; [ | same_halves | same_halves ].
  replace ((Z.pos w - nw) / 2 + nw - (Z.pos w - nw) / 2) with nw by lia.
  replace ((Z.pos h - nh) / 2 + nh - (Z.pos h - nh) / 2) with nh by lia.
  reflexivity.
Qed.

Lemma simple_crop_landscape (w h : positive) :
  has_ratio 16 9
    (fst (box_size (SimpleImageProcessor.crop_box "landscape" (Z.pos w) (Z.pos h))))
    (snd (box_size (SimpleImageProcessor.crop_box "landscape" (Z.pos w) (Z.pos h))))
  /\ box_centred (Z.pos w) (Z.pos h)
       (SimpleImageProcessor.crop_box "landscape" (Z.pos w) (Z.pos h)).
Proof.
  unfold SimpleImageProcessor.crop_box, box_size, box_centred, has_ratio;
    cbn [String.eqb Ascii.eqb Bool.eqb orb].
  rewrite !truediv_pos. rewrite (py_int_pos (Z.pos h * 16)) by lia.
  rewrite py_int_pos
    by (apply Z.mul_nonneg_nonneg;
        [apply Z.min_glb; [lia | apply Z.div_pos; lia] | lia]).
  cbv zeta; cbn [fst snd].
  set (nw := Z.min (Z.pos w) (Z.pos h * 16 / 9)).
  set (nh := nw * 9 / 16).
  split; [right | split]; [ | same_halves | same_halves ].
  replace ((Z.pos w - nw) / 2 + nw - (Z.pos w - nw) / 2) with nw by lia.
  replace ((Z.pos h - nh) / 2 + nh - (Z.pos h - nh) / 2) with nh by lia.
  reflexivity.
Qed.

(** ** Generated names *)

Lemma generate_filename_run ev prefix extension d :
  AIImageProcessor._generate_filename ev prefix extension d
  = ({| files := files d; drawn := S (drawn d); journal := journal d |},
     Ok (prefix ++ "_" ++ fst (now_uuid ev (drawn d)) ++ "_"
           ++ snd (now_uuid ev (drawn d)) ++ "." ++ extension)).
Proof.
  unfold AIImageProcessor._generate_filename.
  destruct (now_uuid ev (drawn d)); reflexivity.
Qed.

Lemma os_path_join_processed (name : string) :
  startswith name "/" = false -> os_path_join "processed" name = "processed/" ++ name.
Proof. intros H. unfold os_path_join. rewrite H. reflexivity. Qed.

Lemma startswith_slash_cons (c : ascii) (s : string) :
  startswith (String c s) "/" = if ascii_dec "/" c then true else false.
Proof. unfold startswith. destruct s; reflexivity. Qed.

Lemma startswith_app_slash (prefix rest : string) :
  startswith prefix "/" = false -> startswith (prefix ++ "_" ++ rest) "/" = false.
Proof.
  destruct prefix as [|c prefix]; [reflexivity|].
  change (String c prefix ++ "_" ++ rest) with (String c (prefix ++ "_" ++ rest)).
  now rewrite !startswith_slash_cons.
Qed.

Lemma generated_in_processed ev n prefix extension :
  startswith prefix "/" = false ->
  generated ev n prefix extension
  = "processed/" ++ prefix ++ "_" ++ fst (now_uuid ev n) ++ "_"
      ++ snd (now_uuid ev n) ++ "." ++ extension.
Proof.
  intros H. unfold generated. apply os_path_join_processed.
  now apply startswith_app_slash.
Qed.

Lemma startswith_app (p s : string) : startswith (p ++ s) p = true.
Proof.
  unfold startswith. induction p as [|c p IH].
  - now destruct s.
  - change (String c p ++ s) with (String c (p ++ s)).
    cbn [String.prefix]. destruct (ascii_dec c c); [exact IH | contradiction].
Qed.

Lemma generated_startswith ev n prefix extension :
  startswith prefix "/" = false ->
  startswith (generated ev n prefix extension) "processed/" = true.
Proof.
  intros H. rewrite generated_in_processed by assumption.
  apply startswith_app.
Qed.

(** With fresh names, a generated path is never the path of a file that is
    already on disk. *)
Lemma fresh_names_differ ev d path n prefix extension :
  fresh_names ev d -> is_Some (files d !! path) -> (drawn d <= n)%nat ->
  startswith prefix "/" = false ->
  generated ev n prefix extension <> path.
Proof.
  intros Hfresh [f Hf] Hn Hp Heq. rewrite <- Heq in Hf.
  rewrite (Hfresh n prefix extension Hn Hp) in Hf. discriminate.
Qed.

(** A disk that only holds the upload has fresh names. *)
Lemma fresh_names_disk_with ev f : fresh_names ev (disk_with f).
Proof.
  intros n prefix extension _ Hp. unfold disk_with; cbn [files].
  apply lookup_singleton_ne. rewrite generated_in_processed by assumption.
  unfold upload. discriminate.
Qed.

(** ** Running the [AIImageProcessor] methods on an image *)

Ltac run_proc :=
  repeat (first
    [ progress (unfold bind, try_except, note, ret, raise, write_file, read_file,
                Image_open, requests_post, save, save_by_ext, spoil, size,
                Image_new, convert, resize, crop, AIImageProcessor.processed_dir)
    | rewrite generate_filename_run
    | progress cbn [files drawn journal mode width height fst snd] ]).

Lemma ai_remove_background_local_run ev d path fmt m w h :
  files d !! path = Some (ImageFile fmt m w h) ->
  AIImageProcessor.remove_background_local ev path d
  = ({| files := <[generated ev (drawn d) "bg_removed_local" "png"
                     := ImageFile PNG RGBA w h]> (files d);
        drawn := S (drawn d);
        journal := journal d ++ [Called "remove_background_local" path] |},
     Ok (generated ev (drawn d) "bg_removed_local" "png")).
Proof.
  intros Hf. unfold AIImageProcessor.remove_background_local.
  run_proc. rewrite Hf. run_proc.
  destruct m; run_proc; reflexivity.
Qed.

(** On a path that holds no decodable image the local method re-raises the
    library's error and writes nothing. *)
Lemma ai_remove_background_local_reraises ev d path :
  (forall fmt m w h, files d !! path <> Some (ImageFile fmt m w h)) ->
  exists e,
    AIImageProcessor.remove_background_local ev path d
    = ({| files := files d; drawn := drawn d;
          journal := journal d ++ [Called "remove_background_local" path] |},
       Raise e)
    /\ (e = FileNotFoundError path \/ e = UnidentifiedImageError path).
Proof.
  intros Hf. unfold AIImageProcessor.remove_background_local. run_proc.
  destruct (files d !! path) as [[fmt m w h|bytes]|] eqn:E.
  - exfalso. eapply Hf. reflexivity.
  - eexists; split; [reflexivity | now right].
  - eexists; split; [reflexivity | now left].
Qed.

Lemma ai_generate_background_local_run ev d path fmt m w h :
  files d !! path = Some (ImageFile fmt m w h) ->
  AIImageProcessor.generate_background_local ev path d
  = ({| files := <[generated ev (drawn d) "bg_generated_local" "jpg"
                     := ImageFile JPEG RGB w h]> (files d);
        drawn := S (drawn d);
        journal := journal d ++ [Called "generate_background_local" path] |},
     Ok (generated ev (drawn d) "bg_generated_local" "jpg")).
Proof.
  intros Hf. unfold AIImageProcessor.generate_background_local.
  run_proc. rewrite Hf. run_proc.
  destruct m; run_proc; reflexivity.
Qed.


Ltac tidy_journal :=
  cbn [files drawn journal fst snd]; rewrite <- ?app_assoc; cbn [List.app].

Lemma ai_remove_background_removebg_run ev d path fmt m w h :
  files d !! path = Some (ImageFile fmt m w h) ->
  exists prefix f rest,
    AIImageProcessor.remove_background_removebg ev path d
    = ({| files := <[generated ev (drawn d) prefix "png" := f]> (files d);
          drawn := S (drawn d);
          journal := journal d
                       ++ Called "remove_background_removebg" path :: rest |},
       Ok (generated ev (drawn d) prefix "png"))
    /\ (prefix = "removebg" \/ prefix = "bg_removed_local")
    /\ (removebg_unavailable ev (ImageFile fmt m w h) ->
        prefix = "bg_removed_local" /\ f = ImageFile PNG RGBA w h
        /\ exists rest',
             rest = (rest' ++ [Called "remove_background_local" path])%list).
Proof.
  intros Hf. unfold AIImageProcessor.remove_background_removebg.
  unfold bind at 1. unfold note at 1.
  destruct (truthy (REMOVEBG_API_KEY ev)) eqn:Hkey; cbn [negb].
  2:{ rewrite (ai_remove_background_local_run ev _ path fmt m w h) by exact Hf.
      tidy_journal. do 3 eexists. split; [reflexivity|]. split; [now right|].
      intros _. split; [reflexivity|]. split; [reflexivity|].
      exists []. reflexivity. }
  unfold try_except, bind at 1. unfold read_file. cbn [files]. rewrite Hf.
  unfold bind at 1. unfold requests_post, bind at 1, note.
  cbn [files drawn journal].
  destruct (removebg_post ev (ImageFile fmt m w h))
    as [|status_code content] eqn:Hpost.
  - unfold raise.
    rewrite (ai_remove_background_local_run ev _ path fmt m w h) by exact Hf.
    tidy_journal. do 3 eexists. split; [reflexivity|]. split; [now right|].
    intros _. split; [reflexivity|]. split; [reflexivity|].
    exists [Posted "https://api.remove.bg/v1.0/removebg" path]. reflexivity.
  - unfold ret. destruct (status_code =? 200) eqn:Hc.
    + run_proc. tidy_journal.
      do 3 eexists. split; [reflexivity|]. split; [now left|].
      intros [Hk | [Hp | (c & b & Hp & Hne)]].
      * congruence.
      * congruence.
      * rewrite Hp in Hpost. injection Hpost as -> ->.
        apply Z.eqb_eq in Hc. contradiction.
    + rewrite (ai_remove_background_local_run ev _ path fmt m w h) by exact Hf.
      tidy_journal. do 3 eexists. split; [reflexivity|]. split; [now right|].
      intros _. split; [reflexivity|]. split; [reflexivity|].
      exists [Posted "https://api.remove.bg/v1.0/removebg" path]. reflexivity.
Qed.


Lemma ai_resize_image_run ev d path fmt m ow oh W H nw nh :
  files d !! path = Some (ImageFile fmt m ow oh) ->
  AIImageProcessor.resize_dims (Z.pos ow) (Z.pos oh) W H = (Z.pos nw, Z.pos nh) ->
  writes ev JPEG (ai_jpeg_mode m) = true ->
  AIImageProcessor.resize_image ev path W H d
  = ({| files := <[generated ev (drawn d) "resized" "jpg"
                     := ImageFile JPEG (stored_mode JPEG (ai_jpeg_mode m)) nw nh]>
                   (files d);
        drawn := S (drawn d);
        journal := journal d ++ [Called "resize_image" path] |},
     Ok (generated ev (drawn d) "resized" "jpg")).
Proof.
  intros Hf Hdims Hw. unfold AIImageProcessor.resize_image.
  run_proc. rewrite Hf. run_proc.
  unfold ai_jpeg_mode in *.
  destruct (mode_in m [RGBA; P]); run_proc; rewrite Hdims; run_proc;
    cbn [Z.ltb Z.compare Pos.compare Pos.compare_cont orb];
    replace (Z.pos nw <? 1) with false by (symmetry; apply Z.ltb_ge; lia);
    replace (Z.pos nh <? 1) with false by (symmetry; apply Z.ltb_ge; lia);
    cbn [orb]; run_proc; rewrite Hw; reflexivity.
Qed.

Lemma ai_resize_image_empty ev d path fmt m ow oh W H nw nh :
  files d !! path = Some (ImageFile fmt m ow oh) ->
  AIImageProcessor.resize_dims (Z.pos ow) (Z.pos oh) W H = (nw, nh) ->
  nw < 1 \/ nh < 1 ->
  AIImageProcessor.resize_image ev path W H d
  = ({| files := files d; drawn := drawn d;
        journal := journal d ++ [Called "resize_image" path] |},
     Raise (ValueError "height and width must be > 0")).
Proof.
  intros Hf Hdims Hempty. unfold AIImageProcessor.resize_image.
  run_proc. rewrite Hf. run_proc.
  assert (Hb : (nw <? 1) || (nh <? 1) = true).
  { apply orb_true_iff. destruct Hempty; [left | right]; now apply Z.ltb_lt. }
  destruct (mode_in m [RGBA; P]); run_proc; rewrite Hdims; run_proc;
    rewrite Hb; reflexivity.
Qed.

Lemma simple_resize_image_run ev d path fmt m ow oh W H nw nh f :
  files d !! path = Some (ImageFile fmt m ow oh) ->
  SimpleImageProcessor.resize_dims (Z.pos ow) (Z.pos oh) W H = (Z.pos nw, Z.pos nh) ->
  let out := SimpleImageProcessor._get_output_path path
               ("resized_" ++ str (Z.pos nw) ++ "x" ++ str (Z.pos nh)) None in
  format_of_path ev out = Some f ->
  writes ev f m = true ->
  SimpleImageProcessor.resize_image ev path W H d
  = ({| files := <[out := ImageFile f (stored_mode f m) nw nh]> (files d);
        drawn := drawn d;
        journal := journal d ++ [Called "resize_image" path] |},
     Ok out).
Proof.
  intros Hf Hdims out Hfmt Hw. unfold SimpleImageProcessor.resize_image.
  run_proc. rewrite Hf. run_proc. rewrite Hdims. run_proc.
  replace (Z.pos nw <? 1) with false by (symmetry; apply Z.ltb_ge; lia).
  replace (Z.pos nh <? 1) with false by (symmetry; apply Z.ltb_ge; lia).
  cbn [orb]. fold out. rewrite Hfmt. run_proc. rewrite Hw. reflexivity.
Qed.

Lemma ai_convert_format_unsupported ev d path fmt m w h target_format :
  files d !! path = Some (ImageFile fmt m w h) ->
  ~ In (lower target_format) ["jpg"; "jpeg"; "png"; "webp"] ->
  AIImageProcessor.convert_format ev path target_format d
  = ({| files := files d; drawn := drawn d;
        journal := journal d ++ [Called "convert_format" path] |},
     Raise (ValueError ("Unsupported format: " ++ target_format))).
Proof.
  intros Hf Hout. unfold AIImageProcessor.convert_format.
  run_proc. rewrite Hf. run_proc.
  assert (Hne : forall s, In s ["jpg"; "jpeg"; "png"; "webp"] ->
                          String.eqb (lower target_format) s = false).
  { intros s Hs. apply String.eqb_neq. intros Heq. apply Hout. now rewrite Heq. }
  rewrite !Hne by (cbn; tauto). reflexivity.
Qed.

Lemma simple_convert_format_unknown_extension ev d path fmt m w h format :
  files d !! path = Some (ImageFile fmt m w h) ->
  ~ In (lower format) ["jpg"; "jpeg"; "png"; "webp"] ->
  format_of_path ev (SimpleImageProcessor._get_output_path path "converted" (Some format))
  = None ->
  SimpleImageProcessor.convert_format ev path format d
  = ({| files := files d; drawn := drawn d;
        journal := journal d ++ [Called "convert_format" path] |},
     Raise (ValueError "unknown file extension")).
Proof.
  intros Hf Hout Hext. unfold SimpleImageProcessor.convert_format.
  run_proc. rewrite Hf. run_proc.
  assert (Hne : forall s, In s ["jpg"; "jpeg"; "png"; "webp"] ->
                          String.eqb (lower format) s = false).
  { intros s Hs. apply String.eqb_neq. intros Heq. apply Hout. now rewrite Heq. }
  rewrite !Hne by (cbn; tauto). cbn [orb]. rewrite Hext. reflexivity.
Qed.

Lemma simple_convert_format_by_extension ev d path fmt m w h format f :
  files d !! path = Some (ImageFile fmt m w h) ->
  ~ In (lower format) ["jpg"; "jpeg"; "png"; "webp"] ->
  let out := SimpleImageProcessor._get_output_path path "converted" (Some format) in
  format_of_path ev out = Some f ->
  writes ev f m = true ->
  SimpleImageProcessor.convert_format ev path format d
  = ({| files := <[out := ImageFile f (stored_mode f m) w h]> (files d);
        drawn := drawn d;
        journal := journal d ++ [Called "convert_format" path] |},
     Ok out).
Proof.
  intros Hf Hout out Hext Hw. unfold SimpleImageProcessor.convert_format.
  run_proc. rewrite Hf. run_proc.
  assert (Hne : forall s, In s ["jpg"; "jpeg"; "png"; "webp"] ->
                          String.eqb (lower format) s = false).
  { intros s Hs. apply String.eqb_neq. intros Heq. apply Hout. now rewrite Heq. }
  rewrite !Hne by (cbn; tauto). cbn [orb]. fold out. rewrite Hext.
  run_proc. rewrite Hw. reflexivity.
Qed.

(** ** Background removal and generation *)

(** C2 (amended).  For every input path that holds a decodable image,
    [remove_background_removebg] returns the path of a file it wrote inside
    [processed/], whatever the credential and whatever the remote service
    answers.  When the credential is absent, the request fails or the status
    is not 200, that file is the local approximation, an RGBA PNG of the
    source size written by [remove_background_local]; on such an input
    [remove_background_local] itself returns as well. *)
Theorem remove_background_falls_back ev d path fmt m w h :
  files d !! path = Some (ImageFile fmt m w h) ->
  exists out,
    snd (AIImageProcessor.remove_background_removebg ev path d) = Ok out
    /\ startswith out "processed/" = true
    /\ is_Some (files (fst (AIImageProcessor.remove_background_removebg ev path d))
                  !! out)
    /\ (removebg_unavailable ev (ImageFile fmt m w h) ->
        files (fst (AIImageProcessor.remove_background_removebg ev path d)) !! out
        = Some (ImageFile PNG RGBA w h)
        /\ exists before,
             journal (fst (AIImageProcessor.remove_background_removebg ev path d))
             = (before ++ [Called "remove_background_local" path])%list)
    /\ snd (AIImageProcessor.remove_background_local ev path d)
       = Ok (generated ev (drawn d) "bg_removed_local" "png").
Proof.
  intros Hf.
  destruct (ai_remove_background_removebg_run ev d path fmt m w h Hf)
    as (prefix & f & rest & Hrun & Hprefix & Hlocal).
  rewrite Hrun; cbn [fst snd files journal].
  exists (generated ev (drawn d) prefix "png").
  split; [reflexivity|]. split.
  { apply generated_startswith. destruct Hprefix as [-> | ->]; reflexivity. }
  split.
  { rewrite lookup_insert_eq. eauto. }
  split.
  - intros Hun. destruct (Hlocal Hun) as (-> & -> & rest' & ->).
    split; [apply lookup_insert_eq|].
    exists (journal d ++ Called "remove_background_removebg" path :: rest')%list.
    rewrite <- app_assoc. reflexivity.
  - rewrite (ai_remove_background_local_run ev d path fmt m w h Hf). reflexivity.
Qed.

Lemma remove_background_falls_back_witness :
  files (disk_with (ImageFile JPEG RGB 1280 960)) !! upload
  = Some (ImageFile JPEG RGB 1280 960)
  /\ exists out,
       snd (AIImageProcessor.remove_background_removebg offline_env upload
              (disk_with (ImageFile JPEG RGB 1280 960))) = Ok out
       /\ startswith out "processed/" = true.
Proof.
  split; [reflexivity|].
  destruct (remove_background_falls_back offline_env
              (disk_with (ImageFile JPEG RGB 1280 960)) upload JPEG RGB 1280 960
              eq_refl) as (out & Hout & Hdir & _).
  exists out. split; assumption.
Defined.

(** Without a credential and without a decodable file behind the path, the
    fallback raises and so does [remove_background_removebg]. *)
Lemma remove_background_fallback_raises :
  truthy (REMOVEBG_API_KEY offline_env) = false
  /\ snd (AIImageProcessor.remove_background_local offline_env upload empty_disk)
     = Raise (FileNotFoundError upload)
  /\ snd (AIImageProcessor.remove_background_removebg offline_env upload empty_disk)
     = Raise (FileNotFoundError upload)
  /\ snd (AIImageProcessor.remove_background_removebg offline_env upload
            (disk_with (RawFile [255; 216; 0])))
     = Raise (UnidentifiedImageError upload).
Proof. repeat split; vm_compute; reflexivity. Qed.

Lemma ai_generate_background_photoroom_run ev d path prompt fmt m w h :
  files d !! path = Some (ImageFile fmt m w h) ->
  fresh_names ev d ->
  exists d' out,
    AIImageProcessor.generate_background_photoroom ev path prompt d = (d', Ok out)
    /\ startswith out "processed/" = true
    /\ is_Some (files d' !! out)
    /\ files d' !! path = Some (ImageFile fmt m w h)
    /\ (truthy (PHOTOROOM_API_KEY ev) = false ->
        journal d'
        = (journal d ++ [Called "generate_background_photoroom" path;
                         Called "generate_background_local" path])%list
        /\ files d' !! out = Some (ImageFile JPEG RGB w h))
    /\ (truthy (PHOTOROOM_API_KEY ev) = true ->
        exists rest,
          journal d'
          = (journal d ++ Called "generate_background_photoroom" path
               :: Called "remove_background_removebg" path :: rest)%list
          /\ (photoroom_unavailable ev ->
              files d' !! out = Some (ImageFile JPEG RGB w h)
              /\ exists rest',
                   rest = (rest' ++ [Called "generate_background_local" path])%list)).
Proof.
  intros Hf Hfresh.
  assert (Hin : is_Some (files d !! path)) by eauto.
  unfold AIImageProcessor.generate_background_photoroom.
  unfold bind at 1. unfold note at 1.
  destruct (truthy (PHOTOROOM_API_KEY ev)) eqn:Hkey; cbn [negb].
  2:{ rewrite (ai_generate_background_local_run ev _ path fmt m w h) by exact Hf.
      tidy_journal. do 2 eexists. split; [reflexivity|]. cbn [files journal drawn].
      split; [now apply generated_startswith|].
      split; [rewrite lookup_insert_eq; eauto|].
      split.
      { rewrite lookup_insert_ne; [exact Hf|].
        apply (fresh_names_differ ev d); auto; reflexivity. }
      split; [|discriminate]. intros _.
      split; [reflexivity | apply lookup_insert_eq]. }
  unfold try_except, bind at 1.
  match goal with
  | |- context [AIImageProcessor.remove_background_removebg ev path ?d1] =>
      destruct (ai_remove_background_removebg_run ev d1 path fmt m w h Hf)
        as (prefix & f & rest & Hrun & Hprefix & _)
  end.
  rewrite Hrun. cbn [files drawn journal].
  assert (Hstart : startswith prefix "/" = false)
    by (destruct Hprefix as [-> | ->]; reflexivity).
  assert (Hne1 : generated ev (drawn d) prefix "png" <> path)
    by (apply (fresh_names_differ ev d); auto).
  unfold bind at 1. unfold read_file at 1. cbn [files]. rewrite lookup_insert_eq.
  unfold bind at 1. unfold requests_post, bind at 1, note. cbn [files drawn journal].
  assert (Hlocal : forall d2,
             files d2 = <[generated ev (drawn d) prefix "png" := f]> (files d) ->
             files d2 !! path = Some (ImageFile fmt m w h)).
  { intros d2 ->. rewrite lookup_insert_ne; auto. }
  destruct (photoroom_post ev f) as [|status_code content] eqn:Hpost.
  - unfold raise.
    rewrite (ai_generate_background_local_run ev _ path fmt m w h)
      by (apply Hlocal; reflexivity).
    tidy_journal. do 2 eexists. split; [reflexivity|]. cbn [files journal drawn].
    split; [now apply generated_startswith|].
    split; [rewrite lookup_insert_eq; eauto|].
    split.
    { rewrite !lookup_insert_ne; auto.
      apply (fresh_names_differ ev d); auto; reflexivity. }
    split; [discriminate|]. intros _. eexists. split; [reflexivity|].
    intros _. split; [apply lookup_insert_eq|].
    eexists (_ ++ [_])%list. rewrite <- app_assoc. reflexivity.
  - unfold ret. destruct (status_code =? 200) eqn:Hc.
    + run_proc. tidy_journal. do 2 eexists. split; [reflexivity|]. cbn [files journal drawn].
      split; [now apply generated_startswith|].
      split; [rewrite lookup_insert_eq; eauto|].
      split.
      { rewrite !lookup_insert_ne; auto.
        apply (fresh_names_differ ev d); auto; reflexivity. }
      split; [discriminate|]. intros _. eexists. split; [reflexivity|].
      intros Hun. exfalso. destruct (Hun f) as [Hp | (c & b & Hp & Hne)].
      * congruence.
      * rewrite Hp in Hpost. injection Hpost as -> ->.
        apply Z.eqb_eq in Hc. contradiction.
    + rewrite (ai_generate_background_local_run ev _ path fmt m w h)
        by (apply Hlocal; reflexivity).
      tidy_journal. do 2 eexists. split; [reflexivity|]. cbn [files journal drawn].
      split; [now apply generated_startswith|].
      split; [rewrite lookup_insert_eq; eauto|].
      split.
      { rewrite !lookup_insert_ne; auto.
        apply (fresh_names_differ ev d); auto; reflexivity. }
      split; [discriminate|]. intros _. eexists. split; [reflexivity|].
      intros _. split; [apply lookup_insert_eq|].
      eexists (_ ++ [_])%list. rewrite <- app_assoc. reflexivity.
Qed.




(** ** Resize *)

Lemma target_boxes_positive (W H : Z) :
  In (W, H) target_boxes -> exists pw ph, W = Z.pos pw /\ H = Z.pos ph.
Proof.
  unfold target_boxes. cbn [In].
  intros [E|[E|[E|[E|[E|[]]]]]]; injection E as <- <-; eauto.
Qed.




(** ** Convert *)

(** C7 (amended).  For every format string whose lower-case form is none of
    jpg, jpeg, png and webp, [AIImageProcessor.convert_format] raises
    [ValueError("Unsupported format: ...")] on a decodable image and writes
    no file; the four names are accepted in any letter case.
    [SimpleImageProcessor.convert_format] has no such check: it hands the
    name to the library as a file extension, fails with the library's
    "unknown file extension" when no encoder is registered for it, and writes
    the file when one is. *)
Theorem convert_rejects_unknown_format ev d path fmt m w h target_format :
  files d !! path = Some (ImageFile fmt m w h) ->
  ~ In (lower target_format) ["jpg"; "jpeg"; "png"; "webp"] ->
  AIImageProcessor.convert_format ev path target_format d
  = ({| files := files d; drawn := drawn d;
        journal := journal d ++ [Called "convert_format" path] |},
     Raise (ValueError ("Unsupported format: " ++ target_format)))
  /\ (format_of_path ev
        (SimpleImageProcessor._get_output_path path "converted" (Some target_format))
      = None ->
      SimpleImageProcessor.convert_format ev path target_format d
      = ({| files := files d; drawn := drawn d;
            journal := journal d ++ [Called "convert_format" path] |},
         Raise (ValueError "unknown file extension")))
  /\ (forall f,
        format_of_path ev
          (SimpleImageProcessor._get_output_path path "converted" (Some target_format))
        = Some f ->
        writes ev f m = true ->
        snd (SimpleImageProcessor.convert_format ev path target_format d)
        = Ok (SimpleImageProcessor._get_output_path path "converted"
                (Some target_format))).
Proof.
  intros Hf Hout. split; [|split].
  - now apply (ai_convert_format_unsupported ev d path fmt m w h).
  - intros Hext.
    now apply (simple_convert_format_unknown_extension ev d path fmt m w h).
  - intros f Hext Hw.
    now rewrite (simple_convert_format_by_extension ev d path fmt m w h
                   target_format f Hf Hout Hext Hw).
Qed.

Lemma convert_rejects_unknown_format_witness :
  files (disk_with (ImageFile PNG RGB 640 480)) !! upload
  = Some (ImageFile PNG RGB 640 480)
  /\ ~ In (lower "TIFF") ["jpg"; "jpeg"; "png"; "webp"]
  /\ snd (AIImageProcessor.convert_format offline_env upload "TIFF"
            (disk_with (ImageFile PNG RGB 640 480)))
     = Raise (ValueError "Unsupported format: TIFF").
Proof.
  assert (H1 : files (disk_with (ImageFile PNG RGB 640 480)) !! upload
               = Some (ImageFile PNG RGB 640 480)) by reflexivity.
  assert (H2 : ~ In (lower "TIFF") ["jpg"; "jpeg"; "png"; "webp"]).
  { cbn. intros [H|[H|[H|[H|[]]]]]; discriminate. }
  destruct (convert_rejects_unknown_format offline_env _ upload PNG RGB 640 480
              "TIFF" H1 H2) as (Hai & _).
  split; [exact H1|]. split; [exact H2|]. now rewrite Hai.
Defined.

(** "jpg" and "JPEG" lie outside {jpeg, png, webp}, yet both processors
    convert; the bot itself passes "JPEG", "PNG" and "WebP". *)
Lemma convert_accepts_jpg_and_upper_case :
  ~ In "jpg" convert_formats
  /\ ~ In "JPEG" convert_formats
  /\ snd (AIImageProcessor.convert_format offline_env upload "jpg"
            (disk_with (ImageFile PNG RGB 640 480)))
     = Ok (generated offline_env 0 "converted_jpg" "jpg")
  /\ snd (AIImageProcessor.convert_format offline_env upload "JPEG"
            (disk_with (ImageFile PNG RGB 640 480)))
     = Ok (generated offline_env 0 "converted_JPEG" "jpg")
  /\ snd (SimpleImageProcessor.convert_format offline_env upload "jpg"
            (disk_with (ImageFile PNG RGB 640 480)))
     = Ok "processed/temp_42_AgACAgIAAxkBAAM_converted.jpg".
Proof.
  split. { cbn. intros [H|[H|[H|[]]]]; discriminate. }
  split. { cbn. intros [H|[H|[H|[]]]]; discriminate. }
  repeat split; vm_compute; reflexivity.
Qed.

(** ** Crop, convert: the missing conversions *)

(** A JPEG file never carries an alpha band. *)
Lemma jpeg_files_have_no_alpha ev (m : pil_mode) :
  writes ev JPEG m = true -> has_alpha (stored_mode JPEG m) = false.
Proof. destruct m; cbn; intros H; try reflexivity; discriminate. Qed.

(** C4.  [AIImageProcessor.smart_crop] saves the cropped image as JPEG
    without converting its mode first (its sibling [resize_image] converts
    RGBA and P to RGB), so on a valid RGBA image every crop style raises
    although the crop box itself ([ai_crop_box_inside]) lies inside the
    image; [SimpleImageProcessor.smart_crop] returns on the same image. *)
Theorem ai_smart_crop_raises_on_rgba :
  Forall (fun style =>
            snd (AIImageProcessor.smart_crop offline_env "uploads/cutout.png" style
                   {| files := {[ "uploads/cutout.png" := ImageFile PNG RGBA 800 600 ]};
                      drawn := 0; journal := [] |})
            = Raise (OSError "cannot write mode")
            /\ box_inside 800 600 (AIImageProcessor.crop_box style 800 600)
            /\ exists out,
                 snd (SimpleImageProcessor.smart_crop offline_env "uploads/cutout.png"
                        style
                        {| files := {[ "uploads/cutout.png" := ImageFile PNG RGBA 800 600 ]};
                           drawn := 0; journal := [] |})
                 = Ok out)
         crop_styles.
Proof.
  repeat constructor; try (vm_compute; reflexivity);
    try (vm_compute; intuition discriminate);
    eexists; vm_compute; reflexivity.
Qed.

(** C5.  On a 1600 x 1600 image the portrait crop of [AIImageProcessor] is
    the centred 1200 x 1600 box, of aspect 3:4 and not 9:16, while
    [SimpleImageProcessor] cuts the centred 900 x 1600 box; the bot offers
    the style as "Portrait (9:16)". *)
Theorem ai_portrait_crop_is_not_9_16 :
  AIImageProcessor.crop_box "portrait" 1600 1600 = (200, 0, 1400, 1600)
  /\ has_ratio 3 4 1200 1600
  /\ ~ has_ratio 9 16 1200 1600
  /\ SimpleImageProcessor.crop_box "portrait" 1600 1600 = (350, 0, 1250, 1600)
  /\ has_ratio 9 16 900 1600
  /\ In ("📱 Portrait (9:16)", "crop_portrait") (concat (crop_menu "back"))
  /\ files (fst (AIImageProcessor.smart_crop offline_env upload "portrait"
                   (disk_with (ImageFile JPEG RGB 1600 1600))))
       !! generated offline_env 0 "cropped_portrait" "jpg"
     = Some (ImageFile JPEG RGB 1200 1600).
Proof.
  split; [reflexivity|]. split; [left; reflexivity|]. split.
  { unfold has_ratio. intros [H|H]; vm_compute in H; discriminate. }
  split; [reflexivity|]. split; [left; reflexivity|].
  split; [cbn; tauto|]. vm_compute. reflexivity.
Qed.

(** C6.  [AIImageProcessor.convert_format] converts RGBA and P to RGB before
    the JPEG save but not LA: on an LA image the conversion to "jpeg" raises
    and writes nothing, whereas [SimpleImageProcessor.convert_format], which
    lists LA, writes an RGB JPEG. *)
Theorem ai_convert_jpeg_raises_on_la :
  snd (AIImageProcessor.convert_format offline_env upload "jpeg"
         (disk_with (ImageFile PNG LA 640 480)))
  = Raise (OSError "cannot write mode")
  /\ map_to_list (files (fst (AIImageProcessor.convert_format offline_env upload "jpeg"
                                (disk_with (ImageFile PNG LA 640 480)))))
     = [ (upload, ImageFile PNG LA 640 480) ]
  /\ has_alpha LA = true
  /\ files (fst (AIImageProcessor.convert_format offline_env upload "jpeg"
                   (disk_with (ImageFile PNG RGBA 640 480))))
       !! generated offline_env 0 "converted_jpeg" "jpg"
     = Some (ImageFile JPEG RGB 640 480)
  /\ files (fst (SimpleImageProcessor.convert_format offline_env upload "jpeg"
                   (disk_with (ImageFile PNG LA 640 480))))
       !! "processed/temp_42_AgACAgIAAxkBAAM_converted.jpeg"
     = Some (ImageFile JPEG RGB 640 480).
Proof. repeat split; vm_compute; reflexivity. Qed.

(** ** The routers *)

(** [webhook_server.py] checks that the stored path names an existing file
    before it looks at the action. *)
Lemma webhook_server_guard ev (cq : callback_query) (b : WebhookServer.server) :
  match WebhookServer.user_photos b !! from_id cq with
  | Some p => p = EmptyString \/ files (WebhookServer.store b) !! p = None
  | None => True
  end ->
  WebhookServer.handle_callback_query ev cq b
  = ({| WebhookServer.store := WebhookServer.store b;
        WebhookServer.user_photos := WebhookServer.user_photos b;
        WebhookServer.outbox :=
          WebhookServer.outbox b
            ++ [ answerCallbackQuery (id cq);
                 editMessageText (message_chat_id cq) (message_message_id cq)
                   "❌ Photo expired. Please send a new photo." None ] |},
     Ok tt).
Proof.
  intros Hguard. unfold WebhookServer.handle_callback_query.
  unfold try_except at 1, bind at 1, WebhookServer.api_request at 1.
  unfold bind at 1, WebhookServer.get_photo.
  cbn [WebhookServer.user_photos WebhookServer.store WebhookServer.outbox].
  destruct (WebhookServer.user_photos b !! from_id cq) as [p|] eqn:Hp.
  - destruct (String.eqb p EmptyString) eqn:Hempty.
    + unfold bind, ret, WebhookServer.edit_message_text, try_except,
        WebhookServer.api_request.
      cbn [WebhookServer.user_photos WebhookServer.store WebhookServer.outbox].
      rewrite <- app_assoc. reflexivity.
    + destruct Hguard as [-> | Hmissing]; [discriminate|].
      unfold bind, ret, WebhookServer.os_path_exists,
        WebhookServer.edit_message_text, try_except, WebhookServer.api_request.
      cbn [WebhookServer.user_photos WebhookServer.store WebhookServer.outbox].
      rewrite Hmissing. cbn [WebhookServer.outbox]. rewrite <- app_assoc. reflexivity.
  - unfold bind, ret, WebhookServer.edit_message_text, try_except,
      WebhookServer.api_request.
    cbn [WebhookServer.user_photos WebhookServer.store WebhookServer.outbox].
    rewrite <- app_assoc. reflexivity.
Qed.

(** [TelegramBot.handle_callback] does the same and drops the stale
    session. *)
Lemma telegram_bot_guard (P : TelegramBot.processor) (cq : callback_query)
    (b : TelegramBot.bot) (state : gmap string string) :
  TelegramBot.user_states b !! from_id cq = Some state ->
  match state !! "photo_path" with
  | Some p => p = EmptyString \/ files (TelegramBot.store b) !! p = None
  | None => True
  end ->
  TelegramBot.handle_callback P cq b
  = ({| TelegramBot.store := TelegramBot.store b;
        TelegramBot.user_states := delete (from_id cq) (TelegramBot.user_states b);
        TelegramBot.outbox :=
          TelegramBot.outbox b
            ++ [ answerCallbackQuery (id cq);
                 editMessageText (message_chat_id cq) (message_message_id cq)
                   "❌ Photo file expired. Please send a new photo!" None ] |},
     Ok tt).
Proof.
  intros Hstate Hguard. unfold TelegramBot.handle_callback.
  unfold bind at 1, TelegramBot.api_request at 1.
  unfold try_except at 1, bind at 1, TelegramBot.get_user_state.
  cbn [TelegramBot.user_states TelegramBot.store TelegramBot.outbox].
  rewrite Hstate.
  destruct (state !! "photo_path") as [p|] eqn:Hp.
  - destruct (String.eqb p EmptyString) eqn:Hempty.
    + unfold bind, ret, TelegramBot.edit_message_text, TelegramBot.del_user_state,
        TelegramBot.api_request.
      cbn [TelegramBot.user_states TelegramBot.store TelegramBot.outbox].
      rewrite <- app_assoc. reflexivity.
    + destruct Hguard as [-> | Hmissing]; [discriminate|].
      unfold bind, ret, TelegramBot.os_path_exists, TelegramBot.edit_message_text,
        TelegramBot.del_user_state, TelegramBot.api_request.
      cbn [TelegramBot.user_states TelegramBot.store TelegramBot.outbox].
      rewrite Hmissing.
      cbn [TelegramBot.user_states TelegramBot.store TelegramBot.outbox].
      rewrite <- app_assoc. reflexivity.
  - unfold bind, ret, TelegramBot.edit_message_text, TelegramBot.del_user_state,
      TelegramBot.api_request.
    cbn [TelegramBot.user_states TelegramBot.store TelegramBot.outbox].
    rewrite <- app_assoc. reflexivity.
Qed.

(** [SimpleTelegramBot] only checks that a path is stored. *)
Lemma simple_bot_without_photo (P : SimpleTelegramBot.processor)
    (cq : callback_query) (b : SimpleTelegramBot.bot) :
  match SimpleTelegramBot.user_photos b with
  | Some photos => photos !! from_id cq = None
  | None => True
  end ->
  SimpleTelegramBot.handle_callback_query P cq b
  = ({| SimpleTelegramBot.store := SimpleTelegramBot.store b;
        SimpleTelegramBot.user_photos := SimpleTelegramBot.user_photos b;
        SimpleTelegramBot.outbox :=
          SimpleTelegramBot.outbox b
            ++ [ answerCallbackQuery (id cq);
                 editMessageText (message_chat_id cq) (message_message_id cq)
                   "❌ Please send a photo first!" None ] |},
     Ok tt).
Proof.
  intros Hguard. unfold SimpleTelegramBot.handle_callback_query.
  unfold try_except at 1, bind at 1, SimpleTelegramBot.api_request at 1.
  unfold bind at 1, SimpleTelegramBot.stored_photo.
  cbn [SimpleTelegramBot.user_photos SimpleTelegramBot.store SimpleTelegramBot.outbox].
  destruct (SimpleTelegramBot.user_photos b) as [photos|] eqn:Hphotos.
  - rewrite Hguard.
    unfold SimpleTelegramBot.edit_message_text, SimpleTelegramBot.api_request.
    cbn [SimpleTelegramBot.user_photos SimpleTelegramBot.store SimpleTelegramBot.outbox].
    rewrite <- app_assoc. reflexivity.
  - unfold SimpleTelegramBot.edit_message_text, SimpleTelegramBot.api_request.
    cbn [SimpleTelegramBot.user_photos SimpleTelegramBot.store SimpleTelegramBot.outbox].
    rewrite <- app_assoc. reflexivity.
Qed.

(** C1.  [SimpleTelegramBot.handle_callback_query] does not check that the
    stored file still exists ([webhook_server.py] and [TelegramBot] do): with
    a stored path whose file is gone it enters [process_resize], invokes
    [resize_image] on the missing file and reports a generic failure, not an
    expiry; the two sibling routers report the expiry and invoke nothing. *)
Theorem simple_bot_dispatches_on_missing_file :
  files (SimpleTelegramBot.store stale_simple_bot) !! upload = None
  /\ journal (SimpleTelegramBot.store
               (fst (SimpleTelegramBot.handle_callback_query
                       (SimpleTelegramBot.ai_processor offline_env)
                       (press "resize_720p") stale_simple_bot)))
     = [ Called "resize_image" upload ]
  /\ SimpleTelegramBot.outbox
       (fst (SimpleTelegramBot.handle_callback_query
               (SimpleTelegramBot.ai_processor offline_env)
               (press "resize_720p") stale_simple_bot))
     = [ answerCallbackQuery "cbq-1";
         editMessageText 7 99 "🔄 Resizing image... Please wait." None;
         editMessageText 7 99 "❌ Failed to resize image. Please try again." None ]
  /\ journal (WebhookServer.store
               (fst (WebhookServer.handle_callback_query offline_env
                       (press "resize_720p") stale_server)))
     = []
  /\ WebhookServer.outbox
       (fst (WebhookServer.handle_callback_query offline_env
               (press "resize_720p") stale_server))
     = [ answerCallbackQuery "cbq-1";
         editMessageText 7 99 "❌ Photo expired. Please send a new photo." None ]
  /\ journal (TelegramBot.store
               (fst (TelegramBot.handle_callback
                       (TelegramBot.simple_processor offline_env)
                       (press "resize_720p") stale_telegram_bot)))
     = []
  /\ TelegramBot.outbox
       (fst (TelegramBot.handle_callback
               (TelegramBot.simple_processor offline_env)
               (press "resize_720p") stale_telegram_bot))
     = [ answerCallbackQuery "cbq-1";
         editMessageText 7 99 "❌ Photo file expired. Please send a new photo!" None ].
Proof. repeat split; vm_compute; reflexivity. Qed.

(** ** Leaf handlers *)

Ltac bot_step :=
  unfold SimpleTelegramBot.edit_message_text, SimpleTelegramBot.api_request,
    SimpleTelegramBot.lift, SimpleTelegramBot.send_photo, try_except, bind, ret, raise;
  cbn [SimpleTelegramBot.user_photos SimpleTelegramBot.store SimpleTelegramBot.outbox].

(** C9.  For every leaf handler of [SimpleTelegramBot] (resize, crop,
    remove background, generate background, convert, enhance): when the
    processor method it invokes raises, the handler has edited the status
    message to the progress notice and then to its failure notice, sends
    nothing else, leaves [user_photos] as it was and leaves the disk in the
    state in which that single invocation left it: the method is not invoked
    again. *)
Theorem leaf_handler_reports_failure (P : SimpleTelegramBot.processor)
    (chat_id message_id : Z) (photo_path : string) (l : leaf) (op : M string)
    (b : SimpleTelegramBot.bot) (d' : disk) (e : exn) :
  leaf_operation P photo_path l = Some op ->
  op (SimpleTelegramBot.store b) = (d', Raise e) ->
  leaf_handler P chat_id message_id photo_path l b
  = ({| SimpleTelegramBot.store := d';
        SimpleTelegramBot.user_photos := SimpleTelegramBot.user_photos b;
        SimpleTelegramBot.outbox :=
          SimpleTelegramBot.outbox b
            ++ [ editMessageText chat_id message_id (progress_notice l) None;
                 editMessageText chat_id message_id (failure_notice l) None ] |},
     Ok tt).
Proof.
  intros Hop Hraise.
  destruct l as [action|action| | |action|action];
    cbn [leaf_operation leaf_handler progress_notice failure_notice] in *.
  - unfold SimpleTelegramBot.process_resize.
    destruct (size_map action) as [[width height]|]; [|discriminate].
    injection Hop as <-. bot_step. rewrite Hraise.
    cbn [SimpleTelegramBot.outbox]. rewrite <- app_assoc. reflexivity.
  - unfold SimpleTelegramBot.process_crop.
    injection Hop as <-. bot_step. rewrite Hraise.
    cbn [SimpleTelegramBot.outbox]. rewrite <- app_assoc. reflexivity.
  - unfold SimpleTelegramBot.process_remove_background.
    injection Hop as <-. bot_step. rewrite Hraise.
    cbn [SimpleTelegramBot.outbox]. rewrite <- app_assoc. reflexivity.
  - unfold SimpleTelegramBot.process_generate_background.
    injection Hop as <-. bot_step. rewrite Hraise.
    cbn [SimpleTelegramBot.outbox]. rewrite <- app_assoc. reflexivity.
  - unfold SimpleTelegramBot.process_convert_format.
    destruct (SimpleTelegramBot.format_map action) as [output_format|]; [|discriminate].
    injection Hop as <-. bot_step. rewrite Hraise.
    cbn [SimpleTelegramBot.outbox]. rewrite <- app_assoc. reflexivity.
  - unfold SimpleTelegramBot.process_enhance_resolution.
    destruct (SimpleTelegramBot.resolution_map action) as [target_resolution|];
      [|discriminate].
    injection Hop as <-. bot_step. rewrite Hraise.
    cbn [SimpleTelegramBot.outbox]. rewrite <- app_assoc. reflexivity.
Qed.

Lemma leaf_handler_reports_failure_witness :
  leaf_operation (SimpleTelegramBot.ai_processor offline_env) upload
    (ConvertLeaf "convert_png")
  = Some (AIImageProcessor.convert_format offline_env upload "PNG")
  /\ AIImageProcessor.convert_format offline_env upload "PNG"
       (SimpleTelegramBot.store stale_simple_bot)
     = ({| files := ∅; drawn := 0;
           journal := [Called "convert_format" upload] |},
        Raise (FileNotFoundError upload))
  /\ leaf_handler (SimpleTelegramBot.ai_processor offline_env) 7 99 upload
       (ConvertLeaf "convert_png") stale_simple_bot
     = ({| SimpleTelegramBot.store :=
             {| files := ∅; drawn := 0;
                journal := [Called "convert_format" upload] |};
           SimpleTelegramBot.user_photos := Some {[ 42 := upload ]};
           SimpleTelegramBot.outbox :=
             [ editMessageText 7 99 "🔄 Converting format... Please wait." None;
               editMessageText 7 99 "❌ Failed to convert format. Please try again."
                 None ] |},
        Ok tt).
Proof.
  assert (H1 : leaf_operation (SimpleTelegramBot.ai_processor offline_env) upload
                 (ConvertLeaf "convert_png")
               = Some (AIImageProcessor.convert_format offline_env upload "PNG"))
    by reflexivity.
  assert (H2 : AIImageProcessor.convert_format offline_env upload "PNG"
                 (SimpleTelegramBot.store stale_simple_bot)
               = ({| files := ∅; drawn := 0;
                     journal := [Called "convert_format" upload] |},
                  Raise (FileNotFoundError upload)))
    by reflexivity.
  split; [exact H1|]. split; [exact H2|].
  exact (leaf_handler_reports_failure _ 7 99 upload (ConvertLeaf "convert_png")
           _ stale_simple_bot _ _ H1 H2).
Defined.

(** ** Paths *)

Lemma append_cons (x : ascii) (a b : string) : String x a ++ b = String x (a ++ b).
Proof. reflexivity. Qed.

Lemma append_nil_r (a : string) : a ++ EmptyString = a.
Proof. induction a as [|x a IH]; [reflexivity|]. now rewrite append_cons, IH. Qed.

Lemma append_inv_head (a b c : string) : a ++ b = a ++ c -> b = c.
Proof.
  induction a as [|x a IH]; [trivial|]. rewrite !append_cons.
  intros H. injection H as H. auto.
Qed.

Lemma has_char_app (c : ascii) (a b : string) :
  has_char c (a ++ b) = has_char c a || has_char c b.
Proof.
  induction a as [|x a IH]; [reflexivity|].
  rewrite append_cons. cbn [has_char]. rewrite IH. now rewrite orb_assoc.
Qed.

Lemma after_last_none (c : ascii) (s : string) :
  after_last c s = None <-> has_char c s = false.
Proof.
  induction s as [|x s IH]; cbn [after_last has_char]; [tauto|].
  destruct (after_last c s) as [r|].
  - split; [discriminate|]. intros H. apply orb_false_iff in H as [_ H].
    apply IH in H. discriminate.
  - destruct (ascii_eqb x c); cbn [orb]; [split; discriminate|].
    split; intros _; [now apply IH | reflexivity].
Qed.

Lemma after_last_plain (c : ascii) (s r : string) :
  after_last c s = Some r -> has_char c r = false.
Proof.
  revert r. induction s as [|x s IH]; cbn [after_last]; [discriminate|].
  intros r. destruct (after_last c s) as [r'|] eqn:E.
  - intros H; injection H as <-. now apply IH.
  - destruct (ascii_eqb x c); [|discriminate].
    intros H; injection H as <-. now apply after_last_none.
Qed.

Lemma after_last_app (c : ascii) (a x : string) :
  has_char c x = false -> after_last c (a ++ String c x) = Some x.
Proof.
  intros Hx. induction a as [|y a IH].
  - change (EmptyString ++ String c x) with (String c x). cbn [after_last].
    apply after_last_none in Hx. rewrite Hx.
    unfold ascii_eqb. now rewrite Ascii.eqb_refl.
  - rewrite append_cons. cbn [after_last]. now rewrite IH.
Qed.

Lemma basename_plain (p : string) : has_char slash (basename p) = false.
Proof.
  unfold basename. destruct (after_last slash p) as [r|] eqn:E.
  - now apply after_last_plain in E.
  - now apply after_last_none.
Qed.

Lemma split_last_join (c : ascii) (s a b : string) :
  split_last c s = Some (a, b) -> s = a ++ b /\ exists b', b = String c b'.
Proof.
  revert a b. induction s as [|x s IH]; cbn [split_last]; [discriminate|].
  intros a b. destruct (split_last c s) as [[a' b']|] eqn:E.
  - intros H; injection H as <- <-. destruct (IH a' b' eq_refl) as (-> & Hb).
    split; [reflexivity | exact Hb].
  - destruct (ascii_eqb x c) eqn:Hx; [|discriminate].
    intros H; injection H as <- <-. apply Ascii.eqb_eq in Hx as ->.
    split; [reflexivity | eauto].
Qed.

Lemma splitext_join (p name ext : string) :
  splitext p = (name, ext) ->
  p = name ++ ext /\ (ext = EmptyString \/ exists ext', ext = String dot ext').
Proof.
  unfold splitext. destruct (split_last dot p) as [[root e]|] eqn:E.
  - destruct (split_last_join _ _ _ _ E) as (Hp & e' & He).
    destruct (has_char slash e); [|destruct (all_dots (basename root))].
    + intros H; injection H as <- <-. split; [|now left].
      now rewrite append_nil_r.
    + intros H; injection H as <- <-. split; [|now left].
      now rewrite append_nil_r.
    + intros H; injection H as <- <-. split; [exact Hp | right; eauto].
  - intros H; injection H as <- <-. split; [|now left].
    now rewrite append_nil_r.
Qed.

Lemma plain_not_absolute (s : string) :
  has_char slash s = false -> startswith s "/" = false.
Proof.
  destruct s as [|c s]; [reflexivity|]. cbn [has_char]. intros H.
  apply orb_false_iff in H as [H _]. rewrite startswith_slash_cons.
  destruct (ascii_dec "/" c) as [<-|]; [discriminate | reflexivity].
Qed.

(** Decimal numerals contain no slash. *)
Lemma string_of_uint_plain (d : Decimal.uint) :
  has_char slash (NilEmpty.string_of_uint d) = false.
Proof. induction d; cbn [NilEmpty.string_of_uint has_char]; auto. Qed.

Lemma str_plain (n : Z) : has_char slash (str n) = false.
Proof.
  unfold str, NilZero.string_of_int.
  destruct (Z.to_int n) as [d|d]; unfold NilZero.string_of_uint.
  - destruct d; try reflexivity; apply string_of_uint_plain.
  - cbn [has_char]. destruct d; try reflexivity; apply string_of_uint_plain.
Qed.

(** The name [_get_output_path] builds is never the input path itself, as
    long as the suffix and the new extension contain no slash. *)
Lemma get_output_path_in_processed (input suffix : string) (extension : option string) :
  has_char slash suffix = false ->
  match extension with Some e => has_char slash e = false | None => True end ->
  exists name,
    SimpleImageProcessor._get_output_path input suffix extension = "processed/" ++ name
    /\ has_char slash name = false
    /\ forall stem ext, splitext (basename input) = (stem, ext) ->
         exists rest, name = stem ++ String "_" rest.
Proof.
  intros Hs He. unfold SimpleImageProcessor._get_output_path.
  destruct (splitext (basename input)) as [stem orig_ext] eqn:E.
  destruct (splitext_join _ _ _ E) as (Hb & _).
  pose proof (basename_plain input) as Hplain. rewrite Hb, has_char_app in Hplain.
  apply orb_false_iff in Hplain as [Hstem Hext].
  set (new_ext := match extension with
                  | Some e => if String.eqb e EmptyString then orig_ext else "." ++ e
                  | None => orig_ext
                  end).
  assert (Hnew : has_char slash new_ext = false).
  { subst new_ext. destruct extension as [e|]; [|exact Hext].
    destruct (String.eqb e EmptyString); [exact Hext|]. exact He. }
  exists (stem ++ "_" ++ suffix ++ new_ext).
  assert (Hname : has_char slash (stem ++ "_" ++ suffix ++ new_ext) = false).
  { rewrite !has_char_app, Hstem, Hs, Hnew. reflexivity. }
  split; [|split].
  - apply os_path_join_processed. now apply plain_not_absolute.
  - exact Hname.
  - intros stem' ext' H; injection H as <- <-. eexists. reflexivity.
Qed.

Lemma get_output_path_differs (input suffix : string) (extension : option string) :
  has_char slash suffix = false ->
  match extension with Some e => has_char slash e = false | None => True end ->
  SimpleImageProcessor._get_output_path input suffix extension <> input.
Proof.
  intros Hs He Heq.
  destruct (get_output_path_in_processed input suffix extension Hs He)
    as (name & Hpath & Hplain & Hstem).
  destruct (splitext (basename input)) as [stem ext] eqn:E.
  destruct (Hstem stem ext eq_refl) as (rest & Hname).
  destruct (splitext_join _ _ _ E) as (Hb & Hext).
  assert (Hbase : basename input = name).
  { rewrite <- Heq at 1. rewrite Hpath. unfold basename.
    change ("processed/" ++ name) with ("processed" ++ String slash name).
    now rewrite after_last_app. }
  rewrite Hbase, Hname in Hb. apply append_inv_head in Hb.
  destruct Hext as [-> | (ext' & ->)]; discriminate.
Qed.

(** ** Where the operations write *)

Section Confinement.
  (** Names are drawn from index [lo] on; [allowed] are the paths the
    computation may write. *)
Variable lo : nat.
Variable allowed : string -> Prop.

Lemma confined_framed (m : M string) : confined lo allowed m -> framed lo allowed m.
Proof. intros H d Hd. destruct (H d Hd) as (H1 & H2 & _). auto. Qed.

Lemma framed_ret {A} (a : A) : framed lo allowed (ret a).
Proof. intros d Hd. cbn. auto. Qed.

Lemma framed_raise {A} (e : exn) : framed lo allowed (@raise disk A e).
Proof. intros d Hd. cbn. auto. Qed.

Lemma framed_note (e : journal_entry) : framed lo allowed (note e).
Proof. intros d Hd. cbn. auto. Qed.

Lemma framed_read_file (path : string) : framed lo allowed (read_file path).
Proof. intros d Hd. unfold read_file. destruct (files d !! path); cbn; auto. Qed.

Lemma framed_Image_open (path : string) : framed lo allowed (Image_open path).
Proof.
  intros d Hd. unfold Image_open.
  destruct (files d !! path) as [[]|]; cbn; auto.
Qed.

Lemma framed_resize (img : image) (w h : Z) : framed lo allowed (resize img w h).
Proof. intros d Hd. unfold resize. destruct (_ || _); cbn; auto. Qed.

Lemma framed_crop (img : image) (x0 y0 x1 y1 : Z) : framed lo allowed (crop img x0 y0 x1 y1).
Proof.
  intros d Hd. unfold crop. destruct (_ <? _); [cbn; auto|].
  destruct (_ <? _); cbn; auto.
Qed.

Lemma framed_bind {A B} (m : M A) (k : A -> M B) :
  framed lo allowed m -> (forall a, framed lo allowed (k a)) -> framed lo allowed (bind m k).
Proof.
  intros Hm Hk d Hd. unfold bind. destruct (Hm d Hd) as (H1 & H2).
  destruct (m d) as [d1 [a|e]]; cbn [fst snd] in *.
  - destruct (Hk a d1 H1) as (H3 & H4). split; [exact H3|].
    intros p Hp. rewrite H4, H2; auto.
  - auto.
Qed.

Lemma framed_requests_post (url : string) (api : file -> http_outcome)
    (path : string) (body : file) : framed lo allowed (requests_post url api path body).
Proof.
  unfold requests_post. apply framed_bind; [apply framed_note|]. intros _.
  destruct (api body); [apply framed_raise | apply framed_ret].
Qed.

Lemma confined_raise (e : exn) : confined lo allowed (raise e).
Proof.
  intros d Hd. cbn. split; [exact Hd|]. split; [auto | discriminate].
Qed.

Lemma confined_bind {A} (m : M A) (k : A -> M string) :
  framed lo allowed m -> (forall a, confined lo allowed (k a)) -> confined lo allowed (bind m k).
Proof.
  intros Hm Hk d Hd. unfold bind. destruct (Hm d Hd) as (H1 & H2).
  destruct (m d) as [d1 [a|e]]; cbn [fst snd] in *.
  - destruct (Hk a d1 H1) as (H3 & H4 & H5). split; [exact H3|]. split.
    + intros p Hp. rewrite H4, H2; auto.
    + exact H5.
  - split; [exact H1|]. split; [exact H2 | discriminate].
Qed.

Lemma confined_try (body : M string) (handler : exn -> M string) :
  confined lo allowed body -> (forall e, confined lo allowed (handler e)) ->
  confined lo allowed (try_except body handler).
Proof.
  intros Hb Hh d Hd. unfold try_except. destruct (Hb d Hd) as (H1 & H2 & H3).
  destruct (body d) as [d1 [a|e]]; cbn [fst snd] in *.
  - auto.
  - destruct (Hh e d1 H1) as (H4 & H5 & H6). split; [exact H4|]. split.
    + intros p Hp. rewrite H5, H2; auto.
    + exact H6.
Qed.

Lemma confined_return (m : M string) : confined lo allowed m -> confined lo allowed (bind m (fun p => ret p)).
Proof.
  intros Hm d Hd. unfold bind, ret. destruct (Hm d Hd) as (H1 & H2 & H3).
  destruct (m d) as [d1 [a|e]]; cbn [fst snd] in *; auto.
Qed.

Lemma confined_write_ret (path : string) (f : file) :
  allowed path -> confined lo allowed (bind (write_file path f) (fun _ => ret path)).
Proof.
  intros Ha d Hd. unfold bind, write_file, ret. cbn [fst snd files drawn].
  split; [exact Hd|]. split.
  - intros p Hp. apply lookup_insert_ne. intros <-. contradiction.
  - intros out H; injection H as <-. split; [exact Ha|].
    rewrite lookup_insert_eq. eauto.
Qed.

Lemma framed_spoil (path : string) (e : exn) : allowed path -> framed lo allowed (spoil path e).
Proof.
  intros Ha d Hd. unfold spoil. destruct (files d !! path); cbn; [|auto].
  split; [exact Hd|]. intros p Hp. apply lookup_insert_ne. intros <-. contradiction.
Qed.

Lemma spoil_raises (path : string) (e : exn) (d : disk) : snd (spoil path e d) = Raise e.
Proof. unfold spoil. destruct (files d !! path); reflexivity. Qed.

Lemma confined_save_ret ev (img : image) (path : string) (fmt : format) :
  allowed path -> confined lo allowed (bind (save ev img path fmt) (fun _ => ret path)).
Proof.
  intros Ha.
  assert (Hspoil : forall e, confined lo allowed (bind (spoil path e) (fun _ => ret path))).
  { intros e d Hd. unfold bind. pose proof (framed_spoil path e Ha d Hd) as (H1 & H2).
    pose proof (spoil_raises path e d) as H3.
    destruct (spoil path e d) as [d1 r]; cbn [fst snd] in *. subst r.
    cbn [fst snd]. split; [exact H1|]. split; [exact H2 | discriminate]. }
  unfold save. destruct (width img); try apply Hspoil.
  destruct (height img); try apply Hspoil.
  destruct (writes ev fmt (mode img)); [|apply Hspoil].
  now apply confined_write_ret.
Qed.

Lemma confined_save_by_ext_ret ev (img : image) (path : string) :
  allowed path -> confined lo allowed (bind (save_by_ext ev img path) (fun _ => ret path)).
Proof.
  intros Ha. unfold save_by_ext. destruct (format_of_path ev path).
  - now apply confined_save_ret.
  - intros d Hd. cbn. split; [exact Hd|]. split; [auto | discriminate].
Qed.

End Confinement.

(** *** [AIImageProcessor] *)

Lemma confined_generate ev lo prefix extension (k : string -> M string) :
  startswith prefix "/" = false ->
  (forall n, (lo <= n)%nat ->
             confined lo (generated_from ev lo)
               (k (prefix ++ "_" ++ fst (now_uuid ev n) ++ "_"
                     ++ snd (now_uuid ev n) ++ "." ++ extension))) ->
  confined lo (generated_from ev lo)
    (bind (AIImageProcessor._generate_filename ev prefix extension) k).
Proof.
  intros Hp Hk d Hd. unfold bind. rewrite generate_filename_run.
  destruct (Hk (drawn d) Hd {| files := files d; drawn := S (drawn d);
                               journal := journal d |}) as (H1 & H2 & H3);
    cbn [drawn files] in *; [lia|].
  auto.
Qed.

Lemma generated_from_intro ev lo n prefix extension :
  (lo <= n)%nat -> startswith prefix "/" = false ->
  generated_from ev lo
    (os_path_join AIImageProcessor.processed_dir
       (prefix ++ "_" ++ fst (now_uuid ev n) ++ "_" ++ snd (now_uuid ev n)
          ++ "." ++ extension)).
Proof. intros Hn Hp. exists n, prefix, extension. auto. Qed.

Lemma framed_upscale_loop lo (allowed : string -> Prop) (budget : nat)
    (scale_factor current_scale : Q) (img : image) :
  framed lo allowed
    (AIImageProcessor.upscale_loop budget scale_factor current_scale img).
Proof.
  revert current_scale img. induction budget as [|budget IH]; intros cs img;
    cbn [AIImageProcessor.upscale_loop]; destruct (Qgtb scale_factor cs).
  - apply framed_raise.
  - apply framed_ret.
  - apply framed_bind; [apply framed_resize|]. intros img'. apply IH.
  - apply framed_ret.
Qed.

(** Follow the structure of a method: quiet steps, branches, and the final
    generate-save-return. *)
Ltac confine :=
  repeat lazymatch goal with
  | |- confined _ _ (try_except _ _) => apply confined_try; [|intros ?]
  | |- confined _ _ (raise _) => apply confined_raise
  | |- confined _ _ (bind (note _) _) =>
      apply confined_bind; [apply framed_note | intros ?]
  | |- confined _ _ (bind (Image_open _) _) =>
      apply confined_bind; [apply framed_Image_open | intros ?]
  | |- confined _ _ (bind (read_file _) _) =>
      apply confined_bind; [apply framed_read_file | intros ?]
  | |- confined _ _ (bind (resize _ _ _) _) =>
      apply confined_bind; [apply framed_resize | intros ?]
  | |- confined _ _ (bind (crop _ _ _ _ _) _) =>
      apply confined_bind; [apply framed_crop | intros ?]
  | |- confined _ _ (bind (requests_post _ _ _ _) _) =>
      apply confined_bind; [apply framed_requests_post | intros ?]
  | |- confined _ _ (bind (AIImageProcessor._generate_filename _ _ _) _) =>
      apply confined_generate; [reflexivity | intros ? ?]
  | |- confined _ _ (bind (save _ _ _ _) (fun _ => ret _)) =>
      apply confined_save_ret
  | |- confined _ _ (bind (save_by_ext _ _ _) (fun _ => ret _)) =>
      apply confined_save_by_ext_ret
  | |- confined _ _ (bind (write_file _ _) (fun _ => ret _)) =>
      apply confined_write_ret
  | |- confined _ _ (if ?c then _ else _) => destruct c
  | |- confined _ _ (let '(_, _) := ?p in _) => destruct p
  | |- confined _ _ (match ?x with _ => _ end) => destruct x
  | |- generated_from _ _ _ => apply generated_from_intro; [assumption | reflexivity]
  end.

Lemma ai_remove_background_local_confined ev lo path :
  confined lo (generated_from ev lo) (AIImageProcessor.remove_background_local ev path).
Proof. unfold AIImageProcessor.remove_background_local. confine. Qed.

Lemma ai_generate_background_local_confined ev lo path :
  confined lo (generated_from ev lo) (AIImageProcessor.generate_background_local ev path).
Proof. unfold AIImageProcessor.generate_background_local, size. confine. Qed.

Lemma ai_remove_background_removebg_confined ev lo path :
  confined lo (generated_from ev lo) (AIImageProcessor.remove_background_removebg ev path).
Proof.
  unfold AIImageProcessor.remove_background_removebg. confine;
    apply ai_remove_background_local_confined.
Qed.

Lemma ai_generate_background_photoroom_confined ev lo path prompt :
  confined lo (generated_from ev lo)
    (AIImageProcessor.generate_background_photoroom ev path prompt).
Proof.
  unfold AIImageProcessor.generate_background_photoroom. confine;
    try apply ai_generate_background_local_confined.
  apply confined_bind.
  - apply confined_framed, ai_remove_background_removebg_confined.
  - intros no_bg_path. confine. apply ai_generate_background_local_confined.
Qed.

Lemma ai_resize_image_confined ev lo path width height :
  confined lo (generated_from ev lo) (AIImageProcessor.resize_image ev path width height).
Proof. unfold AIImageProcessor.resize_image, size. confine. Qed.

Lemma ai_smart_crop_confined ev lo path crop_type :
  confined lo (generated_from ev lo) (AIImageProcessor.smart_crop ev path crop_type).
Proof. unfold AIImageProcessor.smart_crop, size. confine. Qed.

Lemma ai_convert_format_confined ev lo path target_format :
  confined lo (generated_from ev lo)
    (AIImageProcessor.convert_format ev path target_format).
Proof. unfold AIImageProcessor.convert_format. confine. Qed.

Lemma ai_enhance_quality_ai_confined ev lo path target_resolution :
  confined lo (generated_from ev lo)
    (AIImageProcessor.enhance_quality_ai ev path target_resolution).
Proof.
  unfold AIImageProcessor.enhance_quality_ai, size. confine.
  all: apply confined_bind; [|intros ?; confine].
  all: match goal with
       | |- framed _ _ (if ?c then _ else _) => destruct c
       end.
  all: first [ apply framed_resize
             | apply framed_bind;
               [apply framed_upscale_loop | intros ?; apply framed_resize] ].
Qed.

Lemma ai_operation_confined ev lo (o : operation) (input : string) :
  confined lo (generated_from ev lo) (ai_operation ev o input).
Proof.
  destruct o; cbn [ai_operation].
  - apply ai_resize_image_confined.
  - apply ai_smart_crop_confined.
  - apply ai_convert_format_confined.
  - apply ai_enhance_quality_ai_confined.
  - apply ai_remove_background_removebg_confined.
  - apply ai_generate_background_photoroom_confined.
Qed.

(** *** [SimpleImageProcessor] *)

Lemma derived_from_intro (input suffix : string) (extension : option string) :
  has_char slash suffix = false ->
  match extension with Some e => has_char slash e = false | None => True end ->
  derived_from input (SimpleImageProcessor._get_output_path input suffix extension).
Proof. intros Hs He. exists suffix, extension. auto. Qed.

Lemma simple_resize_image_confined ev path width height :
  confined 0 (derived_from path) (SimpleImageProcessor.resize_image ev path width height).
Proof.
  unfold SimpleImageProcessor.resize_image, size. confine.
  apply derived_from_intro; [|exact Logic.I].
  rewrite !has_char_app, !str_plain. reflexivity.
Qed.

Lemma simple_smart_crop_confined ev path mode :
  has_char slash mode = false ->
  confined 0 (derived_from path) (SimpleImageProcessor.smart_crop ev path mode).
Proof.
  intros Hm. unfold SimpleImageProcessor.smart_crop, size. confine.
  apply derived_from_intro; [|exact Logic.I].
  rewrite has_char_app, Hm. reflexivity.
Qed.

Lemma simple_remove_background_confined ev path :
  confined 0 (derived_from path) (SimpleImageProcessor.remove_background ev path).
Proof.
  unfold SimpleImageProcessor.remove_background. confine.
  apply confined_return. confine; now apply derived_from_intro.
Qed.

Lemma simple_generate_background_confined ev path :
  confined 0 (derived_from path) (SimpleImageProcessor.generate_background ev path).
Proof.
  unfold SimpleImageProcessor.generate_background, size. confine.
  now apply derived_from_intro.
Qed.

Lemma simple_enhance_quality_confined ev path :
  confined 0 (derived_from path) (SimpleImageProcessor.enhance_quality ev path).
Proof.
  unfold SimpleImageProcessor.enhance_quality. confine.
  now apply derived_from_intro.
Qed.

Lemma simple_convert_format_confined ev path format :
  has_char slash format = false ->
  confined 0 (derived_from path) (SimpleImageProcessor.convert_format ev path format).
Proof.
  intros Hf. unfold SimpleImageProcessor.convert_format. confine.
  repeat match goal with
         | |- confined _ _ (bind (if ?c then _ else _) _) => destruct c
         end.
  all: confine.
  all: now apply derived_from_intro.
Qed.

Lemma simple_operation_confined ev (o : operation) (input : string) :
  plain_parameters o ->
  confined 0 (derived_from input) (simple_operation ev o input).
Proof.
  destruct o; cbn [simple_operation plain_parameters]; intros Hplain.
  - apply simple_resize_image_confined.
  - now apply simple_smart_crop_confined.
  - now apply simple_convert_format_confined.
  - apply simple_enhance_quality_confined.
  - apply simple_remove_background_confined.
  - apply simple_generate_background_confined.
Qed.

(** The menus only send plain parameters. *)
Lemma lower_ascii_slash (c : ascii) : ascii_eqb (lower_ascii c) slash = ascii_eqb c slash.
Proof. destruct c as [[] [] [] [] [] [] [] []]; reflexivity. Qed.

Lemma has_char_slash_lower (s : string) : has_char slash (lower s) = has_char slash s.
Proof.
  induction s as [|c s IH]; [reflexivity|].
  cbn [lower has_char]. now rewrite lower_ascii_slash, IH.
Qed.

Lemma menu_parameters_plain (o : operation) : menu_operation o -> plain_parameters o.
Proof.
  destruct o; cbn [menu_operation plain_parameters]; trivial.
  - unfold crop_styles. cbn [In].
    intros [<-|[<-|[<-|[<-|[]]]]]; reflexivity.
  - unfold convert_formats. cbn [In]. rewrite <- has_char_slash_lower.
    intros [<-|[<-|[<-|[]]]]; reflexivity.
Qed.

(** A confined computation writes elsewhere than at a path that is not
    allowed, provided the allowed paths lie in [processed/]. *)
Lemma confined_writes_elsewhere lo (allowed : string -> Prop) (m : M string)
    (input : string) (d : disk) :
  confined lo allowed m ->
  (lo <= drawn d)%nat ->
  ~ allowed input ->
  (forall p, allowed p -> startswith p "processed/" = true) ->
  writes_elsewhere input m d.
Proof.
  intros Hm Hd Hinput Hdir. destruct (Hm d Hd) as (_ & Hframe & Hout). split.
  - now apply Hframe.
  - intros out Hok. destruct (Hout out Hok) as (Hallowed & Hsome).
    split; [now apply Hdir|]. split; [|exact Hsome].
    intros ->. contradiction.
Qed.



(** *** The unrolled [while] loop *)

Lemma Qgtb_true (x y : Q) : Qgtb x y = true <-> (y < x)%Q.
Proof.
  unfold Qgtb. rewrite negb_true_iff. split.
  - intros H. apply Qnot_le_lt. intros Hle.
    apply Qle_bool_iff in Hle. congruence.
  - intros H. destruct (Qle_bool x y) eqn:E; [|reflexivity].
    apply Qle_bool_iff in E. exfalso. exact (Qlt_not_le _ _ H E).
Qed.

Lemma Qgtb_false (x y : Q) : Qgtb x y = false <-> (x <= y)%Q.
Proof.
  unfold Qgtb. rewrite negb_false_iff. apply Qle_bool_iff.
Qed.

Lemma pow2_succ (b : nat) :
  (inject_Z (2 ^ Z.of_nat (S b)) == 2 * inject_Z (2 ^ Z.of_nat b))%Q.
Proof.
  rewrite Nat2Z.inj_succ, Z.pow_succ_r by lia.
  now rewrite inject_Z_mult.
Qed.

Lemma pow2_ge_1 (b : nat) : (1 <= inject_Z (2 ^ Z.of_nat b))%Q.
Proof.
  change 1%Q with (inject_Z 1). rewrite <- Zle_Qle.
  assert (0 < 2 ^ Z.of_nat b) by (apply Z.pow_pos_nonneg; lia). lia.
Qed.

(** With [scale_factor <= current_scale * 2 ^ budget] the loop runs out
    before the budget does: every pass but the last doubles
    [current_scale], and the last one makes it [scale_factor]. *)
Lemma upscale_loop_within_budget (budget : nat) :
  forall (scale_factor current_scale : Q) (img : image) (d : disk),
    (0 < current_scale)%Q ->
    (scale_factor <= current_scale * inject_Z (2 ^ Z.of_nat budget))%Q ->
    snd (AIImageProcessor.upscale_loop budget scale_factor current_scale img d)
      <> Raise LoopBudgetExhausted.
Proof.
  induction budget as [|b IH]; intros sf cs img d Hpos Hle.
  - cbn [AIImageProcessor.upscale_loop].
    destruct (Qgtb sf cs) eqn:E; [|discriminate].
    apply Qgtb_true in E. exfalso.
    change (inject_Z (2 ^ Z.of_nat 0)) with 1%Q in Hle.
    rewrite Qmult_1_r in Hle. exact (Qlt_not_le _ _ E Hle).
  - cbn [AIImageProcessor.upscale_loop].
    destruct (Qgtb sf cs) eqn:E; [|discriminate].
    apply Qgtb_true in E.
    set (step_scale := py_min (inject_Z 2) (sf / cs)%Q).
    unfold bind, resize.
    destruct ((_ <? 1) || (_ <? 1)); [discriminate|].
    cbn [ret]. apply IH.
    + assert (0 < step_scale)%Q.
      { unfold step_scale, py_min.
        destruct (Qgtb (inject_Z 2) (sf / cs)); [|reflexivity].
        apply Qlt_shift_div_l; [exact Hpos|].
        rewrite Qmult_0_l. now apply Qlt_trans with cs. }
      rewrite <- (Qmult_0_l step_scale).
      now apply Qmult_lt_compat_r.
    + unfold step_scale, py_min.
      destruct (Qgtb (inject_Z 2) (sf / cs)) eqn:E2.
      * assert (Hcs : ~ (cs == 0)%Q).
        { intros H0. rewrite H0 in Hpos. exact (Qlt_irrefl _ Hpos). }
        rewrite Qmult_div_r by exact Hcs.
        rewrite <- (Qmult_1_r sf) at 1.
        apply Qmult_le_l; [now apply Qlt_trans with cs | apply pow2_ge_1].
      * rewrite pow2_succ in Hle.
        change (inject_Z 2) with 2%Q.
        now rewrite <- Qmult_assoc.
Qed.

(** The unrolling of [enhance_quality_ai] is long enough. *)
Lemma upscale_budget_suffices (scale_factor : Q) (img : image) (d : disk) :
  snd (AIImageProcessor.upscale_loop (AIImageProcessor.upscale_budget scale_factor)
         scale_factor 1%Q img d)
    <> Raise LoopBudgetExhausted.
Proof.
  apply upscale_loop_within_budget; [reflexivity|].
  rewrite Qmult_1_l. unfold AIImageProcessor.upscale_budget.
  rewrite Z2Nat.id by apply Z.log2_up_nonneg.
  apply Qle_trans with (inject_Z (Qceiling scale_factor)); [apply Qle_ceiling|].
  rewrite <- Zle_Qle.
  destruct (Z_lt_le_dec 1 (Qceiling scale_factor)) as [Hbig|Hsmall].
  - now apply Z.log2_up_spec.
  - assert (0 < 2 ^ Z.log2_up (Qceiling scale_factor))
      by (apply Z.pow_pos_nonneg; [lia | apply Z.log2_up_nonneg]).
    lia.
Qed.

(** * Further properties of the processors *)

(** ** [AIImageProcessor]: the remote answers *)

(** X1.  With the Remove.bg credential set, a readable input file and an
    answer of status 200, [remove_background_removebg] posts the file once,
    stores the answer's body unchanged under a generated [removebg_*.png]
    name inside [processed/], returns that path and does not enter
    [remove_background_local]. *)
Theorem removebg_answer_is_persisted ev d path f content :
  truthy (REMOVEBG_API_KEY ev) = true ->
  files d !! path = Some f ->
  removebg_post ev f = Response 200 content ->
  AIImageProcessor.remove_background_removebg ev path d
  = ({| files := <[generated ev (drawn d) "removebg" "png" := content]> (files d);
        drawn := S (drawn d);
        journal := journal d
                     ++ [ Called "remove_background_removebg" path;
                          Posted "https://api.remove.bg/v1.0/removebg" path ] |},
     Ok (generated ev (drawn d) "removebg" "png")).
Proof.
  intros Hkey Hf Hpost. unfold AIImageProcessor.remove_background_removebg.
  rewrite Hkey. cbn [negb]. run_proc. rewrite Hf. run_proc. rewrite Hpost.
  change (200 =? 200) with true. cbv iota. run_proc. tidy_journal. reflexivity.
Qed.

Lemma removebg_answer_is_persisted_witness :
  truthy (REMOVEBG_API_KEY online_env) = true
  /\ files (disk_with (ImageFile JPEG RGB 1280 960)) !! upload
     = Some (ImageFile JPEG RGB 1280 960)
  /\ removebg_post online_env (ImageFile JPEG RGB 1280 960)
     = Response 200 (ImageFile PNG RGBA 1280 960)
  /\ snd (AIImageProcessor.remove_background_removebg online_env upload
            (disk_with (ImageFile JPEG RGB 1280 960)))
     = Ok (generated online_env 0 "removebg" "png").
Proof.
  assert (H1 : truthy (REMOVEBG_API_KEY online_env) = true) by reflexivity.
  assert (H2 : files (disk_with (ImageFile JPEG RGB 1280 960)) !! upload
               = Some (ImageFile JPEG RGB 1280 960)) by reflexivity.
  assert (H3 : removebg_post online_env (ImageFile JPEG RGB 1280 960)
               = Response 200 (ImageFile PNG RGBA 1280 960)) by reflexivity.
  split; [exact H1|]. split; [exact H2|]. split; [exact H3|].
  now rewrite (removebg_answer_is_persisted online_env _ upload _ _ H1 H2 H3).
Defined.

(** What [remove_background_removebg] enters into the journal: its own
    call, at most one request, at most one call of the local method; never a
    background generation. *)
Lemma removebg_journal ev d path fmt m w h :
  files d !! path = Some (ImageFile fmt m w h) ->
  exists rest,
    journal (fst (AIImageProcessor.remove_background_removebg ev path d))
    = (journal d ++ Called "remove_background_removebg" path :: rest)%list
    /\ Forall (fun e => e <> Called "generate_background_local" path) rest.
Proof.
  intros Hf. unfold AIImageProcessor.remove_background_removebg.
  unfold bind at 1. unfold note at 1.
  destruct (truthy (REMOVEBG_API_KEY ev)); cbn [negb].
  2:{ rewrite (ai_remove_background_local_run ev _ path fmt m w h) by exact Hf.
      tidy_journal. eexists. split; [reflexivity|].
      repeat constructor; discriminate. }
  unfold try_except, bind at 1. unfold read_file. cbn [files]. rewrite Hf.
  unfold bind at 1. unfold requests_post, bind at 1, note.
  cbn [files drawn journal].
  destruct (removebg_post ev (ImageFile fmt m w h)) as [|status_code content].
  - unfold raise.
    rewrite (ai_remove_background_local_run ev _ path fmt m w h) by exact Hf.
    tidy_journal. eexists. split; [reflexivity|].
    repeat constructor; discriminate.
  - unfold ret. destruct (status_code =? 200).
    + run_proc. tidy_journal. eexists. split; [reflexivity|].
      repeat constructor; discriminate.
    + rewrite (ai_remove_background_local_run ev _ path fmt m w h) by exact Hf.
      tidy_journal. eexists. split; [reflexivity|].
      repeat constructor; discriminate.
Qed.

(** X2.  With the PhotoRoom credential set, a decodable input and a
    provider that answers 200, [generate_background_photoroom] removes the
    background first, posts the cut-out it obtained (not the original
    picture) once, stores the answer's body unchanged under a generated
    [photoroom_bg_*.jpg] name inside [processed/] and returns that path; it
    never enters [generate_background_local]. *)
Theorem photoroom_answer_is_persisted ev d path prompt fmt m w h :
  truthy (PHOTOROOM_API_KEY ev) = true ->
  files d !! path = Some (ImageFile fmt m w h) ->
  (forall cutout, exists content, photoroom_post ev cutout = Response 200 content) ->
  exists cutout_path cutout content rest,
    photoroom_post ev cutout = Response 200 content
    /\ startswith cutout_path "processed/" = true
    /\ AIImageProcessor.generate_background_photoroom ev path prompt d
       = ({| files := <[generated ev (S (drawn d)) "photoroom_bg" "jpg" := content]>
                        (<[cutout_path := cutout]> (files d));
             drawn := S (S (drawn d));
             journal :=
               journal d
                 ++ Called "generate_background_photoroom" path
                 :: Called "remove_background_removebg" path
                 :: rest ++ [Posted "https://sdk.photoroom.com/v1/segment" cutout_path] |},
          Ok (generated ev (S (drawn d)) "photoroom_bg" "jpg"))
    /\ Forall (fun e => e <> Called "generate_background_local" path) rest.
Proof.
  intros Hkey Hf Hpost.
  unfold AIImageProcessor.generate_background_photoroom.
  unfold bind at 1. unfold note at 1. rewrite Hkey. cbn [negb].
  unfold try_except, bind at 1.
  match goal with
  | |- context [AIImageProcessor.remove_background_removebg ev path ?d1] =>
      destruct (ai_remove_background_removebg_run ev d1 path fmt m w h Hf)
        as (prefix & f & rest & Hrun & Hprefix & _);
      pose proof (removebg_journal ev d1 path fmt m w h Hf) as Hj
  end.
  rewrite Hrun in Hj |- *. cbn [files drawn journal fst] in Hj |- *.
  destruct (Hpost f) as (content & Hc).
  exists (generated ev (drawn d) prefix "png"), f, content, rest.
  split; [exact Hc|]. split.
  { apply generated_startswith. destruct Hprefix as [-> | ->]; reflexivity. }
  split.
  - unfold bind at 1. unfold read_file at 1. cbn [files]. rewrite lookup_insert_eq.
    unfold bind at 1. unfold requests_post, bind at 1, note. cbn [files drawn journal].
    rewrite Hc. unfold ret. change (200 =? 200) with true. cbv iota.
    run_proc. tidy_journal. reflexivity.
  - destruct Hj as (rest0 & Heq & Hall).
    apply app_inv_head in Heq. injection Heq as <-. exact Hall.
Qed.

Lemma photoroom_answer_is_persisted_witness :
  truthy (PHOTOROOM_API_KEY studio_env) = true
  /\ files (disk_with (ImageFile JPEG RGB 1280 960)) !! upload
     = Some (ImageFile JPEG RGB 1280 960)
  /\ (forall cutout, exists content,
        photoroom_post studio_env cutout = Response 200 content)
  /\ snd (AIImageProcessor.generate_background_photoroom studio_env upload
            "professional gradient" (disk_with (ImageFile JPEG RGB 1280 960)))
     = Ok (generated studio_env 1 "photoroom_bg" "jpg").
Proof.
  assert (H1 : truthy (PHOTOROOM_API_KEY studio_env) = true) by reflexivity.
  assert (H2 : files (disk_with (ImageFile JPEG RGB 1280 960)) !! upload
               = Some (ImageFile JPEG RGB 1280 960)) by reflexivity.
  assert (H3 : forall cutout, exists content,
               photoroom_post studio_env cutout = Response 200 content)
    by (intros cutout; eexists; reflexivity).
  split; [exact H1|]. split; [exact H2|]. split; [exact H3|].
  destruct (photoroom_answer_is_persisted studio_env _ upload "professional gradient"
              JPEG RGB 1280 960 H1 H2 H3) as (p & c & a & rest & _ & _ & Hrun & _).
  now rewrite Hrun.
Defined.

(** ** [AIImageProcessor]: conversions *)

(** The conversion to PNG accepts every decodable image: modes other than
    RGBA and RGB are converted to RGBA first. *)
Lemma ai_convert_format_png_run ev d path fmt m w h target_format :
  files d !! path = Some (ImageFile fmt m w h) ->
  lower target_format = "png" ->
  AIImageProcessor.convert_format ev path target_format d
  = ({| files := <[generated ev (drawn d) ("converted_" ++ target_format) "png"
                     := ImageFile PNG (if mode_in m [RGBA; RGB] then m else RGBA) w h]>
                   (files d);
        drawn := S (drawn d);
        journal := journal d ++ [Called "convert_format" path] |},
     Ok (generated ev (drawn d) ("converted_" ++ target_format) "png")).
Proof.
  intros Hf Hpng. unfold AIImageProcessor.convert_format.
  run_proc. rewrite Hf. run_proc. rewrite Hpng.
  cbn [String.eqb Ascii.eqb Bool.eqb orb].
  destruct m; run_proc; reflexivity.
Qed.

(** The conversion to JPEG of an image whose mode is RGBA, P or a mode the
    JPEG encoder writes. *)
Lemma ai_convert_format_jpeg_run ev d path fmt m w h target_format :
  files d !! path = Some (ImageFile fmt m w h) ->
  In (lower target_format) ["jpg"; "jpeg"] ->
  writes ev JPEG (ai_jpeg_mode m) = true ->
  AIImageProcessor.convert_format ev path target_format d
  = ({| files := <[generated ev (drawn d) ("converted_" ++ target_format) "jpg"
                     := ImageFile JPEG (stored_mode JPEG (ai_jpeg_mode m)) w h]>
                   (files d);
        drawn := S (drawn d);
        journal := journal d ++ [Called "convert_format" path] |},
     Ok (generated ev (drawn d) ("converted_" ++ target_format) "jpg")).
Proof.
  intros Hf Hjpeg Hw. unfold AIImageProcessor.convert_format.
  run_proc. rewrite Hf. run_proc.
  assert (Hb : String.eqb (lower target_format) "jpg"
               || String.eqb (lower target_format) "jpeg" = true).
  { destruct Hjpeg as [<-|[<-|[]]]; reflexivity. }
  rewrite Hb. unfold ai_jpeg_mode in *.
  destruct (mode_in m [RGBA; P]); run_proc; rewrite Hw; reflexivity.
Qed.

(** X3.  Round trip through PNG: for every decodable image, whatever its
    pixel mode, [AIImageProcessor.convert_format] to "png" (in any letter
    case) returns a PNG of mode RGB or RGBA, and converting that file to
    "jpg"/"jpeg" returns a JPEG of mode RGB with the source's size.  (A
    direct conversion to JPEG raises on modes such as LA.) *)
Theorem ai_convert_png_then_jpeg_succeeds ev d path fmt m w h png jpeg :
  files d !! path = Some (ImageFile fmt m w h) ->
  lower png = "png" ->
  In (lower jpeg) ["jpg"; "jpeg"] ->
  exists d1 p1 m1 d2 p2,
    AIImageProcessor.convert_format ev path png d = (d1, Ok p1)
    /\ files d1 !! p1 = Some (ImageFile PNG m1 w h)
    /\ (m1 = RGB \/ m1 = RGBA)
    /\ AIImageProcessor.convert_format ev p1 jpeg d1 = (d2, Ok p2)
    /\ files d2 !! p2 = Some (ImageFile JPEG RGB w h)
    /\ startswith p2 "processed/" = true.
Proof.
  intros Hf Hpng Hjpeg.
  pose proof (ai_convert_format_png_run ev d path fmt m w h png Hf Hpng) as H1.
  set (m1 := if mode_in m [RGBA; RGB] then m else RGBA) in H1.
  assert (Hm1 : m1 = RGB \/ m1 = RGBA) by (destruct m; cbn; auto).
  match type of H1 with _ = (?d1, Ok ?p1) =>
    assert (Hp1 : files d1 !! p1 = Some (ImageFile PNG m1 w h))
      by (cbn [files]; apply lookup_insert_eq);
    assert (Hw : writes ev JPEG (ai_jpeg_mode m1) = true)
      by (destruct Hm1 as [-> | ->]; reflexivity);
    pose proof (ai_convert_format_jpeg_run ev d1 p1 PNG m1 w h jpeg Hp1 Hjpeg Hw) as H2
  end.
  do 5 eexists. split; [exact H1|]. split; [cbn [files]; apply lookup_insert_eq|].
  split; [exact Hm1|]. split; [exact H2|]. split.
  - cbn [files]. rewrite lookup_insert_eq.
    destruct Hm1 as [-> | ->]; reflexivity.
  - apply generated_startswith. reflexivity.
Qed.

Lemma ai_convert_png_then_jpeg_succeeds_witness :
  files (disk_with (ImageFile PNG LA 640 480)) !! upload
  = Some (ImageFile PNG LA 640 480)
  /\ lower "PNG" = "png"
  /\ In (lower "JPEG") ["jpg"; "jpeg"]
  /\ exists d1 p1 d2 p2,
       AIImageProcessor.convert_format offline_env upload "PNG"
         (disk_with (ImageFile PNG LA 640 480)) = (d1, Ok p1)
       /\ AIImageProcessor.convert_format offline_env p1 "JPEG" d1 = (d2, Ok p2)
       /\ files d2 !! p2 = Some (ImageFile JPEG RGB 640 480).
Proof.
  assert (H1 : files (disk_with (ImageFile PNG LA 640 480)) !! upload
               = Some (ImageFile PNG LA 640 480)) by reflexivity.
  assert (H2 : lower "PNG" = "png") by reflexivity.
  assert (H3 : In (lower "JPEG") ["jpg"; "jpeg"]) by (cbn; tauto).
  split; [exact H1|]. split; [exact H2|]. split; [exact H3|].
  destruct (ai_convert_png_then_jpeg_succeeds offline_env _ upload PNG LA 640 480
              "PNG" "JPEG" H1 H2 H3)
    as (d1 & p1 & m1 & d2 & p2 & Ha & _ & _ & Hb & Hc & _).
  exists d1, p1, d2, p2. auto.
Defined.

(** ** [AIImageProcessor.enhance_quality_ai] *)

Lemma py_int_ge_1 (x : Q) : (1 <= x)%Q -> 1 <= py_int x.
Proof.
  unfold py_int, Qle. cbn [Qnum Qden]. intros H.
  apply Z.quot_le_lower_bound; lia.
Qed.

Lemma scaled_side_ge_1 (w : Z) (s : Q) :
  1 <= w -> (1 <= s)%Q -> 1 <= py_int (inject_Z w * s).
Proof.
  intros Hw Hs. apply py_int_ge_1.
  apply Qle_trans with s; [exact Hs|].
  rewrite <- (Qmult_1_l s) at 1.
  apply Qmult_le_compat_r.
  - change 1%Q with (inject_Z 1). now rewrite <- Zle_Qle.
  - apply Qle_trans with 1%Q; [discriminate | exact Hs].
Qed.

Lemma upscale_budget_bound (scale_factor : Q) :
  (scale_factor
   <= 1 * inject_Z (2 ^ Z.of_nat (AIImageProcessor.upscale_budget scale_factor)))%Q.
Proof.
  rewrite Qmult_1_l. unfold AIImageProcessor.upscale_budget.
  rewrite Z2Nat.id by apply Z.log2_up_nonneg.
  apply Qle_trans with (inject_Z (Qceiling scale_factor)); [apply Qle_ceiling|].
  rewrite <- Zle_Qle.
  destruct (Z_lt_le_dec 1 (Qceiling scale_factor)) as [Hbig|Hsmall].
  - now apply Z.log2_up_spec.
  - assert (0 < 2 ^ Z.log2_up (Qceiling scale_factor))
      by (apply Z.pow_pos_nonneg; [lia | apply Z.log2_up_nonneg]).
    lia.
Qed.

(** Every pass of the loop enlarges a non-empty image, so the resampler
    never refuses a step, and the passes end within the budget: the loop
    returns an image of the same mode without touching the disk. *)
Lemma upscale_loop_returns (budget : nat) :
  forall (scale_factor current_scale : Q) (img : image) (d : disk),
    (0 < current_scale)%Q ->
    (scale_factor <= current_scale * inject_Z (2 ^ Z.of_nat budget))%Q ->
    1 <= width img -> 1 <= height img ->
    exists img',
      AIImageProcessor.upscale_loop budget scale_factor current_scale img d
      = (d, Ok img')
      /\ mode img' = mode img.
Proof.
  induction budget as [|b IH]; intros sf cs img d Hpos Hle Hw Hh.
  - cbn [AIImageProcessor.upscale_loop].
    destruct (Qgtb sf cs) eqn:E; [|eexists; split; reflexivity].
    apply Qgtb_true in E. exfalso.
    change (inject_Z (2 ^ Z.of_nat 0)) with 1%Q in Hle.
    rewrite Qmult_1_r in Hle. exact (Qlt_not_le _ _ E Hle).
  - cbn [AIImageProcessor.upscale_loop].
    destruct (Qgtb sf cs) eqn:E; [|eexists; split; reflexivity].
    apply Qgtb_true in E.
    set (step_scale := py_min (inject_Z 2) (sf / cs)%Q).
    assert (Hstep : (1 <= step_scale)%Q).
    { unfold step_scale, py_min.
      destruct (Qgtb (inject_Z 2) (sf / cs)); [|discriminate].
      apply Qle_shift_div_l; [exact Hpos|].
      rewrite Qmult_1_l. now apply Qlt_le_weak. }
    pose proof (scaled_side_ge_1 (width img) step_scale Hw Hstep) as Hw'.
    pose proof (scaled_side_ge_1 (height img) step_scale Hh Hstep) as Hh'.
    unfold bind, resize.
    replace (_ <? 1) with false by (symmetry; apply Z.ltb_ge; exact Hw').
    replace (_ <? 1) with false by (symmetry; apply Z.ltb_ge; exact Hh').
    cbn [orb ret].
    match goal with
    | |- context [AIImageProcessor.upscale_loop b sf ?cs' ?img' d] =>
        destruct (IH sf cs' img' d) as (img'' & Hrun & Hmode)
    end.
    + apply Qlt_le_trans with (cs * 1)%Q.
      * now rewrite Qmult_1_r.
      * apply Qmult_le_l; assumption.
    + unfold step_scale, py_min.
      destruct (Qgtb (inject_Z 2) (sf / cs)) eqn:E2.
      * assert (Hcs : ~ (cs == 0)%Q).
        { intros H0. rewrite H0 in Hpos. exact (Qlt_irrefl _ Hpos). }
        rewrite Qmult_div_r by exact Hcs.
        rewrite <- (Qmult_1_r sf) at 1.
        apply Qmult_le_l; [now apply Qlt_trans with cs | apply pow2_ge_1].
      * rewrite pow2_succ in Hle.
        change (inject_Z 2) with 2%Q.
        now rewrite <- Qmult_assoc.
    + exact Hw'.
    + exact Hh'.
    + exists img''. split; [exact Hrun | exact Hmode].
Qed.

Lemma ai_resolution_map_positive (target_resolution : string) (ow oh : positive) :
  exists tw th,
    AIImageProcessor.resolution_map target_resolution (Z.pos ow) (Z.pos oh)
    = (Z.pos tw, Z.pos th).
Proof.
  unfold AIImageProcessor.resolution_map.
  repeat match goal with
         | |- context [String.eqb ?a ?b] => destruct (String.eqb a b)
         end; do 2 eexists; reflexivity.
Qed.



(** ** [AIImageProcessor.enhance_quality]: the multi-step loop *)

(** Truncation does not depend on how a rational is written. *)
Lemma py_int_Qeq (x y : Q) : (0 <= x)%Q -> (x == y)%Q -> py_int x = py_int y.
Proof.
  unfold py_int, Qle, Qeq. destruct x as [a b], y as [c d]. cbn [Qnum Qden].
  intros Ha Heq. assert (0 <= a) by lia. assert (0 <= c) by nia.
  rewrite !Z.quot_div_nonneg by lia.
  apply Z.div_unique with (r := 0 + ((a mod Z.pos b) * Z.pos d) / Z.pos b); try lia.
  - left. split.
    + apply Z.div_pos; [|lia]. apply Z.mul_nonneg_nonneg; [|lia].
      apply Z.mod_pos_bound. lia.
    + apply Z.div_lt_upper_bound; [lia|].
      pose proof (Z.mod_pos_bound a (Z.pos b) ltac:(lia)). nia.
  - pose proof (Z.div_mod a (Z.pos b) ltac:(lia)) as Hab.
    pose proof (Z.mod_pos_bound a (Z.pos b) ltac:(lia)) as Hr.
    set (q := a / Z.pos b) in *. set (r := a mod Z.pos b) in *.
    assert (Hc : c * Z.pos b = (Z.pos d * q) * Z.pos b + r * Z.pos d) by nia.
    assert (Hdiv : (r * Z.pos d) mod Z.pos b = 0).
    { apply Z.mod_divide; [lia|]. exists (c - Z.pos d * q). nia. }
    pose proof (Z.div_mod (r * Z.pos d) (Z.pos b) ltac:(lia)) as Hrd.
    rewrite Hdiv in Hrd. nia.
Qed.

Lemma py_int_inject (z : Z) : py_int (inject_Z z) = z.
Proof. unfold py_int, inject_Z. cbn [Qnum Qden]. apply Z.quot_1_r. Qed.

(** A loop whose condition fails returns its image. *)
Lemma upscale_loop_done (budget : nat) (sf cs : Q) (img : image) (d : disk) :
  Qgtb sf cs = false ->
  AIImageProcessor.upscale_loop budget sf cs img d = (d, Ok img).
Proof.
  intros H. destruct budget; cbn [AIImageProcessor.upscale_loop]; now rewrite H.
Qed.

(** After [k] doublings the image is [2^k] times the source; the last pass
    scales by what is left, so the loop ends with each side of the source
    scaled by [scale_factor] and truncated once. *)
Lemma upscale_loop_size (budget : nat) :
  forall (sf cs : Q) (img : image) (d : disk) (k w0 h0 : Z),
    0 <= k -> 1 <= w0 -> 1 <= h0 ->
    (cs == inject_Z (2 ^ k))%Q ->
    (cs <= sf)%Q ->
    (sf <= cs * inject_Z (2 ^ Z.of_nat budget))%Q ->
    width img = w0 * 2 ^ k -> height img = h0 * 2 ^ k ->
    AIImageProcessor.upscale_loop budget sf cs img d
    = (d, Ok {| mode := mode img;
                width := py_int (inject_Z w0 * sf);
                height := py_int (inject_Z h0 * sf) |}).
Proof.
  induction budget as [|b IH]; intros sf cs img d k w0 h0 Hk Hw0 Hh0 Hcs Hle Hbud Hw Hh.
  all: assert (Hpow : 0 < 2 ^ k) by (apply Z.pow_pos_nonneg; lia).
  all: assert (Hcspos : (0 < cs)%Q)
         by (rewrite Hcs; change 0%Q with (inject_Z 0); rewrite <- Zlt_Qlt; exact Hpow).
  all: assert (Hdone : Qgtb sf cs = false ->
                       {| mode := mode img; width := py_int (inject_Z w0 * sf);
                          height := py_int (inject_Z h0 * sf) |} = img).
  1,3: intros Hq; apply Qgtb_false in Hq;
       assert (Hsf : (sf == inject_Z (2 ^ k))%Q)
         by (rewrite <- Hcs; apply Qle_antisym; assumption);
       destruct img as [mo wi he]; cbn [mode width height] in *; f_equal.
  1,3: rewrite (py_int_Qeq _ (inject_Z (w0 * 2 ^ k)));
         [rewrite py_int_inject; now symmetry
         | apply Qmult_le_0_compat;
             [change 0%Q with (inject_Z 0); rewrite <- Zle_Qle; lia
             | apply Qle_trans with cs; [now apply Qlt_le_weak | exact Hle]]
         | rewrite Hsf, <- inject_Z_mult; reflexivity ].
  1,2: rewrite (py_int_Qeq _ (inject_Z (h0 * 2 ^ k)));
         [rewrite py_int_inject; now symmetry
         | apply Qmult_le_0_compat;
             [change 0%Q with (inject_Z 0); rewrite <- Zle_Qle; lia
             | apply Qle_trans with cs; [now apply Qlt_le_weak | exact Hle]]
         | rewrite Hsf, <- inject_Z_mult; reflexivity ].
  - destruct (Qgtb sf cs) eqn:E.
    + apply Qgtb_true in E. exfalso.
      change (inject_Z (2 ^ Z.of_nat 0)) with 1%Q in Hbud.
      rewrite Qmult_1_r in Hbud. exact (Qlt_not_le _ _ E Hbud).
    + rewrite upscale_loop_done by exact E. now rewrite Hdone.
  - destruct (Qgtb sf cs) eqn:E.
    2:{ rewrite upscale_loop_done by exact E. now rewrite Hdone. }
    clear Hdone. apply Qgtb_true in E.
    cbn [AIImageProcessor.upscale_loop].
    replace (Qgtb sf cs) with true by (symmetry; now apply Qgtb_true).
    assert (Hcs0 : ~ (cs == 0)%Q).
    { intros H0. rewrite H0 in Hcspos. exact (Qlt_irrefl _ Hcspos). }
    unfold py_min. destruct (Qgtb (inject_Z 2) (sf / cs)) eqn:E2.
    + (* the last pass *)
      assert (Hwq : (inject_Z (width img) * (sf / cs) == inject_Z w0 * sf)%Q).
      { rewrite Hw, inject_Z_mult, <- Hcs. field. exact Hcs0. }
      assert (Hhq : (inject_Z (height img) * (sf / cs) == inject_Z h0 * sf)%Q).
      { rewrite Hh, inject_Z_mult, <- Hcs. field. exact Hcs0. }
      assert (Hstep : (1 <= sf / cs)%Q).
      { apply Qle_shift_div_l; [exact Hcspos|]. now rewrite Qmult_1_l. }
      assert (Hwnn : (0 <= inject_Z (width img) * (sf / cs))%Q).
      { apply Qmult_le_0_compat.
        - change 0%Q with (inject_Z 0). rewrite <- Zle_Qle. rewrite Hw. nia.
        - apply Qle_trans with 1%Q; [discriminate | exact Hstep]. }
      assert (Hhnn : (0 <= inject_Z (height img) * (sf / cs))%Q).
      { apply Qmult_le_0_compat.
        - change 0%Q with (inject_Z 0). rewrite <- Zle_Qle. rewrite Hh. nia.
        - apply Qle_trans with 1%Q; [discriminate | exact Hstep]. }
      assert (Hw1 : 1 <= py_int (inject_Z (width img) * (sf / cs)))
        by (apply scaled_side_ge_1; [rewrite Hw; nia | exact Hstep]).
      assert (Hh1 : 1 <= py_int (inject_Z (height img) * (sf / cs)))
        by (apply scaled_side_ge_1; [rewrite Hh; nia | exact Hstep]).
      unfold bind, resize.
      replace (_ <? 1) with false by (symmetry; apply Z.ltb_ge; exact Hw1).
      replace (_ <? 1) with false by (symmetry; apply Z.ltb_ge; exact Hh1).
      cbn [orb ret].
      rewrite upscale_loop_done.
      * rewrite (py_int_Qeq _ _ Hwnn Hwq), (py_int_Qeq _ _ Hhnn Hhq). reflexivity.
      * apply Qgtb_false. rewrite Qmult_div_r by exact Hcs0. apply Qle_refl.
    + (* a doubling *)
      apply Qgtb_false in E2.
      assert (Hdouble : (cs * inject_Z 2 <= sf)%Q).
      { apply Qle_trans with ((sf / cs) * cs)%Q.
        - rewrite (Qmult_comm cs).
          apply Qmult_le_compat_r; [exact E2 | now apply Qlt_le_weak].
        - rewrite Qmult_comm, Qmult_div_r by exact Hcs0. apply Qle_refl. }
      unfold bind, resize.
      assert (Hwd : py_int (inject_Z (width img) * inject_Z 2) = w0 * 2 ^ (k + 1)).
      { rewrite <- inject_Z_mult, py_int_inject, Hw, Z.pow_add_r by lia.
        change (2 ^ 1) with 2. ring. }
      assert (Hhd : py_int (inject_Z (height img) * inject_Z 2) = h0 * 2 ^ (k + 1)).
      { rewrite <- inject_Z_mult, py_int_inject, Hh, Z.pow_add_r by lia.
        change (2 ^ 1) with 2. ring. }
      assert (Hpow' : 0 < 2 ^ (k + 1)) by (apply Z.pow_pos_nonneg; lia).
      rewrite Hwd, Hhd.
      replace (w0 * 2 ^ (k + 1) <? 1) with false by (symmetry; apply Z.ltb_ge; nia).
      replace (h0 * 2 ^ (k + 1) <? 1) with false by (symmetry; apply Z.ltb_ge; nia).
      cbn [orb ret].
      rewrite (IH sf (cs * inject_Z 2)%Q _ d (k + 1) w0 h0); try lia.
      * reflexivity.
      * rewrite Hcs, <- inject_Z_mult, Z.pow_add_r by lia. reflexivity.
      * exact Hdouble.
      * rewrite pow2_succ in Hbud. change (inject_Z 2) with 2%Q.
        now rewrite <- Qmult_assoc.
      * reflexivity.
      * reflexivity.
Qed.



(** ** Crops *)



(** X7.  [SimpleImageProcessor.smart_crop], for every mode string (unknown
    modes are cut like "square"): the box it cuts lies inside the image, and
    when the box is not empty and the encoder Pillow picks from the output
    name writes the image's mode, the method returns
    [processed/<stem>_cropped_<mode><ext>] holding an image whose size is
    exactly the size of the box. *)
Theorem simple_smart_crop_cuts_the_box ev d path fmt m w h mode x0 y0 x1 y1 f :
  files d !! path = Some (ImageFile fmt m w h) ->
  SimpleImageProcessor.crop_box mode (Z.pos w) (Z.pos h) = (x0, y0, x1, y1) ->
  x0 < x1 -> y0 < y1 ->
  format_of_path ev
    (SimpleImageProcessor._get_output_path path ("cropped_" ++ mode) None) = Some f ->
  writes ev f m = true ->
  box_inside (Z.pos w) (Z.pos h) (x0, y0, x1, y1)
  /\ exists cw ch,
       Z.pos cw = x1 - x0 /\ Z.pos ch = y1 - y0
       /\ SimpleImageProcessor.smart_crop ev path mode d
          = ({| files := <[SimpleImageProcessor._get_output_path path
                             ("cropped_" ++ mode) None
                             := ImageFile f (stored_mode f m) cw ch]> (files d);
                drawn := drawn d;
                journal := journal d ++ [Called "smart_crop" path] |},
             Ok (SimpleImageProcessor._get_output_path path ("cropped_" ++ mode) None)).
Proof.
  intros Hf Hbox Hx Hy Hext Hw. split.
  { rewrite <- Hbox. apply simple_crop_box_inside. }
  destruct (x1 - x0) as [|cw|] eqn:Ew; try lia.
  destruct (y1 - y0) as [|ch|] eqn:Eh; try lia.
  exists cw, ch. split; [reflexivity|]. split; [reflexivity|].
  unfold SimpleImageProcessor.smart_crop. run_proc. rewrite Hf. run_proc.
  rewrite Hbox.
  replace (x1 <? x0) with false by (symmetry; apply Z.ltb_ge; lia).
  replace (y1 <? y0) with false by (symmetry; apply Z.ltb_ge; lia).
  run_proc. rewrite Hext. run_proc. rewrite Ew, Eh, Hw. reflexivity.
Qed.

Lemma simple_smart_crop_cuts_the_box_witness :
  files (disk_with (ImageFile JPEG RGB 1920 1080)) !! upload
  = Some (ImageFile JPEG RGB 1920 1080)
  /\ SimpleImageProcessor.crop_box "portrait" 1920 1080 = (656, 0, 1263, 1080)
  /\ 656 < 1263 /\ 0 < 1080
  /\ format_of_path offline_env
       (SimpleImageProcessor._get_output_path upload ("cropped_" ++ "portrait") None)
     = Some JPEG
  /\ writes offline_env JPEG RGB = true
  /\ files (fst (SimpleImageProcessor.smart_crop offline_env upload "portrait"
                   (disk_with (ImageFile JPEG RGB 1920 1080))))
       !! "processed/temp_42_AgACAgIAAxkBAAM_cropped_portrait.jpg"
     = Some (ImageFile JPEG RGB 607 1080).
Proof.
  assert (H1 : files (disk_with (ImageFile JPEG RGB 1920 1080)) !! upload
               = Some (ImageFile JPEG RGB 1920 1080)) by reflexivity.
  assert (H2 : SimpleImageProcessor.crop_box "portrait" 1920 1080
               = (656, 0, 1263, 1080)) by reflexivity.
  assert (H3 : 656 < 1263) by reflexivity.
  assert (H4 : 0 < 1080) by reflexivity.
  assert (H5 : format_of_path offline_env
                 (SimpleImageProcessor._get_output_path upload
                    ("cropped_" ++ "portrait") None) = Some JPEG) by reflexivity.
  assert (H6 : writes offline_env JPEG RGB = true) by reflexivity.
  split; [exact H1|]. split; [exact H2|]. split; [exact H3|]. split; [exact H4|].
  split; [exact H5|]. split; [exact H6|].
  destruct (simple_smart_crop_cuts_the_box offline_env _ upload JPEG RGB 1920 1080
              "portrait" 656 0 1263 1080 JPEG H1 H2 H3 H4 H5 H6)
    as (_ & cw & ch & Hcw & Hch & Hrun).
  rewrite Hrun. cbn [fst files].
  change (SimpleImageProcessor._get_output_path upload ("cropped_" ++ "portrait") None)
    with "processed/temp_42_AgACAgIAAxkBAAM_cropped_portrait.jpg".
  rewrite lookup_insert_eq.
  injection Hcw as ->. injection Hch as ->. reflexivity.
Defined.

(** X8.  Shapes of the named crops, for every image size: "square" is the
    centred [min(w,h)] square and "landscape" the centred 16:9 box in both
    processors; "portrait" is the centred 9:16 box in
    [SimpleImageProcessor] (one side is the other one scaled and rounded
    down). *)
Theorem named_crop_shapes (w h : positive) :
  (box_size (AIImageProcessor.crop_box "square" (Z.pos w) (Z.pos h))
   = (Z.min (Z.pos w) (Z.pos h), Z.min (Z.pos w) (Z.pos h))
   /\ box_centred (Z.pos w) (Z.pos h)
        (AIImageProcessor.crop_box "square" (Z.pos w) (Z.pos h)))
  /\ (box_size (SimpleImageProcessor.crop_box "square" (Z.pos w) (Z.pos h))
      = (Z.min (Z.pos w) (Z.pos h), Z.min (Z.pos w) (Z.pos h))
      /\ box_centred (Z.pos w) (Z.pos h)
           (SimpleImageProcessor.crop_box "square" (Z.pos w) (Z.pos h)))
  /\ (has_ratio 16 9
        (fst (box_size (AIImageProcessor.crop_box "landscape" (Z.pos w) (Z.pos h))))
        (snd (box_size (AIImageProcessor.crop_box "landscape" (Z.pos w) (Z.pos h))))
      /\ box_centred (Z.pos w) (Z.pos h)
           (AIImageProcessor.crop_box "landscape" (Z.pos w) (Z.pos h)))
  /\ (has_ratio 16 9
        (fst (box_size (SimpleImageProcessor.crop_box "landscape" (Z.pos w) (Z.pos h))))
        (snd (box_size (SimpleImageProcessor.crop_box "landscape" (Z.pos w) (Z.pos h))))
      /\ box_centred (Z.pos w) (Z.pos h)
           (SimpleImageProcessor.crop_box "landscape" (Z.pos w) (Z.pos h)))
  /\ (has_ratio 9 16
        (fst (box_size (SimpleImageProcessor.crop_box "portrait" (Z.pos w) (Z.pos h))))
        (snd (box_size (SimpleImageProcessor.crop_box "portrait" (Z.pos w) (Z.pos h))))
      /\ box_centred (Z.pos w) (Z.pos h)
           (SimpleImageProcessor.crop_box "portrait" (Z.pos w) (Z.pos h))).
Proof.
  split; [apply ai_crop_square|]. split; [apply simple_crop_square|].
  split; [apply ai_crop_landscape|]. split; [apply simple_crop_landscape|].
  apply simple_crop_portrait.
Qed.

(** ** [SimpleImageProcessor]: output names and encoders *)

Lemma split_last_none (c : ascii) (s : string) :
  has_char c s = false -> split_last c s = None.
Proof.
  induction s as [|x s IH]; [reflexivity|]. cbn [has_char split_last].
  intros H. apply orb_false_iff in H as [Hx Hs]. now rewrite IH, Hx.
Qed.

Lemma split_last_app (c : ascii) (a e : string) :
  has_char c e = false ->
  split_last c (a ++ String c e) = Some (a, String c e).
Proof.
  intros He. induction a as [|x a IH].
  - change (EmptyString ++ String c e) with (String c e). cbn [split_last].
    rewrite split_last_none by exact He.
    unfold ascii_eqb. now rewrite Ascii.eqb_refl.
  - rewrite append_cons. cbn [split_last]. now rewrite IH.
Qed.

Lemma all_dots_app (a b : string) : all_dots (a ++ b) = all_dots a && all_dots b.
Proof.
  induction a as [|x a IH]; [reflexivity|].
  rewrite append_cons. cbn [all_dots]. now rewrite IH, andb_assoc.
Qed.

Lemma append_assoc (a b c : string) : (a ++ b) ++ c = a ++ b ++ c.
Proof. induction a as [|x a IH]; [reflexivity|]. now rewrite !append_cons, IH. Qed.

Lemma basename_in_dir (dir name : string) :
  has_char slash name = false -> basename (dir ++ String slash name) = name.
Proof. intros H. unfold basename. now rewrite after_last_app. Qed.

(** A name that ends in a dot followed by an extension without dots or
    slashes splits there, unless everything before that dot is dots. *)
Lemma splitext_extension (root e : string) :
  has_char dot e = false -> has_char slash e = false ->
  all_dots (basename root) = false ->
  splitext (root ++ String dot e) = (root, String dot e).
Proof.
  intros Hd Hs Hroot. unfold splitext. rewrite split_last_app by exact Hd.
  cbn [has_char]. rewrite Hs, Hroot. reflexivity.
Qed.

(** With an extension given, [_get_output_path] builds a name that Pillow
    splits at that extension. *)
Lemma get_output_path_extension (input suffix e : string) :
  has_char slash suffix = false ->
  has_char slash e = false -> has_char dot e = false -> e <> EmptyString ->
  snd (splitext (SimpleImageProcessor._get_output_path input suffix (Some e)))
  = String dot e.
Proof.
  intros Hs He Hd Hne.
  unfold SimpleImageProcessor._get_output_path.
  destruct (splitext (basename input)) as [stem orig_ext] eqn:E.
  destruct (splitext_join _ _ _ E) as (Hb & _).
  pose proof (basename_plain input) as Hplain. rewrite Hb, has_char_app in Hplain.
  apply orb_false_iff in Hplain as [Hstem _].
  apply String.eqb_neq in Hne. rewrite Hne.
  assert (Hname : has_char slash (stem ++ "_" ++ suffix) = false).
  { rewrite !has_char_app, Hstem, Hs. reflexivity. }
  rewrite os_path_join_processed.
  2:{ apply plain_not_absolute. rewrite !has_char_app, Hstem, Hs. cbn [has_char].
      now rewrite He. }
  replace ("processed/" ++ stem ++ "_" ++ suffix ++ "." ++ e)
    with (("processed" ++ String slash (stem ++ "_" ++ suffix)) ++ String dot e).
  2:{ rewrite append_assoc, (append_cons slash), !append_assoc. reflexivity. }
  rewrite splitext_extension; [reflexivity | exact Hd | exact He |].
  rewrite basename_in_dir by exact Hname.
  rewrite all_dots_app. cbn [all_dots]. apply andb_false_r.
Qed.

Lemma get_output_path_png (ev : env) (input suffix : string) :
  has_char slash suffix = false ->
  format_of_path ev (SimpleImageProcessor._get_output_path input suffix (Some "png"))
  = Some PNG.
Proof.
  intros Hs. unfold format_of_path.
  rewrite get_output_path_extension by (try reflexivity; try exact Hs; discriminate).
  reflexivity.
Qed.

(** X9.  [SimpleImageProcessor.remove_background] returns on every
    decodable image, whatever its mode, format and path: it writes an RGBA
    PNG of the source size to [processed/<stem>_no_bg.png], a path inside
    [processed/] other than the input, and leaves every other file as it
    was. *)
Theorem simple_remove_background_returns ev d path fmt m w h :
  files d !! path = Some (ImageFile fmt m w h) ->
  SimpleImageProcessor.remove_background ev path d
  = ({| files := <[SimpleImageProcessor._get_output_path path "no_bg" (Some "png")
                     := ImageFile PNG RGBA w h]> (files d);
        drawn := drawn d;
        journal := journal d ++ [Called "remove_background" path] |},
     Ok (SimpleImageProcessor._get_output_path path "no_bg" (Some "png")))
  /\ startswith (SimpleImageProcessor._get_output_path path "no_bg" (Some "png"))
       "processed/" = true
  /\ SimpleImageProcessor._get_output_path path "no_bg" (Some "png") <> path.
Proof.
  intros Hf. split; [|split].
  - unfold SimpleImageProcessor.remove_background. run_proc. rewrite Hf. run_proc.
    destruct (mode_eqb m RGBA) eqn:Em; run_proc;
      rewrite get_output_path_png by reflexivity; run_proc; [|reflexivity].
    destruct m; try discriminate. reflexivity.
  - destruct (get_output_path_in_processed path "no_bg" (Some "png"))
      as (name & -> & _); try reflexivity. apply startswith_app.
  - now apply get_output_path_differs.
Qed.

Lemma simple_remove_background_returns_witness :
  files (disk_with (ImageFile JPEG CMYK 1280 960)) !! upload
  = Some (ImageFile JPEG CMYK 1280 960)
  /\ files (fst (SimpleImageProcessor.remove_background offline_env upload
                   (disk_with (ImageFile JPEG CMYK 1280 960))))
       !! "processed/temp_42_AgACAgIAAxkBAAM_no_bg.png"
     = Some (ImageFile PNG RGBA 1280 960).
Proof.
  assert (H1 : files (disk_with (ImageFile JPEG CMYK 1280 960)) !! upload
               = Some (ImageFile JPEG CMYK 1280 960)) by reflexivity.
  split; [exact H1|].
  destruct (simple_remove_background_returns offline_env _ upload JPEG CMYK 1280 960 H1)
    as (Hrun & _).
  rewrite Hrun. cbn [fst files].
  change (SimpleImageProcessor._get_output_path upload "no_bg" (Some "png"))
    with "processed/temp_42_AgACAgIAAxkBAAM_no_bg.png".
  apply lookup_insert_eq.
Defined.

(** X10.  [SimpleImageProcessor.convert_format] to "jpeg" or "jpg" (in any
    letter case): an image of mode RGBA, LA or P is converted to RGB first,
    so the conversion returns and the file it writes is an RGB JPEG of the
    source size; an image of any other mode the JPEG encoder writes is
    stored as it is, and in either case the written file carries no alpha
    band. *)
Theorem simple_convert_jpeg_flattens ev d path fmt m w h format :
  files d !! path = Some (ImageFile fmt m w h) ->
  In (lower format) ["jpeg"; "jpg"] ->
  mode_in m [RGBA; LA; P] = true \/ writes ev JPEG m = true ->
  exists stored,
    SimpleImageProcessor.convert_format ev path format d
    = ({| files := <[SimpleImageProcessor._get_output_path path "converted" (Some format)
                       := ImageFile JPEG stored w h]> (files d);
          drawn := drawn d;
          journal := journal d ++ [Called "convert_format" path] |},
       Ok (SimpleImageProcessor._get_output_path path "converted" (Some format)))
    /\ has_alpha stored = false
    /\ (mode_in m [RGBA; LA; P] = true -> stored = RGB).
Proof.
  intros Hf Hfmt Hm.
  assert (Hb : String.eqb (lower format) "jpeg" || String.eqb (lower format) "jpg"
               = true).
  { destruct Hfmt as [<-|[<-|[]]]; reflexivity. }
  exists (stored_mode JPEG (if mode_in m [RGBA; LA; P] then RGB else m)).
  split; [|split].
  - unfold SimpleImageProcessor.convert_format. run_proc. rewrite Hf. run_proc.
    rewrite Hb.
    destruct (mode_in m [RGBA; LA; P]) eqn:Em; run_proc.
    + reflexivity.
    + destruct Hm as [Hm|Hm]; [discriminate|]. rewrite Hm. reflexivity.
  - destruct (mode_in m [RGBA; LA; P]) eqn:Em; [reflexivity|].
    destruct Hm as [Hm|Hm]; [discriminate|].
    now apply (jpeg_files_have_no_alpha ev).
  - intros ->. reflexivity.
Qed.

Lemma simple_convert_jpeg_flattens_witness :
  files (disk_with (ImageFile PNG LA 640 480)) !! upload
  = Some (ImageFile PNG LA 640 480)
  /\ In (lower "JPEG") ["jpeg"; "jpg"]
  /\ (mode_in LA [RGBA; LA; P] = true \/ writes offline_env JPEG LA = true)
  /\ files (fst (SimpleImageProcessor.convert_format offline_env upload "JPEG"
                   (disk_with (ImageFile PNG LA 640 480))))
       !! "processed/temp_42_AgACAgIAAxkBAAM_converted.JPEG"
     = Some (ImageFile JPEG RGB 640 480).
Proof.
  assert (H1 : files (disk_with (ImageFile PNG LA 640 480)) !! upload
               = Some (ImageFile PNG LA 640 480)) by reflexivity.
  assert (H2 : In (lower "JPEG") ["jpeg"; "jpg"]) by (cbn; tauto).
  assert (H3 : mode_in LA [RGBA; LA; P] = true \/ writes offline_env JPEG LA = true)
    by (left; reflexivity).
  split; [exact H1|]. split; [exact H2|]. split; [exact H3|].
  destruct (simple_convert_jpeg_flattens offline_env _ upload PNG LA 640 480 "JPEG"
              H1 H2 H3) as (stored & Hrun & _ & Hrgb).
  rewrite Hrun, (Hrgb eq_refl). cbn [fst files].
  change (SimpleImageProcessor._get_output_path upload "converted" (Some "JPEG"))
    with "processed/temp_42_AgACAgIAAxkBAAM_converted.JPEG".
  apply lookup_insert_eq.
Defined.

(** *** The extension of a derived name *)

Lemma split_last_some (c : ascii) (s : string) :
  has_char c s = true -> exists a b, split_last c s = Some (a, b).
Proof.
  induction s as [|x s IH]; [discriminate|]. cbn [has_char split_last].
  destruct (split_last c s) as [[a b]|] eqn:E; [eauto|].
  destruct (ascii_eqb x c); [eauto|]. cbn [orb]. intros H.
  destruct (IH H) as (a & b & Hab). discriminate.
Qed.

Lemma split_last_tail_plain (c : ascii) (s a b : string) :
  split_last c s = Some (a, b) ->
  exists b', b = String c b' /\ has_char c b' = false.
Proof.
  revert a b. induction s as [|x s IH]; cbn [split_last]; [discriminate|].
  intros a b. destruct (split_last c s) as [[a' b']|] eqn:E.
  - intros H; injection H as <- <-. eauto.
  - destruct (ascii_eqb x c) eqn:Hx; [|discriminate].
    intros H; injection H as <- <-. apply Ascii.eqb_eq in Hx as ->.
    exists s. split; [reflexivity|].
    destruct (has_char c s) eqn:Hc; [|reflexivity].
    destruct (split_last_some c s Hc) as (u & v & Huv). congruence.
Qed.

Lemma split_last_app_plain (c : ascii) (a b : string) :
  has_char c b = false ->
  split_last c (a ++ b)
  = match split_last c a with
    | Some (x, y) => Some (x, y ++ b)
    | None => None
    end.
Proof.
  intros Hb. induction a as [|x a IH].
  - change (EmptyString ++ b) with b. now apply split_last_none.
  - rewrite append_cons. cbn [split_last]. rewrite IH.
    destruct (split_last c a) as [[u v]|]; [reflexivity|].
    destruct (ascii_eqb x c); reflexivity.
Qed.

Lemma split_last_app_some (c : ascii) (a b r e : string) :
  split_last c b = Some (r, e) -> split_last c (a ++ b) = Some (a ++ r, e).
Proof.
  intros Hb. induction a as [|x a IH]; [exact Hb|].
  rewrite !append_cons. cbn [split_last]. now rewrite IH.
Qed.

Lemma after_last_split (c : ascii) (s r : string) :
  after_last c s = Some r -> exists a, s = a ++ String c r.
Proof.
  revert r. induction s as [|x s IH]; cbn [after_last]; [discriminate|].
  intros r. destruct (after_last c s) as [r'|] eqn:E.
  - intros H; injection H as <-. destruct (IH r' eq_refl) as (a & ->).
    exists (String x a). reflexivity.
  - destruct (ascii_eqb x c) eqn:Hx; [|discriminate].
    intros H; injection H as <-. apply Ascii.eqb_eq in Hx as ->.
    exists EmptyString. reflexivity.
Qed.

Lemma basename_of_plain (s : string) : has_char slash s = false -> basename s = s.
Proof. intros H. unfold basename. apply after_last_none in H. now rewrite H. Qed.

(** [os.path.splitext] finds the extension in the last component. *)
Lemma splitext_basename (p : string) :
  snd (splitext p) = snd (splitext (basename p)).
Proof.
  destruct (after_last slash p) as [r|] eqn:E.
  2:{ unfold basename. now rewrite E. }
  assert (Hbase : basename p = r) by (unfold basename; now rewrite E).
  rewrite Hbase. clear Hbase.
  pose proof (after_last_plain _ _ _ E) as Hr.
  destruct (after_last_split _ _ _ E) as (a & ->). clear E.
  unfold splitext.
  destruct (has_char dot r) eqn:Hd.
  - destruct (split_last_some dot r Hd) as (r1 & e1 & Hsplit).
    rewrite Hsplit.
    destruct (split_last_join _ _ _ _ Hsplit) as (Hjoin & _).
    assert (Hplain : has_char slash r1 = false /\ has_char slash e1 = false).
    { rewrite Hjoin, has_char_app in Hr. now apply orb_false_iff in Hr. }
    destruct Hplain as (Hr1 & He1).
    rewrite (split_last_app_some dot a (String slash r) (String slash r1) e1).
    2:{ cbn [split_last]. now rewrite Hsplit. }
    rewrite He1.
    rewrite basename_in_dir by exact Hr1.
    rewrite (basename_of_plain r1) by exact Hr1.
    destruct (all_dots r1); reflexivity.
  - rewrite (split_last_none dot r) by exact Hd. cbn [snd].
    rewrite (split_last_app_plain dot a (String slash r)).
    2:{ cbn [has_char]. now rewrite Hd. }
    destruct (split_last dot a) as [[u v]|]; [|reflexivity].
    rewrite has_char_app. cbn [has_char].
    unfold ascii_eqb at 1. rewrite Ascii.eqb_refl.
    cbn [orb]. rewrite orb_true_r. reflexivity.
Qed.

(** A suffix without dots and slashes, put between the stem and the
    extension, leaves the extension where it was. *)
Lemma splitext_suffixed (b suffix : string) :
  has_char slash b = false ->
  has_char slash suffix = false -> has_char dot suffix = false ->
  snd (splitext (fst (splitext b) ++ "_" ++ suffix ++ snd (splitext b)))
  = snd (splitext b).
Proof.
  intros Hb Hs Hd. remember (splitext b) as se eqn:Hse.
  unfold splitext in Hse.
  destruct (split_last dot b) as [[root e]|] eqn:E.
  - destruct (split_last_join _ _ _ _ E) as (Hjoin & _).
    destruct (split_last_tail_plain _ _ _ _ E) as (e' & -> & He').
    assert (Hplain : has_char slash root = false
                     /\ has_char slash (String dot e') = false).
    { rewrite Hjoin, has_char_app in Hb. now apply orb_false_iff in Hb. }
    destruct Hplain as (Hroot & He).
    rewrite He in Hse. rewrite (basename_of_plain root) in Hse by exact Hroot.
    destruct (all_dots root) eqn:Hdots; subst se; cbn [fst snd].
    + rewrite append_nil_r. rewrite Hjoin.
      unfold splitext.
      replace ((root ++ String dot e') ++ "_" ++ suffix)
        with (root ++ String dot (e' ++ "_" ++ suffix))
        by (now rewrite append_assoc).
      rewrite split_last_app.
      2:{ rewrite !has_char_app, He', Hd. reflexivity. }
      rewrite (basename_of_plain root) by exact Hroot. rewrite Hdots.
      destruct (has_char slash (String dot (e' ++ "_" ++ suffix))); reflexivity.
    + replace (root ++ "_" ++ suffix ++ String dot e')
        with ((root ++ "_" ++ suffix) ++ String dot e')
        by (now rewrite !append_assoc).
      cbn [has_char] in He. apply orb_false_iff in He as [_ He].
      rewrite splitext_extension; [reflexivity | exact He' | exact He |].
      rewrite basename_of_plain by (rewrite !has_char_app, Hroot, Hs; reflexivity).
      rewrite all_dots_app. cbn [all_dots]. apply andb_false_r.
  - subst se. cbn [fst snd]. rewrite append_nil_r.
    unfold splitext. rewrite split_last_none; [reflexivity|].
    rewrite !has_char_app, Hd. cbn [has_char orb].
    destruct (has_char dot b) eqn:Hdb; [|reflexivity].
    destruct (split_last_some dot b Hdb) as (u & v & Huv). congruence.
Qed.

(** Without a new extension, the name [_get_output_path] builds has the
    extension of the input path. *)
Lemma get_output_path_keeps_extension (input suffix : string) :
  has_char slash suffix = false -> has_char dot suffix = false ->
  snd (splitext (SimpleImageProcessor._get_output_path input suffix None))
  = snd (splitext input).
Proof.
  intros Hs Hd.
  rewrite (splitext_basename input).
  pose proof (basename_plain input) as Hb.
  pose proof (splitext_suffixed (basename input) suffix Hb Hs Hd) as Hsuf.
  unfold SimpleImageProcessor._get_output_path.
  destruct (splitext (basename input)) as [stem ext] eqn:E. cbn [fst snd] in Hsuf.
  destruct (splitext_join _ _ _ E) as (Hjoin & _).
  assert (Hplain : has_char slash stem = false /\ has_char slash ext = false).
  { rewrite Hjoin, has_char_app in Hb. now apply orb_false_iff in Hb. }
  destruct Hplain as (Hstem & Hext).
  assert (Hname : has_char slash (stem ++ "_" ++ suffix ++ ext) = false).
  { rewrite !has_char_app, Hstem, Hs, Hext. reflexivity. }
  rewrite os_path_join_processed by (now apply plain_not_absolute).
  rewrite splitext_basename.
  change ("processed/" ++ stem ++ "_" ++ suffix ++ ext)
    with ("processed" ++ String slash (stem ++ "_" ++ suffix ++ ext)).
  rewrite basename_in_dir by exact Hname. exact Hsuf.
Qed.

Lemma get_output_path_keeps_format (ev : env) (input suffix : string) :
  has_char slash suffix = false -> has_char dot suffix = false ->
  format_of_path ev (SimpleImageProcessor._get_output_path input suffix None)
  = format_of_path ev input.
Proof.
  intros Hs Hd. unfold format_of_path.
  now rewrite get_output_path_keeps_extension.
Qed.

Lemma string_of_uint_no_dot (d : Decimal.uint) :
  has_char dot (NilEmpty.string_of_uint d) = false.
Proof. induction d; cbn [NilEmpty.string_of_uint has_char]; auto. Qed.

Lemma str_no_dot (n : Z) : has_char dot (str n) = false.
Proof.
  unfold str, NilZero.string_of_int.
  destruct (Z.to_int n) as [d|d]; unfold NilZero.string_of_uint.
  - destruct d; try reflexivity; apply string_of_uint_no_dot.
  - cbn [has_char]. destruct d; try reflexivity; apply string_of_uint_no_dot.
Qed.





(** X13.  [SimpleImageProcessor._get_output_path], for every input path
    (with or without directories, extension or dots) and every suffix and
    new extension without a path separator: the result lies directly inside
    [processed/] (no further directory, so no other directory can be
    reached), is never the input path itself, and its extension is the new
    extension when one is given (non-empty, without dots) and the input's
    extension otherwise (for a suffix without dots). *)
Theorem get_output_path_shape (input suffix : string) (extension : option string) :
  has_char slash suffix = false ->
  match extension with Some e => has_char slash e = false | None => True end ->
  (exists name,
     SimpleImageProcessor._get_output_path input suffix extension = "processed/" ++ name
     /\ has_char slash name = false)
  /\ SimpleImageProcessor._get_output_path input suffix extension <> input
  /\ match extension with
     | Some e =>
         has_char dot e = false -> e <> EmptyString ->
         snd (splitext (SimpleImageProcessor._get_output_path input suffix extension))
         = String dot e
     | None =>
         has_char dot suffix = false ->
         snd (splitext (SimpleImageProcessor._get_output_path input suffix extension))
         = snd (splitext input)
     end.
Proof.
  intros Hs He. split; [|split].
  - destruct (get_output_path_in_processed input suffix extension Hs He)
      as (name & Hname & Hplain & _). eauto.
  - now apply get_output_path_differs.
  - destruct extension as [e|].
    + intros Hd Hne. now apply get_output_path_extension.
    + intros Hd. now apply get_output_path_keeps_extension.
Qed.

Lemma get_output_path_shape_witness :
  has_char slash "enhanced" = false
  /\ SimpleImageProcessor._get_output_path "../../etc/photo.final.PNG" "enhanced" None
     = "processed/photo.final_enhanced.PNG"
  /\ snd (splitext (SimpleImageProcessor._get_output_path "../../etc/photo.final.PNG"
                      "enhanced" None))
     = ".PNG".
Proof.
  assert (H1 : has_char slash "enhanced" = false) by reflexivity.
  split; [exact H1|]. split; [reflexivity|].
  destruct (get_output_path_shape "../../etc/photo.final.PNG" "enhanced" None H1 Logic.I)
    as (_ & _ & Hext).
  rewrite (Hext eq_refl). reflexivity.
Defined.

(** * Further properties of the routers *)

(** ** [SimpleTelegramBot]: leaf handlers *)

(** X14.  Success side of every leaf handler of [SimpleTelegramBot]: when
    the processor method returns a path that holds a file, the handler has
    edited the status message to the progress notice, sent that file as a
    photo with the leaf's caption and edited the status message to the
    success notice, in this order; [user_photos] is as it was and the disk
    is as the single invocation left it. *)
Theorem leaf_handler_reports_success (P : SimpleTelegramBot.processor)
    (chat_id message_id : Z) (photo_path : string) (l : leaf) (op : M string)
    (b : SimpleTelegramBot.bot) (d' : disk) (out : string) (f : file) :
  leaf_operation P photo_path l = Some op ->
  op (SimpleTelegramBot.store b) = (d', Ok out) ->
  files d' !! out = Some f ->
  leaf_handler P chat_id message_id photo_path l b
  = ({| SimpleTelegramBot.store := d';
        SimpleTelegramBot.user_photos := SimpleTelegramBot.user_photos b;
        SimpleTelegramBot.outbox :=
          SimpleTelegramBot.outbox b
            ++ [ editMessageText chat_id message_id (progress_notice l) None;
                 sendPhoto chat_id f (photo_caption l);
                 editMessageText chat_id message_id (success_notice l) None ] |},
     Ok tt).
Proof.
  intros Hop Hrun Hout.
  destruct l as [action|action| | |action|action];
    cbn [leaf_operation leaf_handler progress_notice photo_caption success_notice] in *.
  - unfold SimpleTelegramBot.process_resize.
    destruct (size_map action) as [[width height]|]; [|discriminate].
    injection Hop as <-. bot_step. rewrite Hrun. bot_step.
    unfold read_file. rewrite Hout.
    cbn [SimpleTelegramBot.outbox]. rewrite <- !app_assoc. reflexivity.
  - unfold SimpleTelegramBot.process_crop.
    injection Hop as <-. bot_step. rewrite Hrun. bot_step.
    unfold read_file. rewrite Hout.
    cbn [SimpleTelegramBot.outbox]. rewrite <- !app_assoc. reflexivity.
  - unfold SimpleTelegramBot.process_remove_background.
    injection Hop as <-. bot_step. rewrite Hrun. bot_step.
    unfold read_file. rewrite Hout.
    cbn [SimpleTelegramBot.outbox]. rewrite <- !app_assoc. reflexivity.
  - unfold SimpleTelegramBot.process_generate_background.
    injection Hop as <-. bot_step. rewrite Hrun. bot_step.
    unfold read_file. rewrite Hout.
    cbn [SimpleTelegramBot.outbox]. rewrite <- !app_assoc. reflexivity.
  - unfold SimpleTelegramBot.process_convert_format.
    destruct (SimpleTelegramBot.format_map action) as [output_format|]; [|discriminate].
    injection Hop as <-. bot_step. rewrite Hrun. bot_step.
    unfold read_file. rewrite Hout.
    cbn [SimpleTelegramBot.outbox]. rewrite <- !app_assoc. reflexivity.
  - unfold SimpleTelegramBot.process_enhance_resolution.
    destruct (SimpleTelegramBot.resolution_map action) as [target_resolution|];
      [|discriminate].
    injection Hop as <-. bot_step. rewrite Hrun. bot_step.
    unfold read_file. rewrite Hout.
    cbn [SimpleTelegramBot.outbox]. rewrite <- !app_assoc. reflexivity.
Qed.

Lemma leaf_handler_reports_success_witness :
  leaf_operation (SimpleTelegramBot.ai_processor offline_env) upload
    (ResizeLeaf "resize_720p")
  = Some (AIImageProcessor.resize_image offline_env upload 1280 720)
  /\ files (fst (AIImageProcessor.resize_image offline_env upload 1280 720
                   (disk_with (ImageFile JPEG RGB 4000 3000))))
       !! generated offline_env 0 "resized" "jpg"
     = Some (ImageFile JPEG RGB 960 720)
  /\ SimpleTelegramBot.outbox
       (fst (leaf_handler (SimpleTelegramBot.ai_processor offline_env) 7 99 upload
               (ResizeLeaf "resize_720p")
               (simple_bot_with (ImageFile JPEG RGB 4000 3000))))
     = [ editMessageText 7 99 "🔄 Resizing image... Please wait." None;
         sendPhoto 7 (ImageFile JPEG RGB 960 720) "✅ *Image resized to 1280x720*";
         editMessageText 7 99 "✅ Image resized successfully!" None ].
Proof.
  assert (H1 : leaf_operation (SimpleTelegramBot.ai_processor offline_env) upload
                 (ResizeLeaf "resize_720p")
               = Some (AIImageProcessor.resize_image offline_env upload 1280 720))
    by reflexivity.
  pose proof (ai_resize_image_run offline_env (disk_with (ImageFile JPEG RGB 4000 3000))
                upload JPEG RGB 4000 3000 1280 720 960 720
                eq_refl eq_refl eq_refl) as H2.
  assert (H3 : files (fst (AIImageProcessor.resize_image offline_env upload 1280 720
                             (disk_with (ImageFile JPEG RGB 4000 3000))))
                 !! generated offline_env 0 "resized" "jpg"
               = Some (ImageFile JPEG RGB 960 720))
    by (rewrite H2; cbn [fst files]; apply lookup_insert_eq).
  split; [exact H1|]. split; [exact H3|].
  rewrite H2 in H3. cbn [fst] in H3.
  now rewrite (leaf_handler_reports_success _ 7 99 upload (ResizeLeaf "resize_720p")
                 _ (simple_bot_with (ImageFile JPEG RGB 4000 3000)) _ _ _ H1 H2 H3).
Defined.

(** X15.  A leaf action whose key is missing from the handler's table (for
    instance "resize_" followed by an unknown size, which the router still
    dispatches on its prefix): the handler edits the status message to the
    progress notice and then to the failure notice, and calls no processor
    method at all; disk and sessions are as they were. *)
Theorem leaf_handler_rejects_unknown_key (P : SimpleTelegramBot.processor)
    (chat_id message_id : Z) (photo_path : string) (l : leaf)
    (b : SimpleTelegramBot.bot) :
  leaf_operation P photo_path l = None ->
  leaf_handler P chat_id message_id photo_path l b
  = ({| SimpleTelegramBot.store := SimpleTelegramBot.store b;
        SimpleTelegramBot.user_photos := SimpleTelegramBot.user_photos b;
        SimpleTelegramBot.outbox :=
          SimpleTelegramBot.outbox b
            ++ [ editMessageText chat_id message_id (progress_notice l) None;
                 editMessageText chat_id message_id (failure_notice l) None ] |},
     Ok tt).
Proof.
  intros Hop.
  destruct l as [action|action| | |action|action];
    cbn [leaf_operation leaf_handler progress_notice failure_notice] in *;
    try discriminate.
  - unfold SimpleTelegramBot.process_resize.
    destruct (size_map action) as [[width height]|]; [discriminate|].
    bot_step. rewrite <- app_assoc. reflexivity.
  - unfold SimpleTelegramBot.process_convert_format.
    destruct (SimpleTelegramBot.format_map action); [discriminate|].
    bot_step. rewrite <- app_assoc. reflexivity.
  - unfold SimpleTelegramBot.process_enhance_resolution.
    destruct (SimpleTelegramBot.resolution_map action); [discriminate|].
    bot_step. rewrite <- app_assoc. reflexivity.
Qed.

Lemma leaf_handler_rejects_unknown_key_witness :
  leaf_operation (SimpleTelegramBot.ai_processor offline_env) upload
    (ResizeLeaf "resize_360p") = None
  /\ leaf_handler (SimpleTelegramBot.ai_processor offline_env) 7 99 upload
       (ResizeLeaf "resize_360p") (simple_bot_with (ImageFile JPEG RGB 4000 3000))
     = ({| SimpleTelegramBot.store := disk_with (ImageFile JPEG RGB 4000 3000);
           SimpleTelegramBot.user_photos := Some {[ 42 := upload ]};
           SimpleTelegramBot.outbox :=
             [ editMessageText 7 99 "🔄 Resizing image... Please wait." None;
               editMessageText 7 99 "❌ Failed to resize image. Please try again."
                 None ] |},
        Ok tt).
Proof.
  assert (H1 : leaf_operation (SimpleTelegramBot.ai_processor offline_env) upload
                 (ResizeLeaf "resize_360p") = None) by reflexivity.
  split; [exact H1|].
  exact (leaf_handler_rejects_unknown_key _ 7 99 upload (ResizeLeaf "resize_360p")
           (simple_bot_with (ImageFile JPEG RGB 4000 3000)) H1).
Defined.

(** ** [SimpleTelegramBot]: what a callback leaves alone *)

Section KeepsSessions.

Lemma keeps_sessions_ret {A} (a : A) : keeps_sessions (ret a).
Proof. intros b. split; [reflexivity|]. exists []. cbn. now rewrite app_nil_r. Qed.

Lemma keeps_sessions_raise {A} (e : exn) :
  keeps_sessions (@raise SimpleTelegramBot.bot A e).
Proof. intros b. split; [reflexivity|]. exists []. cbn. now rewrite app_nil_r. Qed.

Lemma keeps_sessions_api_request (c : api_call) :
  keeps_sessions (SimpleTelegramBot.api_request c).
Proof. intros b. split; [reflexivity|]. exists [c]. reflexivity. Qed.

Lemma keeps_sessions_lift {A} (m : M A) : keeps_sessions (SimpleTelegramBot.lift m).
Proof.
  intros b. unfold SimpleTelegramBot.lift.
  destruct (m (SimpleTelegramBot.store b)) as [d r].
  split; [reflexivity|]. exists []. cbn. now rewrite app_nil_r.
Qed.

Lemma keeps_sessions_stored_photo (user_id : Z) :
  keeps_sessions (SimpleTelegramBot.stored_photo user_id).
Proof. intros b. split; [reflexivity|]. exists []. cbn. now rewrite app_nil_r. Qed.

Lemma keeps_sessions_bind {A B} (m : SimpleTelegramBot.B A)
    (k : A -> SimpleTelegramBot.B B) :
  keeps_sessions m -> (forall a, keeps_sessions (k a)) -> keeps_sessions (bind m k).
Proof.
  intros Hm Hk b. unfold bind. destruct (Hm b) as (H1 & s1 & H2).
  destruct (m b) as [b1 [a|e]]; cbn [fst] in *.
  - destruct (Hk a b1) as (H3 & s2 & H4). split; [congruence|].
    exists (s1 ++ s2)%list. rewrite H4, H2. now rewrite app_assoc.
  - split; [exact H1|]. eauto.
Qed.

Lemma keeps_sessions_try {A} (body : SimpleTelegramBot.B A)
    (handler : exn -> SimpleTelegramBot.B A) :
  keeps_sessions body -> (forall e, keeps_sessions (handler e)) ->
  keeps_sessions (try_except body handler).
Proof.
  intros Hb Hh b. unfold try_except. destruct (Hb b) as (H1 & s1 & H2).
  destruct (body b) as [b1 [a|e]]; cbn [fst] in *.
  - split; [exact H1|]. eauto.
  - destruct (Hh e b1) as (H3 & s2 & H4). split; [congruence|].
    exists (s1 ++ s2)%list. rewrite H4, H2. now rewrite app_assoc.
Qed.

End KeepsSessions.

Ltac sessions :=
  repeat lazymatch goal with
  | |- keeps_sessions (try_except _ _) => apply keeps_sessions_try; [|intros ?]
  | |- keeps_sessions (bind _ _) => apply keeps_sessions_bind; [|intros ?]
  | |- keeps_sessions (ret _) => apply keeps_sessions_ret
  | |- keeps_sessions (raise _) => apply keeps_sessions_raise
  | |- keeps_sessions (SimpleTelegramBot.api_request _) =>
      apply keeps_sessions_api_request
  | |- keeps_sessions (SimpleTelegramBot.edit_message_text _ _ _ _) =>
      apply keeps_sessions_api_request
  | |- keeps_sessions (SimpleTelegramBot.send_message _ _ _) =>
      apply keeps_sessions_api_request
  | |- keeps_sessions (SimpleTelegramBot.lift _) => apply keeps_sessions_lift
  | |- keeps_sessions (SimpleTelegramBot.stored_photo _) =>
      apply keeps_sessions_stored_photo
  | |- keeps_sessions (SimpleTelegramBot.send_photo _ _ _) =>
      unfold SimpleTelegramBot.send_photo
  | |- keeps_sessions (if ?c then _ else _) => destruct c
  | |- keeps_sessions (let '(_, _) := ?p in _) => destruct p
  | |- keeps_sessions (match ?x with _ => _ end) => destruct x
  end.

Lemma handle_callback_query_keeps_sessions (P : SimpleTelegramBot.processor)
    (cq : callback_query) :
  keeps_sessions (SimpleTelegramBot.handle_callback_query P cq).
Proof.
  unfold SimpleTelegramBot.handle_callback_query,
    SimpleTelegramBot.process_resize, SimpleTelegramBot.process_crop,
    SimpleTelegramBot.process_remove_background,
    SimpleTelegramBot.process_generate_background,
    SimpleTelegramBot.process_enhance_quality,
    SimpleTelegramBot.process_convert_format,
    SimpleTelegramBot.process_enhance_resolution.
  sessions.
Qed.

(** Whatever its body does, the router's handler ends normally. *)
Lemma handle_callback_query_returns (P : SimpleTelegramBot.processor)
    (cq : callback_query) (b : SimpleTelegramBot.bot) :
  snd (SimpleTelegramBot.handle_callback_query P cq b) = Ok tt.
Proof.
  unfold SimpleTelegramBot.handle_callback_query, try_except.
  match goal with
  | |- snd (let (_, _) := ?body b in _) = _ => destruct (body b) as [b1 [[]|e]]
  end; [reflexivity|].
  destruct (_ && _); reflexivity.
Qed.

(** X16.  [SimpleTelegramBot.handle_callback_query], for every processor
    (also one whose methods raise), every callback and every state of the
    bot: the handler ends normally, answers the callback query first, only
    appends to what was sent before, and leaves [user_photos] exactly as it
    was: no button press creates, changes or drops a session. *)
Theorem callback_keeps_sessions (P : SimpleTelegramBot.processor)
    (cq : callback_query) (b : SimpleTelegramBot.bot) :
  snd (SimpleTelegramBot.handle_callback_query P cq b) = Ok tt
  /\ SimpleTelegramBot.user_photos
       (fst (SimpleTelegramBot.handle_callback_query P cq b))
     = SimpleTelegramBot.user_photos b
  /\ exists sent,
       SimpleTelegramBot.outbox (fst (SimpleTelegramBot.handle_callback_query P cq b))
       = (SimpleTelegramBot.outbox b ++ answerCallbackQuery (id cq) :: sent)%list.
Proof.
  split; [apply handle_callback_query_returns|].
  split; [apply handle_callback_query_keeps_sessions|].
  unfold SimpleTelegramBot.handle_callback_query.
  set (rest := fun _ : unit => bind (SimpleTelegramBot.stored_photo (from_id cq)) _).
  set (handler := fun _ : exn => _).
  assert (Hrest : keeps_sessions (rest tt)).
  { pose proof (handle_callback_query_keeps_sessions P cq) as H.
    unfold SimpleTelegramBot.handle_callback_query in H.
    unfold rest.
    unfold SimpleTelegramBot.process_resize, SimpleTelegramBot.process_crop,
      SimpleTelegramBot.process_remove_background,
      SimpleTelegramBot.process_generate_background,
      SimpleTelegramBot.process_enhance_quality,
      SimpleTelegramBot.process_convert_format,
      SimpleTelegramBot.process_enhance_resolution.
    sessions. }
  assert (Hhandler : forall e, keeps_sessions (handler e)).
  { intros e. unfold handler. sessions. }
  unfold try_except, bind at 1, SimpleTelegramBot.api_request at 1.
  match goal with
  | |- context [rest tt ?b1] =>
      destruct (Hrest b1) as (_ & s1 & H1); cbn [SimpleTelegramBot.outbox] in H1;
      destruct (rest tt b1) as [b2 [[]|e]] eqn:E; cbn [fst] in *
  end.
  - exists s1. rewrite H1. now rewrite <- app_assoc.
  - destruct (Hhandler e b2) as (_ & s2 & H2).
    exists (s1 ++ s2)%list. rewrite H2, H1. now rewrite <- !app_assoc.
Qed.

Section BotFramed.
Variable lo : nat.
Variable allowed : string -> Prop.

Lemma bot_framed_ret {A} (a : A) : bot_framed lo allowed (ret a).
Proof. intros b Hb. cbn. auto. Qed.

Lemma bot_framed_raise {A} (e : exn) :
  bot_framed lo allowed (@raise SimpleTelegramBot.bot A e).
Proof. intros b Hb. cbn. auto. Qed.

Lemma bot_framed_api_request (c : api_call) :
  bot_framed lo allowed (SimpleTelegramBot.api_request c).
Proof. intros b Hb. cbn. auto. Qed.

Lemma bot_framed_stored_photo (user_id : Z) :
  bot_framed lo allowed (SimpleTelegramBot.stored_photo user_id).
Proof. intros b Hb. cbn. auto. Qed.

Lemma bot_framed_lift {A} (m : M A) :
  framed lo allowed m -> bot_framed lo allowed (SimpleTelegramBot.lift m).
Proof.
  intros Hm b Hb. unfold SimpleTelegramBot.lift.
  destruct (Hm (SimpleTelegramBot.store b) Hb) as (H1 & H2).
  destruct (m (SimpleTelegramBot.store b)) as [d r]. cbn [fst] in *. auto.
Qed.

Lemma bot_framed_bind {A B} (m : SimpleTelegramBot.B A)
    (k : A -> SimpleTelegramBot.B B) :
  bot_framed lo allowed m -> (forall a, bot_framed lo allowed (k a)) ->
  bot_framed lo allowed (bind m k).
Proof.
  intros Hm Hk b Hb. unfold bind. destruct (Hm b Hb) as (H1 & H2).
  destruct (m b) as [b1 [a|e]]; cbn [fst] in *.
  - destruct (Hk a b1 H1) as (H3 & H4). split; [exact H3|].
    intros p Hp. rewrite H4, H2; auto.
  - auto.
Qed.

Lemma bot_framed_try {A} (body : SimpleTelegramBot.B A)
    (handler : exn -> SimpleTelegramBot.B A) :
  bot_framed lo allowed body -> (forall e, bot_framed lo allowed (handler e)) ->
  bot_framed lo allowed (try_except body handler).
Proof.
  intros Hbody Hh b Hb. unfold try_except. destruct (Hbody b Hb) as (H1 & H2).
  destruct (body b) as [b1 [a|e]]; cbn [fst] in *.
  - auto.
  - destruct (Hh e b1 H1) as (H3 & H4). split; [exact H3|].
    intros p Hp. rewrite H4, H2; auto.
Qed.

End BotFramed.

Ltac bot_frame :=
  repeat lazymatch goal with
  | |- bot_framed _ _ (try_except _ _) => apply bot_framed_try; [|intros ?]
  | |- bot_framed _ _ (bind _ _) => apply bot_framed_bind; [|intros ?]
  | |- bot_framed _ _ (ret _) => apply bot_framed_ret
  | |- bot_framed _ _ (raise _) => apply bot_framed_raise
  | |- bot_framed _ _ (SimpleTelegramBot.api_request _) =>
      apply bot_framed_api_request
  | |- bot_framed _ _ (SimpleTelegramBot.edit_message_text _ _ _ _) =>
      apply bot_framed_api_request
  | |- bot_framed _ _ (SimpleTelegramBot.send_message _ _ _) =>
      apply bot_framed_api_request
  | |- bot_framed _ _ (SimpleTelegramBot.stored_photo _) =>
      apply bot_framed_stored_photo
  | |- bot_framed _ _ (SimpleTelegramBot.send_photo _ _ _) =>
      unfold SimpleTelegramBot.send_photo
  | |- bot_framed _ _ (SimpleTelegramBot.lift (read_file _)) =>
      apply bot_framed_lift, framed_read_file
  | |- bot_framed _ _ (if ?c then _ else _) => destruct c
  | |- bot_framed _ _ (let '(_, _) := ?p in _) => destruct p
  | |- bot_framed _ _ (match ?x with _ => _ end) => destruct x
  end.

Lemma ai_callback_framed ev lo (cq : callback_query) :
  bot_framed lo (generated_from ev lo)
    (SimpleTelegramBot.handle_callback_query (SimpleTelegramBot.ai_processor ev) cq).
Proof.
  unfold SimpleTelegramBot.handle_callback_query,
    SimpleTelegramBot.process_resize, SimpleTelegramBot.process_crop,
    SimpleTelegramBot.process_remove_background,
    SimpleTelegramBot.process_generate_background,
    SimpleTelegramBot.process_enhance_quality,
    SimpleTelegramBot.process_convert_format,
    SimpleTelegramBot.process_enhance_resolution.
  cbn [SimpleTelegramBot.ai_processor SimpleTelegramBot.resize_image
       SimpleTelegramBot.smart_crop SimpleTelegramBot.remove_background_removebg
       SimpleTelegramBot.generate_background_photoroom
       SimpleTelegramBot.enhance_quality_ai SimpleTelegramBot.convert_format].
  bot_frame.
  all: apply bot_framed_lift, confined_framed.
  - apply ai_resize_image_confined.
  - apply ai_smart_crop_confined.
  - apply ai_remove_background_removebg_confined.
  - apply ai_generate_background_photoroom_confined.
  - apply ai_convert_format_confined.
  - apply ai_enhance_quality_ai_confined.
Qed.

(** X17.  [SimpleTelegramBot] driven by [AIImageProcessor], as [app.py]
    wires them: whatever button is pressed and whatever the remote services
    answer, handling the callback leaves every file that was on the disk
    (the uploads of all users, earlier results) exactly as it was, provided
    that generated names are fresh. *)
Theorem callback_keeps_existing_files ev (cq : callback_query)
    (b : SimpleTelegramBot.bot) (p : string) :
  fresh_names ev (SimpleTelegramBot.store b) ->
  is_Some (files (SimpleTelegramBot.store b) !! p) ->
  files (SimpleTelegramBot.store
           (fst (SimpleTelegramBot.handle_callback_query
                   (SimpleTelegramBot.ai_processor ev) cq b))) !! p
  = files (SimpleTelegramBot.store b) !! p.
Proof.
  intros Hfresh Hp.
  destruct (ai_callback_framed ev (drawn (SimpleTelegramBot.store b)) cq b
              (Nat.le_refl _)) as (_ & Hframe).
  apply Hframe. intros (n & prefix & extension & Hn & Hprefix & Heq).
  symmetry in Heq. revert Heq.
  now apply (fresh_names_differ ev (SimpleTelegramBot.store b)).
Qed.

Lemma callback_keeps_existing_files_witness :
  fresh_names online_env
    (SimpleTelegramBot.store (simple_bot_with (ImageFile JPEG RGB 1280 960)))
  /\ is_Some (files (SimpleTelegramBot.store
                       (simple_bot_with (ImageFile JPEG RGB 1280 960))) !! upload)
  /\ files (SimpleTelegramBot.store
              (fst (SimpleTelegramBot.handle_callback_query
                      (SimpleTelegramBot.ai_processor online_env)
                      (press "remove_bg")
                      (simple_bot_with (ImageFile JPEG RGB 1280 960))))) !! upload
     = Some (ImageFile JPEG RGB 1280 960).
Proof.
  assert (H1 : fresh_names online_env
                 (SimpleTelegramBot.store (simple_bot_with (ImageFile JPEG RGB 1280 960))))
    by apply fresh_names_disk_with.
  assert (H2 : is_Some (files (SimpleTelegramBot.store
                                 (simple_bot_with (ImageFile JPEG RGB 1280 960)))
                          !! upload))
    by (exists (ImageFile JPEG RGB 1280 960); reflexivity).
  split; [exact H1|]. split; [exact H2|].
  rewrite (callback_keeps_existing_files online_env (press "remove_bg")
             (simple_bot_with (ImageFile JPEG RGB 1280 960)) upload H1 H2).
  reflexivity.
Defined.

(** ** [SimpleTelegramBot.handle_photo] *)

Lemma largest_of_fold (rest : list photo_size) :
  forall first,
    let best := fold_left (fun best p => if area best <? area p then p else best)
                  rest first in
    (best = first \/ In best rest)
    /\ area first <= area best
    /\ Forall (fun q => area q <= area best) rest.
Proof.
  induction rest as [|x rest IH]; intros first; cbn [fold_left].
  - split; [now left|]. split; [lia | constructor].
  - destruct (area first <? area x) eqn:E;
      [apply Z.ltb_lt in E | apply Z.ltb_ge in E].
    + destruct (IH x) as (Hin & Hle & Hall). split; [|split].
      * right. destruct Hin as [-> | Hin]; [now left | now right].
      * lia.
      * constructor; assumption.
    + destruct (IH first) as (Hin & Hle & Hall). split; [|split].
      * destruct Hin as [-> | Hin]; [now left | right; now right].
      * exact Hle.
      * constructor; [lia | assumption].
Qed.

(** [max(photos, key=area)] is an entry of the list and no entry has a
    larger area. *)
Lemma largest_photo_spec (photos : list photo_size) (p : photo_size) :
  largest_photo photos = Some p ->
  In p photos /\ Forall (fun q => area q <= area p) photos.
Proof.
  destruct photos as [|first rest]; [discriminate|]. cbn [largest_photo].
  intros H; injection H as <-.
  destruct (largest_of_fold rest first) as (Hin & Hle & Hall). split.
  - destruct Hin as [-> | Hin]; [now left | now right].
  - constructor; assumption.
Qed.

Lemma handle_photo_stores_largest_run (tg : file_service) (message : photo_message)
    (b : SimpleTelegramBot.bot) (p : photo_size) (file_path : string)
    (status_code : Z) (content : file) :
  largest_photo (message_photo message) = Some p ->
  getFile tg (file_id p) = Some file_path ->
  file_url tg file_path = Response status_code content ->
  status_code < 400 ->
  SimpleTelegramBot.handle_photo tg message b
  = ({| SimpleTelegramBot.store :=
          {| files := <[os_path_join "uploads"
                          ("temp_" ++ str (message_from message) ++ "_"
                             ++ file_id p ++ ".jpg") := content]>
                        (files (SimpleTelegramBot.store b));
             drawn := drawn (SimpleTelegramBot.store b);
             journal := journal (SimpleTelegramBot.store b) |};
        SimpleTelegramBot.user_photos :=
          Some (<[message_from message
                  := os_path_join "uploads"
                       ("temp_" ++ str (message_from message) ++ "_"
                          ++ file_id p ++ ".jpg")]>
                  (match SimpleTelegramBot.user_photos b with
                   | Some photos => photos
                   | None => ∅
                   end));
        SimpleTelegramBot.outbox :=
          SimpleTelegramBot.outbox b
            ++ [ sendMessage (message_chat message)
                   "📸 *Photo received!* What would you like to do?"
                   (Some main_menu) ] |},
     Ok tt).
Proof.
  intros Hlargest Hget Hurl Hstatus.
  unfold SimpleTelegramBot.handle_photo, SimpleTelegramBot.download.
  rewrite Hlargest. cbv beta iota delta [bind ret try_except].
  rewrite Hget. cbv beta iota. rewrite Hurl.
  replace (400 <=? status_code) with false by (symmetry; apply Z.leb_gt; lia).
  cbn [andb]. reflexivity.
Qed.

(** [resize_image] enters its call into the journal and nothing else. *)
Lemma resize_image_journal ev (path : string) (width height : Z) (d : disk) :
  journal (fst (AIImageProcessor.resize_image ev path width height d))
  = (journal d ++ [Called "resize_image" path])%list.
Proof.
  unfold AIImageProcessor.resize_image. run_proc.
  destruct (files d !! path) as [[fmt m w h|bytes]|]; run_proc; try reflexivity.
  destruct (mode_in m [RGBA; P]); run_proc;
    destruct (AIImageProcessor.resize_dims (Z.pos w) (Z.pos h) width height)
      as [nw nh]; run_proc;
    destruct ((nw <? 1) || (nh <? 1)); run_proc; try reflexivity;
    destruct nw; run_proc; try (destruct (_ !! _); reflexivity);
    destruct nh; run_proc; try (destruct (_ !! _); reflexivity).
  all: match goal with
       | |- context [writes ?e JPEG ?m0] => destruct (writes e JPEG m0)
       end; run_proc; try reflexivity.
  all: destruct (_ !! _); reflexivity.
Qed.

(** X18.  A photo upload handled by [SimpleTelegramBot.handle_photo]: of the
    resolution variants the message carries, the one fetched has the
    largest area; when [getFile] and the download succeed (a status below
    400), the downloaded bytes are written to
    [uploads/temp_<user>_<file_id>.jpg], that path becomes the user's
    session (replacing an earlier one, leaving the other users' sessions
    alone, and creating [user_photos] when the bot had none), and the six
    button main menu is sent. *)
Theorem handle_photo_stores_largest (tg : file_service) (message : photo_message)
    (b : SimpleTelegramBot.bot) (p : photo_size) (file_path : string)
    (status_code : Z) (content : file) :
  largest_photo (message_photo message) = Some p ->
  getFile tg (file_id p) = Some file_path ->
  file_url tg file_path = Response status_code content ->
  status_code < 400 ->
  let temp_path :=
    os_path_join "uploads"
      ("temp_" ++ str (message_from message) ++ "_" ++ file_id p ++ ".jpg") in
  SimpleTelegramBot.handle_photo tg message b
  = ({| SimpleTelegramBot.store :=
          {| files := <[temp_path := content]> (files (SimpleTelegramBot.store b));
             drawn := drawn (SimpleTelegramBot.store b);
             journal := journal (SimpleTelegramBot.store b) |};
        SimpleTelegramBot.user_photos :=
          Some (<[message_from message := temp_path]>
                  (match SimpleTelegramBot.user_photos b with
                   | Some photos => photos
                   | None => ∅
                   end));
        SimpleTelegramBot.outbox :=
          SimpleTelegramBot.outbox b
            ++ [ sendMessage (message_chat message)
                   "📸 *Photo received!* What would you like to do?"
                   (Some main_menu) ] |},
     Ok tt)
  /\ In p (message_photo message)
  /\ Forall (fun q => area q <= area p) (message_photo message).
Proof.
  intros Hlargest Hget Hurl Hstatus temp_path. split.
  - now apply (handle_photo_stores_largest_run tg message b p file_path status_code
                 content).
  - now apply largest_photo_spec.
Qed.

Lemma handle_photo_stores_largest_witness :
  largest_photo (message_photo sample_upload)
  = Some {| file_id := "AgACAgIAAxkBAAM"; photo_width := 1280; photo_height := 960 |}
  /\ getFile sample_files "AgACAgIAAxkBAAM" = Some "photos/file_7.jpg"
  /\ file_url sample_files "photos/file_7.jpg"
     = Response 200 (ImageFile JPEG RGB 1280 960)
  /\ 200 < 400
  /\ SimpleTelegramBot.handle_photo sample_files sample_upload new_simple_bot
     = ({| SimpleTelegramBot.store :=
             {| files := <[upload := ImageFile JPEG RGB 1280 960]> ∅;
                drawn := 0; journal := [] |};
           SimpleTelegramBot.user_photos := Some (<[42 := upload]> ∅);
           SimpleTelegramBot.outbox :=
             [ sendMessage 7 "📸 *Photo received!* What would you like to do?"
                 (Some main_menu) ] |},
        Ok tt).
Proof.
  assert (H1 : largest_photo (message_photo sample_upload)
               = Some {| file_id := "AgACAgIAAxkBAAM";
                         photo_width := 1280; photo_height := 960 |}) by reflexivity.
  assert (H2 : getFile sample_files "AgACAgIAAxkBAAM" = Some "photos/file_7.jpg")
    by reflexivity.
  assert (H3 : file_url sample_files "photos/file_7.jpg"
               = Response 200 (ImageFile JPEG RGB 1280 960)) by reflexivity.
  assert (H4 : 200 < 400) by reflexivity.
  split; [exact H1|]. split; [exact H2|]. split; [exact H3|]. split; [exact H4|].
  exact (proj1 (handle_photo_stores_largest sample_files sample_upload new_simple_bot
                  _ _ _ _ H1 H2 H3 H4)).
Defined.

(** X19.  When a photo upload cannot be fetched (the message carries no
    variant, [getFile] fails, the download fails or is answered with a
    status from 400 to 599), [SimpleTelegramBot.handle_photo] ends normally,
    tells the chat that processing failed, writes no file and leaves every
    session, also an earlier one of the same user, as it was. *)
Theorem handle_photo_failure_keeps_state (tg : file_service)
    (message : photo_message) (b : SimpleTelegramBot.bot) :
  message_chat message <> 0 ->
  (largest_photo (message_photo message) = None
   \/ exists p,
        largest_photo (message_photo message) = Some p
        /\ (getFile tg (file_id p) = None
            \/ exists file_path,
                 getFile tg (file_id p) = Some file_path
                 /\ (file_url tg file_path = ConnectionError
                     \/ exists status_code content,
                          file_url tg file_path = Response status_code content
                          /\ 400 <= status_code < 600))) ->
  SimpleTelegramBot.handle_photo tg message b
  = ({| SimpleTelegramBot.store := SimpleTelegramBot.store b;
        SimpleTelegramBot.user_photos := SimpleTelegramBot.user_photos b;
        SimpleTelegramBot.outbox :=
          SimpleTelegramBot.outbox b
            ++ [ sendMessage (message_chat message)
                   "❌ Sorry, there was an error processing your photo. Please try again."
                   None ] |},
     Ok tt).
Proof.
  intros Hchat Hfail.
  apply Z.eqb_neq in Hchat.
  unfold SimpleTelegramBot.handle_photo, SimpleTelegramBot.download.
  destruct Hfail as [Hnone | (p & Hp & Hfail)].
  { rewrite Hnone. cbv beta iota delta [bind ret raise try_except].
    rewrite Hchat. reflexivity. }
  rewrite Hp. cbv beta iota delta [bind ret try_except].
  destruct Hfail as [Hget | (file_path & Hget & Hfail)].
  { rewrite Hget. cbv beta iota delta [raise]. rewrite Hchat. reflexivity. }
  rewrite Hget. cbv beta iota.
  destruct Hfail as [Hurl | (status_code & content & Hurl & Hstatus)].
  { rewrite Hurl. cbv beta iota delta [raise]. rewrite Hchat. reflexivity. }
  rewrite Hurl.
  replace (400 <=? status_code) with true by (symmetry; apply Z.leb_le; lia).
  replace (status_code <? 600) with true by (symmetry; apply Z.ltb_lt; lia).
  cbv beta iota delta [andb raise]. rewrite Hchat. reflexivity.
Qed.

Lemma handle_photo_failure_keeps_state_witness :
  7 <> 0
  /\ getFile sample_files "AgACAgIAAxkBAAQ" = Some "photos/file_8.jpg"
  /\ file_url sample_files "photos/file_8.jpg" = Response 404 (RawFile [])
  /\ SimpleTelegramBot.handle_photo sample_files
       {| message_chat := 7; message_from := 42;
          message_photo :=
            [ {| file_id := "AgACAgIAAxkBAAQ";
                 photo_width := 1280; photo_height := 960 |} ] |}
       stale_simple_bot
     = ({| SimpleTelegramBot.store := empty_disk;
           SimpleTelegramBot.user_photos := Some {[ 42 := upload ]};
           SimpleTelegramBot.outbox :=
             [ sendMessage 7
                 "❌ Sorry, there was an error processing your photo. Please try again."
                 None ] |},
        Ok tt).
Proof.
  assert (H1 : 7 <> 0) by discriminate.
  split; [exact H1|]. split; [reflexivity|]. split; [reflexivity|].
  apply (handle_photo_failure_keeps_state sample_files
           {| message_chat := 7; message_from := 42;
              message_photo :=
                [ {| file_id := "AgACAgIAAxkBAAQ";
                     photo_width := 1280; photo_height := 960 |} ] |}
           stale_simple_bot H1).
  right. eexists. split; [reflexivity|]. right. eexists. split; [reflexivity|].
  right. exists 404, (RawFile []). split; [reflexivity | lia].
Defined.

(** X20.  Upload, then press: after [handle_photo] has stored an upload,
    a resize button pressed by the same user makes the router hand exactly
    the stored upload path to [resize_image], once, whatever the user's
    earlier session was; the session still names that path afterwards. *)
Theorem upload_then_resize_uses_the_upload ev (tg : file_service)
    (message : photo_message) (cq : callback_query) (b : SimpleTelegramBot.bot)
    (p : photo_size) (file_path : string) (status_code : Z) (content : file)
    (width height : Z) :
  largest_photo (message_photo message) = Some p ->
  getFile tg (file_id p) = Some file_path ->
  file_url tg file_path = Response status_code content ->
  status_code < 400 ->
  from_id cq = message_from message ->
  size_map (data cq) = Some (width, height) ->
  let temp_path :=
    os_path_join "uploads"
      ("temp_" ++ str (message_from message) ++ "_" ++ file_id p ++ ".jpg") in
  let b1 := fst (SimpleTelegramBot.handle_photo tg message b) in
  let b2 := fst (SimpleTelegramBot.handle_callback_query
                   (SimpleTelegramBot.ai_processor ev) cq b1) in
  journal (SimpleTelegramBot.store b2)
  = (journal (SimpleTelegramBot.store b) ++ [Called "resize_image" temp_path])%list
  /\ match SimpleTelegramBot.user_photos b2 with
     | Some photos => photos !! from_id cq = Some temp_path
     | None => False
     end.
Proof.
  intros Hlargest Hget Hurl Hstatus Hfrom Hsize temp_path b1 b2.
  pose proof (handle_photo_stores_largest_run tg message b p file_path status_code
                content Hlargest Hget Hurl Hstatus) as Hrun.
  fold temp_path in Hrun.
  assert (Hb1 : b1 = fst (SimpleTelegramBot.handle_photo tg message b)) by reflexivity.
  rewrite Hrun in Hb1. cbn [fst] in Hb1.
  split.
  - subst b2.
    assert (Hkey : String.eqb (data cq) "resize" = false
                   /\ startswith (data cq) "resize_" = true).
    { unfold size_map in Hsize.
      repeat match type of Hsize with
             | (if String.eqb ?a ?k then _ else _) = _ =>
                 let E := fresh "E" in
                 destruct (String.eqb a k) eqn:E;
                   [apply String.eqb_eq in E; rewrite E; split; reflexivity|]
             end.
      discriminate. }
    destruct Hkey as (Hne & Hprefix).
    unfold SimpleTelegramBot.handle_callback_query.
    rewrite Hne, Hprefix.
    unfold SimpleTelegramBot.process_resize. rewrite Hsize.
    cbn [SimpleTelegramBot.ai_processor SimpleTelegramBot.resize_image].
    rewrite Hb1, Hfrom.
    unfold try_except at 1, bind at 1, SimpleTelegramBot.api_request at 1.
    unfold bind at 1, SimpleTelegramBot.stored_photo.
    cbn [SimpleTelegramBot.user_photos]. rewrite lookup_insert_eq.
    set (d1 := {| files := <[temp_path := content]> (files (SimpleTelegramBot.store b));
                  drawn := drawn (SimpleTelegramBot.store b);
                  journal := journal (SimpleTelegramBot.store b) |}).
    pose proof (resize_image_journal ev temp_path width height d1) as Hj.
    bot_step.
    destruct (AIImageProcessor.resize_image ev temp_path width height d1)
      as [d2 [out|e]] eqn:E; cbn [fst] in Hj.
    + bot_step. unfold read_file.
      destruct (files d2 !! out); cbn [SimpleTelegramBot.store fst]; exact Hj.
    + cbn [SimpleTelegramBot.store fst]. exact Hj.
  - pose proof (handle_callback_query_keeps_sessions
                  (SimpleTelegramBot.ai_processor ev) cq b1) as (Hkeep & _).
    subst b2. rewrite Hkeep, Hb1. cbn [SimpleTelegramBot.user_photos].
    rewrite Hfrom. apply lookup_insert_eq.
Qed.

Lemma upload_then_resize_uses_the_upload_witness :
  largest_photo (message_photo sample_upload)
  = Some {| file_id := "AgACAgIAAxkBAAM"; photo_width := 1280; photo_height := 960 |}
  /\ getFile sample_files "AgACAgIAAxkBAAM" = Some "photos/file_7.jpg"
  /\ file_url sample_files "photos/file_7.jpg"
     = Response 200 (ImageFile JPEG RGB 1280 960)
  /\ 200 < 400
  /\ from_id (press "resize_720p") = message_from sample_upload
  /\ size_map (data (press "resize_720p")) = Some (1280, 720)
  /\ journal (SimpleTelegramBot.store
               (fst (SimpleTelegramBot.handle_callback_query
                       (SimpleTelegramBot.ai_processor offline_env)
                       (press "resize_720p")
                       (fst (SimpleTelegramBot.handle_photo sample_files sample_upload
                               stale_simple_bot)))))
     = [ Called "resize_image" upload ].
Proof.
  assert (H1 : largest_photo (message_photo sample_upload)
               = Some {| file_id := "AgACAgIAAxkBAAM";
                         photo_width := 1280; photo_height := 960 |}) by reflexivity.
  assert (H2 : getFile sample_files "AgACAgIAAxkBAAM" = Some "photos/file_7.jpg")
    by reflexivity.
  assert (H3 : file_url sample_files "photos/file_7.jpg"
               = Response 200 (ImageFile JPEG RGB 1280 960)) by reflexivity.
  assert (H4 : 200 < 400) by reflexivity.
  assert (H5 : from_id (press "resize_720p") = message_from sample_upload)
    by reflexivity.
  assert (H6 : size_map (data (press "resize_720p")) = Some (1280, 720))
    by reflexivity.
  split; [exact H1|]. split; [exact H2|]. split; [exact H3|]. split; [exact H4|].
  split; [exact H5|]. split; [exact H6|].
  exact (proj1 (upload_then_resize_uses_the_upload offline_env sample_files
                  sample_upload (press "resize_720p") stale_simple_bot
                  _ _ _ _ 1280 720 H1 H2 H3 H4 H5 H6)).
Defined.

(** ** [webhook_server.py] *)

(** X21.  [webhook_server.handle_callback_query] with a stored photo whose
    file exists acts on "remove_bg" and on the four keys of its resize
    table only.  Every other action, among them the main menu's "resize",
    "crop", "generate_bg", "enhance" and "convert" and the key
    "resize_mobile", is answered with [answerCallbackQuery] and nothing
    else: no message is edited, no processor method is called, disk and
    sessions stay as they were. *)
Theorem webhook_ignores_other_actions ev (cq : callback_query)
    (b : WebhookServer.server) (photo_path : string) :
  WebhookServer.user_photos b !! from_id cq = Some photo_path ->
  photo_path <> EmptyString ->
  is_Some (files (WebhookServer.store b) !! photo_path) ->
  data cq <> "remove_bg" ->
  WebhookServer.size_map (data cq) = None ->
  WebhookServer.handle_callback_query ev cq b
  = ({| WebhookServer.store := WebhookServer.store b;
        WebhookServer.user_photos := WebhookServer.user_photos b;
        WebhookServer.outbox :=
          WebhookServer.outbox b ++ [ answerCallbackQuery (id cq) ] |},
     Ok tt).
Proof.
  intros Hphoto Hne [f Hf] Haction Hsize.
  apply String.eqb_neq in Hne, Haction.
  unfold WebhookServer.handle_callback_query.
  unfold try_except at 1, bind at 1, WebhookServer.api_request at 1.
  unfold bind at 1, WebhookServer.get_photo.
  cbn [WebhookServer.user_photos WebhookServer.store WebhookServer.outbox].
  rewrite Hphoto, Hne.
  unfold bind at 1, WebhookServer.os_path_exists.
  cbn [WebhookServer.user_photos WebhookServer.store WebhookServer.outbox].
  rewrite Hf, Haction, Hsize.
  destruct (startswith (data cq) "resize_"); reflexivity.
Qed.

Lemma webhook_ignores_other_actions_witness :
  WebhookServer.user_photos (server_with (ImageFile JPEG RGB 1280 960))
    !! from_id (press "crop_square") = Some upload
  /\ upload <> EmptyString
  /\ is_Some (files (WebhookServer.store (server_with (ImageFile JPEG RGB 1280 960)))
                !! upload)
  /\ data (press "crop_square") <> "remove_bg"
  /\ WebhookServer.size_map (data (press "crop_square")) = None
  /\ WebhookServer.handle_callback_query offline_env (press "crop_square")
       (server_with (ImageFile JPEG RGB 1280 960))
     = ({| WebhookServer.store := disk_with (ImageFile JPEG RGB 1280 960);
           WebhookServer.user_photos := {[ 42 := upload ]};
           WebhookServer.outbox := [ answerCallbackQuery "cbq-1" ] |},
        Ok tt).
Proof.
  assert (H1 : WebhookServer.user_photos (server_with (ImageFile JPEG RGB 1280 960))
                 !! from_id (press "crop_square") = Some upload) by reflexivity.
  assert (H2 : upload <> EmptyString) by discriminate.
  assert (H3 : is_Some (files (WebhookServer.store
                                 (server_with (ImageFile JPEG RGB 1280 960)))
                          !! upload))
    by (exists (ImageFile JPEG RGB 1280 960); reflexivity).
  assert (H4 : data (press "crop_square") <> "remove_bg") by discriminate.
  assert (H5 : WebhookServer.size_map (data (press "crop_square")) = None)
    by reflexivity.
  split; [exact H1|]. split; [exact H2|]. split; [exact H3|]. split; [exact H4|].
  split; [exact H5|].
  exact (webhook_ignores_other_actions offline_env (press "crop_square")
           (server_with (ImageFile JPEG RGB 1280 960)) upload H1 H2 H3 H4 H5).
Defined.

Lemma webhook_size_map_key (action : string) (wh : Z * Z) :
  WebhookServer.size_map action = Some wh ->
  String.eqb action "remove_bg" = false /\ startswith action "resize_" = true.
Proof.
  unfold WebhookServer.size_map. intros Hsize.
  repeat match type of Hsize with
         | (if String.eqb ?a ?k then _ else _) = _ =>
             let E := fresh "E" in
             destruct (String.eqb a k) eqn:E;
               [apply String.eqb_eq in E; rewrite E; split; reflexivity|]
         end.
  discriminate.
Qed.



(** ** [webhook_server.py]: uploads *)

Lemma uploads_join (x : string) :
  os_path_join "uploads" ("temp_" ++ x) = "uploads/temp_" ++ x.
Proof. reflexivity. Qed.

(** X23.  A photo upload handled by [webhook_server.handle_photo_message]:
    the variant of largest area is fetched; when [getFile] succeeds and the
    download is answered with status 200, the bytes are saved under a fresh
    [uploads/temp_<uuid>.jpg] name, that path becomes the user's session,
    replacing an earlier one and leaving the other users' sessions alone,
    and the main menu is sent. *)
Theorem webhook_upload_stores_largest (tg : file_service) (uuid_hex : nat -> string)
    (message : photo_message) (b : WebhookServer.server) (p : photo_size)
    (file_path : string) (content : file) :
  largest_photo (message_photo message) = Some p ->
  getFile tg (file_id p) = Some file_path ->
  file_url tg file_path = Response 200 content ->
  let temp_path :=
    "uploads/temp_" ++ uuid_hex (drawn (WebhookServer.store b)) ++ ".jpg" in
  WebhookServer.handle_photo_message tg uuid_hex message b
  = ({| WebhookServer.store :=
          {| files := <[temp_path := content]> (files (WebhookServer.store b));
             drawn := S (drawn (WebhookServer.store b));
             journal := journal (WebhookServer.store b) |};
        WebhookServer.user_photos :=
          <[message_from message := temp_path]> (WebhookServer.user_photos b);
        WebhookServer.outbox :=
          WebhookServer.outbox b
            ++ [ sendMessage (message_chat message)
                   "📸 *Photo received! What would you like to do?*"
                   (Some main_menu) ] |},
     Ok tt)
  /\ In p (message_photo message)
  /\ Forall (fun q => area q <= area p) (message_photo message).
Proof.
  intros Hlargest Hget Hurl temp_path. split; [|now apply largest_photo_spec].
  unfold WebhookServer.handle_photo_message, WebhookServer.download_photo.
  rewrite Hlargest. cbv beta iota delta [bind ret try_except].
  rewrite Hget, Hurl. change (negb (200 =? 200)) with false. cbv beta iota.
  unfold WebhookServer.draw, WebhookServer.lift, write_file.
  cbn [WebhookServer.store WebhookServer.user_photos WebhookServer.outbox
       files drawn journal].
  rewrite uploads_join. fold temp_path.
  replace (String.eqb temp_path EmptyString) with false by reflexivity.
  reflexivity.
Qed.

Lemma webhook_upload_stores_largest_witness :
  largest_photo (message_photo sample_upload)
  = Some {| file_id := "AgACAgIAAxkBAAM"; photo_width := 1280; photo_height := 960 |}
  /\ getFile sample_files "AgACAgIAAxkBAAM" = Some "photos/file_7.jpg"
  /\ file_url sample_files "photos/file_7.jpg"
     = Response 200 (ImageFile JPEG RGB 1280 960)
  /\ WebhookServer.user_photos
       (fst (WebhookServer.handle_photo_message sample_files
               (fun n => "5f2b" ++ str (Z.of_nat n)) sample_upload stale_server))
       !! 42
     = Some "uploads/temp_5f2b0.jpg".
Proof.
  assert (H1 : largest_photo (message_photo sample_upload)
               = Some {| file_id := "AgACAgIAAxkBAAM";
                         photo_width := 1280; photo_height := 960 |}) by reflexivity.
  assert (H2 : getFile sample_files "AgACAgIAAxkBAAM" = Some "photos/file_7.jpg")
    by reflexivity.
  assert (H3 : file_url sample_files "photos/file_7.jpg"
               = Response 200 (ImageFile JPEG RGB 1280 960)) by reflexivity.
  split; [exact H1|]. split; [exact H2|]. split; [exact H3|].
  rewrite (proj1 (webhook_upload_stores_largest sample_files
                    (fun n => "5f2b" ++ str (Z.of_nat n)) sample_upload stale_server
                    _ _ _ H1 H2 H3)).
  cbn [fst WebhookServer.user_photos]. apply lookup_insert_eq.
Defined.

(** X24.  When the photo cannot be downloaded ([getFile] fails, or the
    download is answered with a status other than 200, or the connection
    fails), [webhook_server.handle_photo_message] ends normally, sends
    "Failed to download photo", writes no file and leaves every session,
    also an earlier one of the same user, as it was. *)
Theorem webhook_upload_failure_keeps_state (tg : file_service)
    (uuid_hex : nat -> string) (message : photo_message) (b : WebhookServer.server)
    (p : photo_size) :
  largest_photo (message_photo message) = Some p ->
  (getFile tg (file_id p) = None
   \/ exists file_path,
        getFile tg (file_id p) = Some file_path
        /\ (file_url tg file_path = ConnectionError
            \/ exists status_code content,
                 file_url tg file_path = Response status_code content
                 /\ status_code <> 200)) ->
  WebhookServer.handle_photo_message tg uuid_hex message b
  = ({| WebhookServer.store := WebhookServer.store b;
        WebhookServer.user_photos := WebhookServer.user_photos b;
        WebhookServer.outbox :=
          WebhookServer.outbox b
            ++ [ sendMessage (message_chat message)
                   "❌ Failed to download photo. Please try again." None ] |},
     Ok tt).
Proof.
  intros Hlargest Hfail.
  unfold WebhookServer.handle_photo_message, WebhookServer.download_photo.
  rewrite Hlargest. cbv beta iota delta [bind ret try_except].
  destruct Hfail as [Hget | (file_path & Hget & Hfail)].
  { rewrite Hget. reflexivity. }
  rewrite Hget.
  destruct Hfail as [Hurl | (status_code & content & Hurl & Hstatus)].
  { rewrite Hurl. reflexivity. }
  rewrite Hurl. apply Z.eqb_neq in Hstatus. rewrite Hstatus. reflexivity.
Qed.

Lemma webhook_upload_failure_keeps_state_witness :
  largest_photo
    [ {| file_id := "AgACAgIAAxkBAAQ"; photo_width := 1280; photo_height := 960 |} ]
  = Some {| file_id := "AgACAgIAAxkBAAQ"; photo_width := 1280; photo_height := 960 |}
  /\ getFile sample_files "AgACAgIAAxkBAAQ" = Some "photos/file_8.jpg"
  /\ file_url sample_files "photos/file_8.jpg" = Response 404 (RawFile [])
  /\ WebhookServer.handle_photo_message sample_files (fun n => "5f2b" ++ str (Z.of_nat n))
       {| message_chat := 7; message_from := 42;
          message_photo :=
            [ {| file_id := "AgACAgIAAxkBAAQ";
                 photo_width := 1280; photo_height := 960 |} ] |}
       stale_server
     = ({| WebhookServer.store := empty_disk;
           WebhookServer.user_photos := {[ 42 := upload ]};
           WebhookServer.outbox :=
             [ sendMessage 7 "❌ Failed to download photo. Please try again." None ] |},
        Ok tt).
Proof.
  split; [reflexivity|]. split; [reflexivity|]. split; [reflexivity|].
  apply (webhook_upload_failure_keeps_state sample_files _
           {| message_chat := 7; message_from := 42;
              message_photo :=
                [ {| file_id := "AgACAgIAAxkBAAQ";
                     photo_width := 1280; photo_height := 960 |} ] |}
           stale_server _ eq_refl).
  right. eexists. split; [reflexivity|]. right.
  exists 404, (RawFile []). split; [reflexivity | discriminate].
Defined.

(** ** [TelegramBot] *)

(** A user without a session is asked for a photo. *)
Lemma telegram_bot_without_state (P : TelegramBot.processor) (cq : callback_query)
    (b : TelegramBot.bot) :
  TelegramBot.user_states b !! from_id cq = None ->
  TelegramBot.handle_callback P cq b
  = ({| TelegramBot.store := TelegramBot.store b;
        TelegramBot.user_states := TelegramBot.user_states b;
        TelegramBot.outbox :=
          TelegramBot.outbox b
            ++ [ answerCallbackQuery (id cq);
                 editMessageText (message_chat_id cq) (message_message_id cq)
                   "❌ Please send a photo first!" None ] |},
     Ok tt).
Proof.
  intros Hstate. unfold TelegramBot.handle_callback.
  unfold bind at 1, TelegramBot.api_request at 1.
  unfold try_except at 1, bind at 1, TelegramBot.get_user_state.
  cbn [TelegramBot.user_states TelegramBot.store TelegramBot.outbox].
  rewrite Hstate.
  unfold TelegramBot.edit_message_text, TelegramBot.api_request.
  cbn [TelegramBot.user_states TelegramBot.store TelegramBot.outbox].
  rewrite <- app_assoc. reflexivity.
Qed.

(** X25.  [TelegramBot.handle_callback] drops a session whose photo file is
    gone: the press that finds the file missing is answered with the expiry
    notice, and the next press of the same user, whatever its action, is
    answered with "Please send a photo first!"; neither press calls the
    processor or touches the disk, and the sessions of the other users stay
    as they were. *)
Theorem expired_session_is_dropped (P : TelegramBot.processor)
    (cq cq' : callback_query) (b : TelegramBot.bot) (state : gmap string string) :
  TelegramBot.user_states b !! from_id cq = Some state ->
  match state !! "photo_path" with
  | Some p => p = EmptyString \/ files (TelegramBot.store b) !! p = None
  | None => True
  end ->
  from_id cq' = from_id cq ->
  TelegramBot.handle_callback P cq' (fst (TelegramBot.handle_callback P cq b))
  = ({| TelegramBot.store := TelegramBot.store b;
        TelegramBot.user_states := delete (from_id cq) (TelegramBot.user_states b);
        TelegramBot.outbox :=
          TelegramBot.outbox b
            ++ [ answerCallbackQuery (id cq);
                 editMessageText (message_chat_id cq) (message_message_id cq)
                   "❌ Photo file expired. Please send a new photo!" None;
                 answerCallbackQuery (id cq');
                 editMessageText (message_chat_id cq') (message_message_id cq')
                   "❌ Please send a photo first!" None ] |},
     Ok tt).
Proof.
  intros Hstate Hguard Hfrom.
  rewrite (telegram_bot_guard P cq b state Hstate Hguard). cbn [fst].
  rewrite telegram_bot_without_state.
  - cbn [TelegramBot.user_states TelegramBot.store TelegramBot.outbox].
    rewrite <- app_assoc. reflexivity.
  - cbn [TelegramBot.user_states]. rewrite Hfrom. apply lookup_delete_eq.
Qed.

Lemma expired_session_is_dropped_witness :
  TelegramBot.user_states stale_telegram_bot !! from_id (press "resize_720p")
  = Some {[ "photo_path" := upload ]}
  /\ files (TelegramBot.store stale_telegram_bot) !! upload = None
  /\ from_id (press "crop_square") = from_id (press "resize_720p")
  /\ TelegramBot.outbox
       (fst (TelegramBot.handle_callback (TelegramBot.simple_processor offline_env)
               (press "crop_square")
               (fst (TelegramBot.handle_callback
                       (TelegramBot.simple_processor offline_env)
                       (press "resize_720p") stale_telegram_bot))))
     = [ answerCallbackQuery "cbq-1";
         editMessageText 7 99 "❌ Photo file expired. Please send a new photo!" None;
         answerCallbackQuery "cbq-1";
         editMessageText 7 99 "❌ Please send a photo first!" None ].
Proof.
  assert (H1 : TelegramBot.user_states stale_telegram_bot
                 !! from_id (press "resize_720p")
               = Some {[ "photo_path" := upload ]}) by reflexivity.
  assert (H2 : match ({[ "photo_path" := upload ]} : gmap string string)
                       !! "photo_path" with
               | Some p => p = EmptyString
                           \/ files (TelegramBot.store stale_telegram_bot) !! p = None
               | None => True
               end) by (right; reflexivity).
  assert (H3 : from_id (press "crop_square") = from_id (press "resize_720p"))
    by reflexivity.
  split; [exact H1|]. split; [reflexivity|]. split; [exact H3|].
  rewrite (expired_session_is_dropped (TelegramBot.simple_processor offline_env)
             (press "resize_720p") (press "crop_square") stale_telegram_bot
             _ H1 H2 H3).
  reflexivity.
Defined.

Section KeepsStates.

Lemma keeps_states_ret {A} (a : A) : keeps_states (ret a).
Proof. intros b. reflexivity. Qed.

Lemma keeps_states_raise {A} (e : exn) : keeps_states (@raise TelegramBot.bot A e).
Proof. intros b. reflexivity. Qed.

Lemma keeps_states_api_request (c : api_call) :
  keeps_states (TelegramBot.api_request c).
Proof. intros b. reflexivity. Qed.

Lemma keeps_states_lift {A} (m : M A) : keeps_states (TelegramBot.lift m).
Proof.
  intros b. unfold TelegramBot.lift.
  destruct (m (TelegramBot.store b)) as [d r]. reflexivity.
Qed.

Lemma keeps_states_bind {A B} (m : TelegramBot.B A) (k : A -> TelegramBot.B B) :
  keeps_states m -> (forall a, keeps_states (k a)) -> keeps_states (bind m k).
Proof.
  intros Hm Hk b. unfold bind. specialize (Hm b).
  destruct (m b) as [b1 [a|e]]; cbn [fst] in *; [|exact Hm].
  now rewrite Hk.
Qed.

Lemma keeps_states_try {A} (body : TelegramBot.B A)
    (handler : exn -> TelegramBot.B A) :
  keeps_states body -> (forall e, keeps_states (handler e)) ->
  keeps_states (try_except body handler).
Proof.
  intros Hb Hh b. unfold try_except. specialize (Hb b).
  destruct (body b) as [b1 [a|e]]; cbn [fst] in *; [exact Hb|].
  now rewrite Hh.
Qed.

End KeepsStates.

Ltac states :=
  repeat lazymatch goal with
  | |- keeps_states (try_except _ _) => apply keeps_states_try; [|intros ?]
  | |- keeps_states (bind _ _) => apply keeps_states_bind; [|intros ?]
  | |- keeps_states (ret _) => apply keeps_states_ret
  | |- keeps_states (raise _) => apply keeps_states_raise
  | |- keeps_states (TelegramBot.api_request _) => apply keeps_states_api_request
  | |- keeps_states (TelegramBot.edit_message_text _ _ _) =>
      apply keeps_states_api_request
  | |- keeps_states (TelegramBot.lift _) => apply keeps_states_lift
  | |- keeps_states (TelegramBot.reply_photo _ _ _) => unfold TelegramBot.reply_photo
  | |- keeps_states (TelegramBot.reply_document _ _ _ _) =>
      unfold TelegramBot.reply_document
  | |- keeps_states (if ?c then _ else _) => destruct c
  | |- keeps_states (let '(_, _) := ?p in _) => destruct p
  | |- keeps_states (match ?x with _ => _ end) => destruct x
  end.

(** With the photo in place, [handle_callback] runs the action. *)
Lemma telegram_bot_with_photo (P : TelegramBot.processor) (cq : callback_query)
    (b : TelegramBot.bot) (state : gmap string string) (photo_path : string) (f : file) :
  TelegramBot.user_states b !! from_id cq = Some state ->
  state !! "photo_path" = Some photo_path ->
  photo_path <> EmptyString ->
  files (TelegramBot.store b) !! photo_path = Some f ->
  exists b2,
    TelegramBot.handle_callback P cq b = (b2, Ok tt)
    /\ TelegramBot.user_states b2 = TelegramBot.user_states b.
Proof.
  intros Hstate Hpath Hne Hf. apply String.eqb_neq in Hne.
  unfold TelegramBot.handle_callback.
  unfold bind at 1, TelegramBot.api_request at 1.
  unfold try_except at 1, bind at 1, TelegramBot.get_user_state.
  cbn [TelegramBot.user_states TelegramBot.store TelegramBot.outbox].
  rewrite Hstate, Hpath, Hne.
  unfold bind at 1, TelegramBot.os_path_exists.
  cbn [TelegramBot.user_states TelegramBot.store TelegramBot.outbox].
  rewrite Hf.
  match goal with
  | |- exists _, (let (_, _) := ?body ?b1 in _) = _ /\ _ =>
      assert (Hkeep : keeps_states body);
      [ unfold TelegramBot.process_resize, TelegramBot.process_crop,
          TelegramBot.process_remove_background,
          TelegramBot.process_generate_background,
          TelegramBot.process_enhance_quality, TelegramBot.process_convert_format;
        states
      | specialize (Hkeep b1); destruct (body b1) as [b2 [[]|e]]; cbn [fst snd] in * ]
  end.
  - exists b2. split; [reflexivity | exact Hkeep].
  - eexists. split; [reflexivity|]. exact Hkeep.
Qed.

(** X26.  [TelegramBot.handle_callback], for every processor (also one
    whose methods raise), callback and state: the handler ends normally;
    it changes the sessions in one case only, dropping the session of the
    pressing user when that session's photo file is gone; with the photo in
    place the sessions are exactly as they were, whether the action
    succeeds, fails or is unknown. *)
Theorem telegram_callback_changes_sessions_only_on_expiry (P : TelegramBot.processor)
    (cq : callback_query) (b : TelegramBot.bot) :
  snd (TelegramBot.handle_callback P cq b) = Ok tt
  /\ (TelegramBot.user_states (fst (TelegramBot.handle_callback P cq b))
      = TelegramBot.user_states b
      \/ (TelegramBot.user_states (fst (TelegramBot.handle_callback P cq b))
          = delete (from_id cq) (TelegramBot.user_states b)
          /\ exists state,
               TelegramBot.user_states b !! from_id cq = Some state
               /\ match state !! "photo_path" with
                  | Some p => p = EmptyString
                              \/ files (TelegramBot.store b) !! p = None
                  | None => True
                  end)).
Proof.
  destruct (TelegramBot.user_states b !! from_id cq) as [state|] eqn:Hstate.
  2:{ rewrite telegram_bot_without_state by exact Hstate.
      split; [reflexivity | now left]. }
  destruct (state !! "photo_path") as [p|] eqn:Hp.
  2:{ rewrite (telegram_bot_guard P cq b state Hstate) by now rewrite Hp.
      split; [reflexivity|]. right. split; [reflexivity|].
      exists state. rewrite Hp. auto. }
  destruct (String.eqb p EmptyString) eqn:Hempty.
  { apply String.eqb_eq in Hempty.
    rewrite (telegram_bot_guard P cq b state Hstate) by (rewrite Hp; now left).
    split; [reflexivity|]. right. split; [reflexivity|].
    exists state. rewrite Hp. auto. }
  apply String.eqb_neq in Hempty.
  destruct (files (TelegramBot.store b) !! p) as [f|] eqn:Hf.
  - destruct (telegram_bot_with_photo P cq b state p f Hstate Hp Hempty Hf)
      as (b2 & -> & Hkeep).
    split; [reflexivity | now left].
  - rewrite (telegram_bot_guard P cq b state Hstate) by (rewrite Hp; now right).
    split; [reflexivity|]. right. split; [reflexivity|].
    exists state. rewrite Hp. auto.
Qed.
